(** * TruthGuard claim-verification core: a shallow embedding

    The development follows the Python sources of the backend:

    - [app/utils/scoring.py]                  (module [Scoring])
    - [app/services/credibility_analyzer.py]  (module [Credibility])
    - [app/services/llm.py]                   (module [LLM])
    - [app/services/claim_extractor.py]       (module [Extractor])
    - [app/services/search_engine.py]         (module [Search])
    - [app/services/autogen_service.py]       (module [AutoGen])
    - [app/routes/verify.py]                  (module [Pipeline])
    - [app/routes/kb.py]                      (module [KbAnalysis])
    - [app/services/category_detector.py]     (module [Category])

    Modelling conventions.

    - A Python [str] is a [string] of code points below 256; [lower],
      [strip] and [split] follow CPython on that range.
    - A Python [float] is an exact rational ([Q]); a decimal literal
      denotes its decimal value, and results of arithmetic are compared
      with [==].  Rounding, NaN and infinities are outside the model;
      the [OverflowError] of [float] on an integer too large for a
      double is inside it.
    - A [dict] read with [.get] is a record of optional fields.
    - A call that may raise returns a [result]; network calls, the
      standard library's JSON codec and the spaCy parser are fields of an
      environment record. *)

From Stdlib Require Import String Ascii List Bool Arith ZArith QArith Qminmax Qround Qabs Lia.
From Stdlib Require Import DecimalString Lqa Sorted Permutation.
Import ListNotations.

Open Scope string_scope.
Open Scope list_scope.
Open Scope nat_scope.

(* ================================================================== *)
(** * Part I. The model *)
(* ================================================================== *)

(** ** Python string primitives *)

Module PyStr.

(** [ch.lower()] for a code point below 256: A-Z and the Latin-1
    capitals 192-222 (except the multiplication sign 215) move up by 32. *)
Definition lower_char (c : ascii) : ascii :=
  let n := nat_of_ascii c in
  if (((65 <=? n) && (n <=? 90))
      || ((192 <=? n) && (n <=? 222) && negb (n =? 215)))%nat
  then ascii_of_nat (n + 32) else c.

(** [s.lower()] *)
Fixpoint lower (s : string) : string :=
  match s with
  | EmptyString => EmptyString
  | String c t => String (lower_char c) (lower t)
  end.

(** [ch.isspace()] for a code point below 256. *)
Definition isspace (c : ascii) : bool :=
  let n := nat_of_ascii c in
  (((9 <=? n) && (n <=? 13)) || ((28 <=? n) && (n <=? 32))
   || (n =? 133) || (n =? 160))%nat.

(** [s.lstrip()] *)
Fixpoint lstrip (s : string) : string :=
  match s with
  | EmptyString => EmptyString
  | String c t => if isspace c then lstrip t else s
  end.

(** [s.rstrip()] *)
Fixpoint rstrip (s : string) : string :=
  match s with
  | EmptyString => EmptyString
  | String c t =>
      match rstrip t with
      | EmptyString => if isspace c then EmptyString else String c EmptyString
      | t' => String c t'
      end
  end.

(** [s.strip()] *)
Definition strip (s : string) : string := rstrip (lstrip s).

(** [sub in s] *)
Fixpoint isin (sub s : string) : bool :=
  if prefix sub s then true
  else match s with
       | EmptyString => false
       | String _ t => isin sub t
       end.

(** [s.endswith(suffix)] *)
Fixpoint endswith (s suffix : string) : bool :=
  if String.eqb s suffix then true
  else match s with
       | EmptyString => false
       | String _ t => endswith t suffix
       end.

(** [s[:n]] for [n >= 0] *)
Fixpoint take (n : nat) (s : string) : string :=
  match n, s with
  | S n', String c t => String c (take n' t)
  | _, _ => EmptyString
  end.

(** [s[n:]] for [n >= 0] *)
Fixpoint drop (n : nat) (s : string) : string :=
  match n, s with
  | S n', String _ t => drop n' t
  | _, _ => s
  end.

(** [s.split()]: the maximal runs of non-whitespace characters.
    [cur] holds the characters of the run being read, reversed. *)
Fixpoint split_ws_aux (cur : list ascii) (s : string) : list string :=
  let flush := match cur with
               | [] => []
               | _ => [string_of_list_ascii (rev cur)]
               end in
  match s with
  | EmptyString => flush
  | String c t =>
      if isspace c then flush ++ split_ws_aux [] t
      else split_ws_aux (c :: cur) t
  end.

Definition split_ws (s : string) : list string := split_ws_aux [] s.

(** [s.find(ch)] for a one-character needle: [None] stands for -1. *)
Fixpoint find_char (ch : ascii) (s : string) : option nat :=
  match s with
  | EmptyString => None
  | String c t =>
      if Ascii.eqb c ch then Some 0
      else option_map S (find_char ch t)
  end.

(** [s.rfind(ch)] for a one-character needle: [None] stands for -1. *)
Fixpoint rfind_char (ch : ascii) (s : string) : option nat :=
  match s with
  | EmptyString => None
  | String c t =>
      match rfind_char ch t with
      | Some i => Some (S i)
      | None => if Ascii.eqb c ch then Some 0 else None
      end
  end.

(** [s.replace(old, "")] for a non-empty [old]: every non-overlapping
    occurrence, scanning from the left, is removed. *)
Fixpoint remove_all (old : string) (s : string) (fuel : nat) : string :=
  match fuel with
  | O => s
  | S fuel' =>
      if prefix old s then remove_all old (drop (String.length old) s) fuel'
      else match s with
           | EmptyString => EmptyString
           | String c t => String c (remove_all old t fuel')
           end
  end.

Definition replace_with_empty (old s : string) : string :=
  remove_all old s (S (String.length s)).

(** [str(n)] for a non-negative integer. *)
Definition of_nat (n : nat) : string :=
  NilEmpty.string_of_uint (Nat.to_uint n).

(** [sep.join(parts)] *)
Fixpoint join (sep : string) (parts : list string) : string :=
  match parts with
  | [] => EmptyString
  | [p] => p
  | p :: rest => p ++ sep ++ join sep rest
  end.

(** The double-quote character, as a string. *)
Definition dq : string := String (ascii_of_nat 34) EmptyString.

(** The newline character, as a string. *)
Definition nl : string := String (ascii_of_nat 10) EmptyString.

End PyStr.

(** ** Python number primitives *)

Module PyNum.

Local Open Scope Q_scope.

(** [min(a, b)]: [b] only when it is strictly smaller. *)
Definition min (a b : Q) : Q := Qmin a b.

(** [max(a, b)]: [b] only when it is strictly larger. *)
Definition max (a b : Q) : Q := Qmax a b.

(** [float(n)] for a list length or a counter. *)
Definition of_nat (n : nat) : Q := inject_Z (Z.of_nat n).

(** [sum(xs)] starting from 0. *)
Definition sum (xs : list Q) : Q := fold_left Qplus xs 0.

(** A value of [[0,1]]. *)
Definition in_unit (q : Q) : Prop := 0 <= q /\ q <= 1.

End PyNum.

(** ** Dicts read through [.get] *)

Module PyDict.

(** [d.get(key, default)], the key being a field that may be absent. *)
Definition get_or {A : Type} (field : option A) (default : A) : A :=
  match field with
  | Some x => x
  | None => default
  end.

End PyDict.

(** ** [app/utils/scoring.py] *)

Module Scoring.

Import PyStr PyDict.
Local Open Scope Q_scope.

Definition true_variants : list string :=
  ["true"; "correct"; "accurate"; "verified"; "factual"]%string.
Definition false_variants : list string :=
  ["false"; "incorrect"; "inaccurate"; "debunked"; "disproven"]%string.
Definition misleading_variants : list string :=
  ["misleading"; "partially true"; "partially false"; "mixed"; "unclear"]%string.

(** [any(v in verdict_lower for v in variants)] *)
Definition any_in (variants : list string) (s : string) : bool :=
  existsb (fun v => isin v s) variants.

Definition normalize_verdict (verdict : string) : string :=
  let verdict_lower := strip (lower verdict) in
  if any_in true_variants verdict_lower then "true"
  else if any_in false_variants verdict_lower then "false"
  else if any_in misleading_variants verdict_lower then "misleading"
  else "unverified".

(** An entry of the list given to [aggregate_verdicts]: a dict read
    through [.get("verdict", ...)] and [.get("confidence", ...)]. *)
Record verdict_dict : Type := mk_verdict_dict {
  vd_verdict : option string;
  vd_confidence : option Q
}.

(** The dict returned by [aggregate_verdicts]; the key
    ["distribution"] is absent from the result for an empty input. *)
Record aggregate : Type := mk_aggregate {
  agg_verdict : string;
  agg_confidence : Q;
  agg_count : nat;
  agg_distribution : option (list (string * nat))
}.

(** [verdict_counts[verdict] = verdict_counts.get(verdict, 0) + 1] on a
    dict kept as the list of its items in insertion order. *)
Fixpoint count_incr (counts : list (string * nat)) (verdict : string)
  : list (string * nat) :=
  match counts with
  | [] => [(verdict, 1%nat)]
  | (k, n) :: rest =>
      if String.eqb k verdict then (k, (n + 1)%nat) :: rest
      else (k, n) :: count_incr rest verdict
  end.

(** The counting loop over [normalized]. *)
Definition count_verdicts (normalized : list string) : list (string * nat) :=
  fold_left count_incr normalized [].

(** The scan of [max(items, key=lambda x: x[1])] after its first item:
    the running best is replaced only by a strictly larger count. *)
Fixpoint max_scan (best : string * nat) (items : list (string * nat))
  : string * nat :=
  match items with
  | [] => best
  | it :: rest =>
      max_scan (if (snd best <? snd it)%nat then it else best) rest
  end.

(** [max(items, key=lambda x: x[1])]; [None] is the [ValueError] of an
    empty sequence. *)
Definition max_by_count (items : list (string * nat)) : option (string * nat) :=
  match items with
  | [] => None
  | it :: rest => Some (max_scan it rest)
  end.

(** [[v for v, n in zip(verdicts, normalized) if n == final_verdict]] *)
Definition matching_verdicts (verdicts : list verdict_dict)
           (normalized : list string) (final_verdict : string)
  : list verdict_dict :=
  map fst (filter (fun vn => String.eqb (snd vn) final_verdict)
                  (combine verdicts normalized)).

(** [aggregate_verdicts(verdicts)]; [None] stands for a raised
    exception. *)
Definition aggregate_verdicts (verdicts : list verdict_dict) : option aggregate :=
  match verdicts with
  | [] => Some (mk_aggregate "unverified" 0 0 None)
  | _ :: _ =>
      let normalized :=
        map (fun v => normalize_verdict (get_or (vd_verdict v) "unverified")) verdicts in
      let verdict_counts := count_verdicts normalized in
      match max_by_count verdict_counts with
      | None => None
      | Some best =>
          let final_verdict := fst best in
          let matching := matching_verdicts verdicts normalized final_verdict in
          let avg_confidence :=
            match matching with
            | [] => 0
            | _ :: _ =>
                PyNum.sum (map (fun v => get_or (vd_confidence v) 0) matching)
                / PyNum.of_nat (List.length matching)
            end in
          Some (mk_aggregate final_verdict avg_confidence
                             (List.length verdicts) (Some verdict_counts))
      end
  end.

(** [max(verdict_counts.values())]; [None] is the [ValueError] of an
    empty sequence. *)
Definition max_count (counts : list (string * nat)) : option nat :=
  match map snd counts with
  | [] => None
  | n :: rest =>
      Some (fold_left (fun best x => if (best <? x)%nat then x else best) rest n)
  end.

(** [calculate_agreement_score(verdicts)]; [None] stands for a raised
    exception. *)
Definition calculate_agreement_score (verdicts : list string) : option Q :=
  match verdicts with
  | [] => Some 0.0
  | _ :: _ =>
      match max_count (count_verdicts verdicts) with
      | None => None
      | Some max_count =>
          Some (PyNum.of_nat max_count / PyNum.of_nat (List.length verdicts))
      end
  end.

(** A source dict, as far as [calculate_source_credibility_score]
    reads it: the key ["trust_score"] may be absent. *)
Record source_dict : Type := mk_source_dict {
  sd_trust_score : option Q
}.

(** [[s.get("trust_score", 0.5) for s in sources if "trust_score" in s]] *)
Definition credibility_scores (sources : list source_dict) : list Q :=
  flat_map (fun s => match sd_trust_score s with
                     | Some t => [t]
                     | None => []
                     end) sources.

Definition calculate_source_credibility_score (sources : list source_dict) : Q :=
  match sources with
  | [] => 0.0
  | _ :: _ =>
      match credibility_scores sources with
      | [] => 0.5
      | scores => PyNum.sum scores / PyNum.of_nat (List.length scores)
      end
  end.

(** [calculate_confidence_score(evidence_count, source_credibility,
    agreement_score, base_confidence)].  [math_log] is [math.log], which
    raises outside its domain; a zero [math.log(10)] would raise
    [ZeroDivisionError].  [None] stands for a raised exception. *)
Definition calculate_confidence_score (math_log : Q -> option Q)
           (evidence_count : Z) (source_credibility agreement_score : Q)
           (base_confidence : option Q) : option Q :=
  let base_confidence := get_or base_confidence 0.5 in
  match math_log (inject_Z (evidence_count + 1)) with
  | None => None
  | Some numerator =>
      match math_log 10 with
      | None => None
      | Some denominator =>
          if Qeq_bool denominator 0 then None
          else
            let evidence_factor := PyNum.min 1.0 (numerator / denominator) in
            let confidence :=
              base_confidence * 0.3 + evidence_factor * 0.3
              + source_credibility * 0.2 + agreement_score * 0.2 in
            Some (PyNum.max 0.0 (PyNum.min 1.0 confidence))
      end
  end.

End Scoring.

(** ** Exceptions *)

(** The two classes of exception that [verify_claim] tells apart. *)
Inductive exn : Type :=
| JSONDecodeError
| OtherException.

(** The outcome of a call that may raise. *)
Inductive result (A : Type) : Type :=
| Ok (a : A)
| Raise (e : exn).

Arguments Ok {A} a.
Arguments Raise {A} e.

Definition rbind {A B : Type} (r : result A) (f : A -> result B) : result B :=
  match r with
  | Ok a => f a
  | Raise e => Raise e
  end.

Declare Scope result_scope.
Delimit Scope result_scope with result.
Notation "x <- r ;; k" := (rbind r (fun x => k))
  (at level 61, r at next level, right associativity) : result_scope.

(** ** [app/services/credibility_analyzer.py] *)

Module Credibility.

Import PyStr.
Local Open Scope Q_scope.

Definition fact_check_domains : list string :=
  ["factcheck.org"; "snopes.com"; "politifact.com";
   "fullfact.org"; "checkyourfact.com"; "leadstories.com"]%string.

Definition unreliable_domains : list string :=
  ["infowars.com"; "naturalnews.com"]%string.

Definition academic_domains : list string :=
  [".edu"; ".ac.uk"; ".edu.au"]%string.

(** [x in some_set] for a set of strings. *)
Definition mem (x : string) (set : list string) : bool :=
  existsb (String.eqb x) set.

(** The [metrics] dict of [analyze_source], with the three keys that
    [metrics.update(additional_metrics)] adds ([None] until then). *)
Record metrics : Type := mk_metrics {
  domain : string;
  url : string;
  domain_age : string;
  trust_score : Q;
  popularity : string;
  bias : string;
  fact_check_history : list string;
  is_fact_checker : bool;
  is_unreliable : bool;
  is_academic : bool;
  tld : string;
  popularity_rank : option string;
  bias_rating : option string;
  country : option string
}.

(** What [analyze_source] returns: the metrics, or the report of its
    [except] branch, [{"domain": "unknown", "url": url,
    "trust_score": 0.0, "error": str(e)}]. *)
Inductive analysis : Type :=
| Analysed (m : metrics)
| Failed (domain : string) (url : string) (trust_score : Q).

Definition analysis_trust_score (a : analysis) : Q :=
  match a with
  | Analysed m => trust_score m
  | Failed _ _ t => t
  end.

Definition _estimate_domain_age (domain : string) : string :=
  if endswith domain ".edu" || endswith domain ".gov" then "established"
  else if endswith domain ".org" then "likely_established"
  else "unknown".

Definition _calculate_trust_score (m : metrics) : Q :=
  let score := 0.5 in
  let score := if is_fact_checker m then score + 0.3 else score in
  let score := if is_academic m then score + 0.2 else score in
  let score := if is_unreliable m then score - 0.4 else score in
  let score := if String.eqb (domain_age m) "established"
               then score + 0.1 else score in
  PyNum.max 0.0 (PyNum.min 1.0 score).

(** [netloc.split(".")[-1]]: what follows the last dot. *)
Fixpoint after_last_dot (s : string) : string :=
  match s with
  | EmptyString => EmptyString
  | String c t =>
      if isin "." t then after_last_dot t
      else if Ascii.eqb c "."%char then t
      else s
  end.

Definition set_trust_score (m : metrics) (t : Q) : metrics :=
  mk_metrics (domain m) (url m) (domain_age m) t (popularity m) (bias m)
             (fact_check_history m) (is_fact_checker m) (is_unreliable m)
             (is_academic m) (tld m) (popularity_rank m) (bias_rating m)
             (country m).

(** The dict of [_fetch_domain_metadata]. *)
Record metadata : Type := mk_metadata {
  md_popularity_rank : option string;
  md_bias_rating : option string;
  md_country : option string
}.

(** A placeholder in the source: every value is [None]. *)
Definition _fetch_domain_metadata (domain : string) : metadata :=
  mk_metadata None None None.

(** [metrics.update(additional_metrics)] *)
Definition update_with_metadata (m : metrics) (extra : metadata) : metrics :=
  mk_metrics (domain m) (url m) (domain_age m) (trust_score m) (popularity m)
             (bias m) (fact_check_history m) (is_fact_checker m)
             (is_unreliable m) (is_academic m) (tld m)
             (md_popularity_rank extra) (md_bias_rating extra) (md_country extra).

(** [analyze_source(url)].  [urlparse_netloc] is [urlparse(url).netloc]
    of the standard library, which may raise. *)
Definition analyze_source (urlparse_netloc : string -> result string)
           (the_url : string) : analysis :=
  match urlparse_netloc the_url with
  | Raise _ => Failed "unknown" the_url 0.0
  | Ok netloc =>
      let domain := lower (replace_with_empty "www." netloc) in
      let m := mk_metrics
                 domain the_url (_estimate_domain_age domain) 0.5
                 "unknown" "unknown" []
                 (mem domain fact_check_domains)
                 (mem domain unreliable_domains)
                 (existsb (fun ext => endswith domain ext) academic_domains)
                 (if isin "." netloc then after_last_dot netloc else "")
                 None None None in
      let m := set_trust_score m (_calculate_trust_score m) in
      Analysed (update_with_metadata m (_fetch_domain_metadata domain))
  end.

(** The dict returned by [analyze_multiple_sources]; the three counts
    are absent from the result for an empty list. *)
Record source_summary : Type := mk_source_summary {
  average_trust_score : Q;
  source_count : nat;
  fact_checker_sources : option nat;
  academic_sources : option nat;
  unreliable_sources : option nat;
  sources : list analysis
}.

(** [a.get(key)] as a truth value, for one of the three flags: the
    report of a failed analysis has none of them. *)
Definition flagged (flag : metrics -> bool) (a : analysis) : bool :=
  match a with
  | Analysed m => flag m
  | Failed _ _ _ => false
  end.

(** [sum(1 for a in analyses if a.get(key))] *)
Definition count_flagged (flag : metrics -> bool) (analyses : list analysis) : nat :=
  List.length (filter (flagged flag) analyses).

Definition analyze_multiple_sources (urlparse_netloc : string -> result string)
           (urls : list string) : source_summary :=
  let analyses := map (analyze_source urlparse_netloc) urls in
  match analyses with
  | [] => mk_source_summary 0.0 0 None None None []
  | _ :: _ =>
      let avg_trust :=
        PyNum.sum (map analysis_trust_score analyses)
        / PyNum.of_nat (List.length analyses) in
      mk_source_summary avg_trust (List.length analyses)
                        (Some (count_flagged is_fact_checker analyses))
                        (Some (count_flagged is_academic analyses))
                        (Some (count_flagged is_unreliable analyses))
                        analyses
  end.

End Credibility.

(** ** JSON values, as Python sees them *)

(** What [json.loads] and [response.json()] return.  Integers and floats
    are both read as rationals. *)
#[warnings="-register-all"] Inductive json : Type :=
| JNull
| JBool (b : bool)
| JNum (q : Q)
| JStr (s : string)
| JArr (items : list json)
| JObj (fields : list (string * json)).

Module PyVal.

Import PyStr.
Local Open Scope Q_scope.

(** The value bound to [key] in the items of a dict. *)
Fixpoint lookup (key : string) (fields : list (string * json)) : option json :=
  match fields with
  | [] => None
  | (k, v) :: rest => if String.eqb k key then Some v else lookup key rest
  end.

(** [x.get(key, default)]: only a dict has [.get]. *)
Definition dict_get (x : json) (key : string) (default : json) : result json :=
  match x with
  | JObj fields =>
      Ok (match lookup key fields with Some v => v | None => default end)
  | _ => Raise OtherException
  end.

(** [key in x] for a string [key]: key membership for a dict, element
    membership for a list, substring test for a string, [TypeError]
    otherwise. *)
Definition contains (key : string) (x : json) : result bool :=
  match x with
  | JObj fields =>
      Ok (match lookup key fields with Some _ => true | None => false end)
  | JArr items =>
      Ok (existsb (fun it => match it with
                             | JStr s => String.eqb s key
                             | _ => false
                             end) items)
  | JStr s => Ok (isin key s)
  | _ => Raise OtherException
  end.

(** [x[key]] for a string [key]. *)
Definition getitem (x : json) (key : string) : result json :=
  match x with
  | JObj fields =>
      match lookup key fields with
      | Some v => Ok v
      | None => Raise OtherException
      end
  | _ => Raise OtherException
  end.

(** [x[0]]: the first element of a list, the first character of a
    string; a dict from [json] has no integer key. *)
Definition getitem0 (x : json) : result json :=
  match x with
  | JArr (it :: _) => Ok it
  | JStr (String c _) => Ok (JStr (String c EmptyString))
  | _ => Raise OtherException
  end.

(** The least magnitude that no double holds: [2**1024 - 2**970], half
    way between the largest double and [2**1024]. *)
Definition float_overflow : Q := inject_Z (2 ^ 1024 - 2 ^ 970).

(** [float(x)].  [float_of_str] is [float] on a [str].  A number of
    magnitude [float_overflow] or more can only be an [int], and
    [float] raises [OverflowError] on it. *)
Definition to_float (float_of_str : string -> option Q) (x : json) : result Q :=
  match x with
  | JNum q =>
      if Qle_bool float_overflow (Qabs q) then Raise OtherException else Ok q
  | JBool b => Ok (if b then 1 else 0)
  | JStr s =>
      match float_of_str s with
      | Some q => Ok q
      | None => Raise OtherException
      end
  | _ => Raise OtherException
  end.

(** [x.strip()]: only a [str] has it. *)
Definition str_strip (x : json) : result string :=
  match x with
  | JStr s => Ok (strip s)
  | _ => Raise OtherException
  end.

End PyVal.

(** ** [app/services/llm.py] *)

Module LLM.

Import PyStr PyDict.
Local Open Scope Q_scope.

(** The attributes set by [LLMService.__init__]. *)
Record service : Type := mk_service {
  endpoint : string;
  model : string;
  temperature : Q;
  max_tokens : Z;
  strict_json : bool
}.

(** The JSON body of a request, one constructor per wire shape. *)
Inductive payload : Type :=
| OpenAIPayload (model prompt : string) (temperature : Q) (max_tokens : Z)
                (json_object_format : bool)
| OllamaPayload (model prompt : string) (temperature : Q) (num_predict : Z)
| CompletionPayload (prompt : string) (temperature : Q) (n_predict : Z).

(** What the code asks of the world outside the repository. *)
Record env : Type := mk_env {
  (** [client.post(endpoint, json=payload)], [raise_for_status()] and
      [response.json()] together. *)
  http_post : string -> payload -> result json;
  (** [json.loads], which raises [json.JSONDecodeError] on a text that
      is not JSON. *)
  json_loads : string -> result json;
  (** [json.dumps] *)
  json_dumps : json -> string;
  (** [str(data)] *)
  py_str : json -> string;
  (** [float(s)] for a [str]; [None] is [ValueError]. *)
  float_of_str : string -> option Q
}.

(** Outbound calls, recorded in the order they are made. *)
Inductive event : Type :=
| EvGenerate (prompt : string)
| EvPost (p : payload).

(** A computation that records events and may raise. *)
Definition M (A : Type) : Type := (list event * result A)%type.

Definition ret {A : Type} (a : A) : M A := ([], Ok a).

Definition lift {A : Type} (r : result A) : M A := ([], r).

Definition emit (ev : event) : M unit := ([ev], Ok tt).

Definition bind {A B : Type} (m : M A) (f : A -> M B) : M B :=
  match m with
  | (l, Ok a) => let (l', r) := f a in (l ++ l', r)
  | (l, Raise e) => (l, Raise e)
  end.

(** [try: m  except Exception as e: h e] *)
Definition try_except {A : Type} (m : M A) (h : exn -> M A) : M A :=
  match m with
  | (l, Raise e) => let (l', r) := h e in (l ++ l', r)
  | ok => ok
  end.

Declare Scope llm_scope.
Delimit Scope llm_scope with llm.
Notation "x <~ m ;; k" := (bind m (fun x => k))
  (at level 61, m at next level, right associativity) : llm_scope.
Notation "m ;;; k" := (bind m (fun _ => k))
  (at level 61, right associativity) : llm_scope.

Section WithEnv.

Variable E : env.
Variable self : service.

Definition post (p : payload) : M json :=
  ([EvPost p], http_post E (endpoint self) p).

Definition _format_json_prompt (prompt : string) : string :=
  prompt ++ nl ++ nl ++
  "Important: Respond with valid JSON only. Do not include any text before or after the JSON.".

(** The reading of an Ollama reply. *)
Definition read_ollama (data : json) : result json :=
  (has_response <- PyVal.contains "response" data ;;
   if has_response then PyVal.getitem data "response"
   else
     has_content <- PyVal.contains "content" data ;;
     if has_content then PyVal.getitem data "content"
     else Ok (JStr (py_str E data)))%result.

Definition _call_ollama_api (prompt : string) (temperature : Q)
           (max_tokens : Z) : M json :=
  (data <~ post (OllamaPayload (model self) prompt temperature max_tokens) ;;
   lift (read_ollama data))%llm.

(** The reading of an OpenAI-compatible reply. *)
Definition read_openai (data : json) : result json :=
  (has_choices <- PyVal.contains "choices" data ;;
   if has_choices then
     choices <- PyVal.getitem data "choices" ;;
     first <- PyVal.getitem0 choices ;;
     has_text <- PyVal.contains "text" first ;;
     if has_text then
       choices <- PyVal.getitem data "choices" ;;
       first <- PyVal.getitem0 choices ;;
       PyVal.getitem first "text"
     else
       choices <- PyVal.getitem data "choices" ;;
       first <- PyVal.getitem0 choices ;;
       message <- PyVal.getitem first "message" ;;
       PyVal.getitem message "content"
   else
     has_content <- PyVal.contains "content" data ;;
     if has_content then PyVal.getitem data "content"
     else Ok (JStr (py_str E data)))%result.

Definition _call_openai_api (prompt : string) (temperature : Q)
           (max_tokens : Z) (json_mode : bool) : M json :=
  if isin "11434" (endpoint self) || isin "/api/generate" (endpoint self)
  then _call_ollama_api prompt temperature max_tokens
  else
    (data <~ post (OpenAIPayload (model self) prompt temperature
                                 max_tokens json_mode) ;;
     lift (read_openai data))%llm.

(** The reading of a llama.cpp completion reply. *)
Definition read_completion (data : json) : result json :=
  (has_content <- PyVal.contains "content" data ;;
   if has_content then PyVal.getitem data "content"
   else
     has_text <- PyVal.contains "text" data ;;
     if has_text then PyVal.getitem data "text"
     else Ok (JStr (py_str E data)))%result.

Definition _call_completion_api (prompt : string) (temperature : Q)
           (max_tokens : Z) : M json :=
  (data <~ post (CompletionPayload prompt temperature max_tokens) ;;
   lift (read_completion data))%llm.

(** [sum(1 for indicator in indicators if indicator in text)] *)
Definition count_indicators (indicators : list string) (text : string) : nat :=
  List.length (filter (fun indicator => isin indicator text) indicators).

Definition _rule_based_fallback (prompt : string) : string :=
  let claim_lower := lower prompt in
  let false_indicators :=
    ["never happened"; "fake"; "hoax"; "conspiracy"; "false"; "not true"]%string in
  let true_indicators :=
    ["confirmed"; "verified"; "proven"; "fact"; "true"; "accurate"]%string in
  let misleading_indicators :=
    ["partially"; "somewhat"; "misleading"; "out of context"]%string in
  let false_count := count_indicators false_indicators claim_lower in
  let true_count := count_indicators true_indicators claim_lower in
  let misleading_count := count_indicators misleading_indicators claim_lower in
  let '(verdict, confidence, explanation) :=
    if ((true_count <? false_count) && (0 <? false_count))%nat then
      ("false", 0.6,
       "Based on keyword analysis, this claim appears to be false. However, this is a fallback analysis - for accurate verification, please set up a local LLM endpoint.")
    else if ((false_count <? true_count) && (0 <? true_count))%nat then
      ("true", 0.6,
       "Based on keyword analysis, this claim appears to be true. However, this is a fallback analysis - for accurate verification, please set up a local LLM endpoint.")
    else if (0 <? misleading_count)%nat then
      ("misleading", 0.55,
       "Based on keyword analysis, this claim may be misleading. However, this is a fallback analysis - for accurate verification, please set up a local LLM endpoint.")
    else
      ("unverified", 0.5,
       "Unable to verify using LLM. Please ensure a local LLM endpoint is running (e.g., LocalAI, llama.cpp, or TextGen WebUI) at the configured endpoint.")
  in
  json_dumps E (JObj [("verdict", JStr verdict);
                      ("confidence", JNum confidence);
                      ("explanation", JStr explanation);
                      ("citations", JArr [])]).

(** [generate(prompt, temperature, max_tokens, strict_json)]: an
    argument left at its default [None] is [None] here. *)
Definition generate (prompt : string) (temperature_arg : option Q)
           (max_tokens_arg : option Z) (strict_json_arg : option bool)
  : M json :=
  let temp := match temperature_arg with
              | Some t => t
              | None => temperature self
              end in
  let tokens := match max_tokens_arg with
                | Some n => if Z.eqb n 0 then max_tokens self else n
                | None => max_tokens self
                end in
  let json_mode := match strict_json_arg with
                   | Some b => b
                   | None => strict_json self
                   end in
  let prompt := if json_mode then _format_json_prompt prompt else prompt in
  (emit (EvGenerate prompt) ;;;
   try_except (_call_openai_api prompt temp tokens json_mode)
     (fun _ =>
        try_except (_call_completion_api prompt temp tokens)
          (fun _ => ret (JStr (_rule_based_fallback prompt)))))%llm.

(** An evidence dict ([Dict[str, str]]), read through [.get]. *)
Record evidence : Type := mk_evidence {
  ev_title : option string;
  ev_url : option string;
  ev_snippet : option string;
  ev_text : option string;
  ev_source : option string;
  ev_type : option string
}.

(** The dict returned by [_rule_based_verify_claim]. *)
Record rule_result : Type := mk_rule_result {
  rr_verdict : string;
  rr_confidence : Q;
  rr_explanation : string;
  rr_citations : list string
}.

(** The dict returned by [verify_claim]: on the generative path three
    of its values are whatever the parsed reply holds. *)
Record verification : Type := mk_verification {
  v_verdict : json;
  v_confidence : Q;
  v_explanation : json;
  v_citations : json
}.

(** Truth value of a string read with [.get(key)]: absent ([None])
    and empty are false. *)
Definition truthy (field : option string) : bool :=
  match field with
  | Some (String _ _) => true
  | _ => false
  end.

(** [ev.get("snippet", "") or ev.get("text", "")] *)
Definition snippet_of (ev : evidence) : string :=
  match get_or (ev_snippet ev) "" with
  | EmptyString => get_or (ev_text ev) ""
  | s => s
  end.

(** [[word for word in claim_lower.split() if len(word) > 4]] *)
Definition claim_keywords (claim_lower : string) : list string :=
  filter (fun word => (4 <? String.length word)%nat) (split_ws claim_lower).

Definition supporting_words : list string :=
  ["confirm"; "verify"; "true"; "accurate"; "correct"; "valid"]%string.
Definition contradicting_words : list string :=
  ["false"; "debunk"; "disprove"; "incorrect"; "invalid"; "misleading"]%string.

(** The variables updated by the loop over the evidence. *)
Record tally : Type := mk_tally {
  supporting_evidence : Q;
  contradicting_evidence : Q;
  evidence_snippets : list string
}.

(** One iteration of [for ev in evidence]. *)
Definition tally_step (claim_lower : string) (t : tally) (ev : evidence) : tally :=
  let snippet := snippet_of ev in
  let snippet_lower := lower snippet in
  let keywords := claim_keywords claim_lower in
  if existsb (fun keyword => isin keyword snippet_lower) keywords then
    let snippets :=
      if (List.length (evidence_snippets t) <? 2)%nat then
        evidence_snippets t ++
          [if (150 <? String.length snippet)%nat
           then (take 150 snippet ++ "...")%string else snippet]
      else evidence_snippets t in
    if existsb (fun word => isin word snippet_lower) supporting_words then
      mk_tally (supporting_evidence t + 1) (contradicting_evidence t) snippets
    else if existsb (fun word => isin word snippet_lower) contradicting_words then
      mk_tally (supporting_evidence t) (contradicting_evidence t + 1) snippets
    else
      mk_tally (supporting_evidence t + 0.5) (contradicting_evidence t) snippets
  else t.

Definition tally_evidence (claim_lower : string) (evs : list evidence) : tally :=
  fold_left (tally_step claim_lower) evs (mk_tally 0 0 []).

(** [sum(1 for e in evidence if e.get("type") == kind)] *)
Definition count_type (kind : string) (evs : list evidence) : nat :=
  List.length (filter (fun e => match ev_type e with
                                | Some t => String.eqb t kind
                                | None => false
                                end) evs).

(** [str(int(q))] for a non-negative [q]. *)
Definition int_str (q : Q) : string := of_nat (Z.to_nat (Qfloor q)).

(** [[f"{idx}. {snippet}" for idx, snippet in enumerate(snippets, idx)]] *)
Fixpoint numbered (idx : nat) (snippets : list string) : list string :=
  match snippets with
  | [] => []
  | snippet :: rest =>
      (of_nat idx ++ ". " ++ snippet)%string :: numbered (S idx) rest
  end.

(** The citation loop over [evidence[:5]]. *)
Definition citations_of (evs : list evidence) : list string :=
  flat_map (fun ev =>
              if truthy (ev_url ev) then [get_or (ev_url ev) ""]
              else if truthy (ev_title ev) then [get_or (ev_title ev) ""]
              else [])
           (firstn 5 evs).

Definition Qltb (a b : Q) : bool :=
  match a ?= b with Lt => true | _ => false end.

Definition _rule_based_verify_claim (claim : string) (evs : list evidence)
  : rule_result :=
  let claim_lower := lower claim in
  let evidence_count := List.length evs in
  let web_sources := count_type "web" evs in
  let kb_sources := count_type "kb" evs in
  let t := tally_evidence claim_lower evs in
  let supporting := supporting_evidence t in
  let contradicting := contradicting_evidence t in
  let false_indicators :=
    ["never happened"; "fake"; "hoax"; "conspiracy"; "false"; "not true";
     "debunked"]%string in
  let true_indicators :=
    ["confirmed"; "verified"; "proven"; "fact"; "true"; "accurate";
     "established"]%string in
  let misleading_indicators :=
    ["partially"; "somewhat"; "misleading"; "out of context";
     "exaggerated"]%string in
  let false_count := count_indicators false_indicators claim_lower in
  let true_count := count_indicators true_indicators claim_lower in
  let misleading_count := count_indicators misleading_indicators claim_lower in
  let n := PyNum.of_nat evidence_count in
  let '(verdict, confidence, explanation) :=
    if (evidence_count =? 0)%nat then
      ("unverified", 0.2,
       "No evidence sources found to verify this claim. Web search and Knowledge Base retrieval returned no results.")
    else
      let parts :=
        [("Analyzed " ++ of_nat evidence_count ++ " evidence source(s)")%string]
        ++ (if (0 <? web_sources)%nat
            then [(of_nat web_sources ++ " web source(s)")%string] else [])
        ++ (if (0 <? kb_sources)%nat
            then [(of_nat kb_sources ++ " knowledge base document(s)")%string]
            else []) in
      let '(verdict, confidence, reason) :=
        if Qltb contradicting supporting && Qltb 0 supporting then
          ("true", PyNum.min 0.75 (0.5 + supporting * 0.1 + n * 0.05),
           ("Evidence supports this claim (" ++ int_str supporting
            ++ " supporting source(s))")%string)
        else if Qltb supporting contradicting && Qltb 0 contradicting then
          ("false", PyNum.min 0.75 (0.5 + contradicting * 0.1 + n * 0.05),
           ("Evidence contradicts this claim (" ++ int_str contradicting
            ++ " contradicting source(s))")%string)
        else if ((true_count <? false_count) && (0 <? false_count))%nat then
          ("false", PyNum.min 0.7 (0.4 + n * 0.1),
           "Keyword analysis suggests this claim is false")
        else if ((false_count <? true_count) && (0 <? true_count))%nat then
          ("true", PyNum.min 0.7 (0.4 + n * 0.1),
           "Keyword analysis suggests this claim is true")
        else if (0 <? misleading_count)%nat then
          ("misleading", PyNum.min 0.65 (0.35 + n * 0.1),
           "This claim may be misleading or require additional context")
        else
          ("unverified", PyNum.min 0.6 (0.3 + n * 0.05),
           "Insufficient evidence to determine veracity") in
      let parts := parts ++ [reason] in
      let parts :=
        match evidence_snippets t with
        | [] => parts
        | snippets =>
            parts ++ [(nl ++ nl ++ "Relevant evidence:")%string]
            ++ numbered 1 snippets
        end in
      (verdict, confidence, join ". " parts)
  in
  mk_rule_result verdict confidence explanation (citations_of evs).

(** The rule-based result as the dict [verify_claim] hands back. *)
Definition of_rule_result (r : rule_result) : verification :=
  mk_verification (JStr (rr_verdict r)) (rr_confidence r)
                  (JStr (rr_explanation r))
                  (JArr (map JStr (rr_citations r))).

(** The lines of the evidence block, from [enumerate(evidence[:5])]. *)
Fixpoint evidence_lines (idx : nat) (evs : list evidence) : list string :=
  match evs with
  | [] => []
  | ev :: rest =>
      ("Source " ++ of_nat (idx + 1) ++ ": " ++ get_or (ev_title ev) "Unknown"
       ++ nl ++ get_or (ev_snippet ev) (get_or (ev_text ev) "") ++ nl)%string
      :: evidence_lines (S idx) rest
  end.

Definition verify_prompt (claim : string) (evs : list evidence) : string :=
  let evidence_text := join nl (evidence_lines 0 (firstn 5 evs)) in
  "You are a fact-checking expert. Analyze the following claim and evidence to determine its veracity."
  ++ nl ++ nl ++ "Claim: " ++ claim
  ++ nl ++ nl ++ "Evidence:" ++ nl ++ evidence_text
  ++ nl ++ nl
  ++ "Provide your analysis in JSON format with the following structure:"
  ++ nl ++ "{" ++ nl
  ++ "  " ++ dq ++ "verdict" ++ dq ++ ": " ++ dq ++ "true" ++ dq ++ " | "
  ++ dq ++ "false" ++ dq ++ " | " ++ dq ++ "misleading" ++ dq ++ " | "
  ++ dq ++ "unverified" ++ dq ++ "," ++ nl
  ++ "  " ++ dq ++ "confidence" ++ dq ++ ": 0.0-1.0," ++ nl
  ++ "  " ++ dq ++ "explanation" ++ dq ++ ": " ++ dq
  ++ "Detailed explanation of your reasoning" ++ dq ++ "," ++ nl
  ++ "  " ++ dq ++ "citations" ++ dq ++ ": [" ++ dq ++ "source1" ++ dq
  ++ ", " ++ dq ++ "source2" ++ dq ++ "]" ++ nl
  ++ "}" ++ nl ++ nl ++ "JSON:".

(** [s[start:end]] once [start] and [end] are known non-negative. *)
Definition slice (s : string) (start stop : nat) : string :=
  take (stop - start) (drop start s).

(** The narrowing of the reply to its outermost brace span. *)
Definition brace_span (response_clean : string) : string :=
  if isin "{" response_clean && isin "}" response_clean then
    match find_char "{"%char response_clean,
          rfind_char "}"%char response_clean with
    | Some start, Some last => slice response_clean start (last + 1)
    | _, _ => response_clean
    end
  else response_clean.

(** The body of the [try] block of [verify_claim]. *)
Definition verify_attempt (prompt : string) : M verification :=
  (response <~ generate prompt (Some 0.3) None (Some true) ;;
   response_clean <~ lift (PyVal.str_strip response) ;;
   let response_clean := brace_span response_clean in
   parsed <~ lift (json_loads E response_clean) ;;
   verdict <~ lift (PyVal.dict_get parsed "verdict" (JStr "unverified")) ;;
   confidence <~ lift (PyVal.dict_get parsed "confidence" (JNum 0.5)) ;;
   confidence <~ lift (PyVal.to_float (float_of_str E) confidence) ;;
   explanation <~ lift (PyVal.dict_get parsed "explanation" (JStr "")) ;;
   citations <~ lift (PyVal.dict_get parsed "citations" (JArr [])) ;;
   ret (mk_verification verdict confidence explanation citations))%llm.

Definition verify_claim (claim : string) (evs : list evidence) : M verification :=
  let prompt := verify_prompt claim evs in
  try_except (verify_attempt prompt)
    (fun e =>
       match e with
       | JSONDecodeError => ret (of_rule_result (_rule_based_verify_claim claim evs))
       | OtherException => ret (of_rule_result (_rule_based_verify_claim claim evs))
       end).

End WithEnv.

End LLM.

(** ** [app/services/claim_extractor.py] *)

Module Extractor.

Import PyStr PyDict LLM.
Local Open Scope Q_scope.

(** A spaCy token, as far as the code looks at it. *)
Record token : Type := mk_token {
  dep_ : string;
  pos_ : string
}.

(** A sentence of [doc.sents]. *)
Record sentence : Type := mk_sentence {
  sent_text : string;
  sent_tokens : list token
}.

(** What [result.get('metadata', {})] gives for a retrieved chunk: the
    value [None], stored for a chunk without metadata, or a dict (the
    empty one when the key is absent) with its [.get('title')]. *)
Inductive rag_metadata : Type :=
| MetadataNone
| Metadata (title : option string).

(** A result of [rag_retriever.search]: [result['text']] (absent: a
    [KeyError]) and its metadata. *)
Record rag_hit : Type := mk_rag_hit {
  hit_text : option string;
  hit_metadata : rag_metadata
}.

(** The attributes set by [ClaimExtractor.__init__]; [nlp] is the
    loaded spaCy pipeline, [rag_retriever] its [search] method. *)
Record extractor : Type := mk_extractor {
  use_llm : bool;
  llm_service : option service;
  rag_retriever : option (string -> nat -> result (list rag_hit));
  nlp : option (string -> result (list sentence))
}.

(** A claim dict as a strategy returns it. *)
Record raw_claim : Type := mk_raw_claim {
  rc_id : nat;
  rc_claim : string;
  rc_confidence : option Q;
  rc_method : option string
}.

(** A claim dict of the list [extract] returns. *)
Record claim : Type := mk_claim {
  id : nat;
  claim_text : string;
  confidence : Q;
  method : string
}.

Definition skip_patterns : list string :=
  ["according to"; "as reported by"; "sources say"; "it is said";
   "some believe"; "many think"; "people say"]%string.

Definition claim_indicators : list string :=
  ["is"; "are"; "was"; "were"; "will be"; "has been"; "have been";
   "causes"; "caused"; "leads to"; "results in"; "means";
   "contains"; "includes"; "consists of"; "comprises"]%string.

Definition has_root_verb (sent : sentence) : bool :=
  existsb (fun tok => String.eqb (dep_ tok) "ROOT"
                      && existsb (String.eqb (pos_ tok)) ["VERB"; "AUX"]%string)
          (sent_tokens sent).

Definition has_subject (sent : sentence) : bool :=
  existsb (fun tok => existsb (String.eqb (dep_ tok))
                              ["nsubj"; "nsubjpass"; "csubj"]%string)
          (sent_tokens sent).

(** One iteration of [for sent in doc.sents]. *)
Definition spacy_step (claims : list raw_claim) (sent : sentence) : list raw_claim :=
  let sent_text := strip (sent_text sent) in
  if (String.length sent_text <? 15)%nat then claims
  else if endswith sent_text "?" then claims
  else if negb (has_root_verb sent) then claims
  else
    let sent_lower := lower sent_text in
    if existsb (fun pattern => isin pattern sent_lower) skip_patterns then claims
    else
      let confidence :=
        if existsb (fun indicator => isin indicator sent_lower) claim_indicators
        then 0.8 else 0.7 in
      if has_subject sent then
        claims ++ [mk_raw_claim (List.length claims + 1) sent_text
                                (Some confidence) None]
      else claims.

Definition extract_with_spacy (self : extractor) (text : string)
  : result (list raw_claim) :=
  match nlp self with
  | None => Ok []
  | Some parse =>
      (sents <- parse text ;;
       Ok (fold_left spacy_step sents []))%result
  end.

(** The loop that appends the retrieved passages to [context].  A
    missing ['text'] raises, and so does [.get('title')] on a metadata
    that is [None], after the passage itself has been appended; either
    ends the loop and leaves [context] as built so far. *)
Fixpoint add_hits (idx : nat) (hits : list rag_hit) (context : string) : string :=
  match hits with
  | [] => context
  | hit :: rest =>
      match hit_text hit with
      | None => context
      | Some t =>
          let context :=
            (context ++ of_nat idx ++ ". " ++ take 200 t ++ "..." ++ nl)%string in
          match hit_metadata hit with
          | MetadataNone => context
          | Metadata title =>
              let context :=
                match title with
                | Some (String c title) =>
                    (context ++ "   Source: " ++ String c title ++ nl)%string
                | _ => context
                end in
              add_hits (S idx) rest context
          end
      end
  end.

Definition rag_context (search : string -> nat -> result (list rag_hit))
           (text : string) : string :=
  match search text 3%nat with
  | Raise _ => ""
  | Ok [] => ""
  | Ok hits =>
      add_hits 1 hits (nl ++ nl ++ "Relevant Knowledge Base Context:" ++ nl)
  end.

Definition extraction_prompt (context text : string) : string :=
  "Extract all factual claims from the following text. Return a JSON array of claims."
  ++ nl ++ nl ++ context ++ nl ++ nl
  ++ "Text to Analyze:" ++ nl ++ text ++ nl ++ nl
  ++ "Return format:" ++ nl ++ "[" ++ nl
  ++ "  {" ++ dq ++ "id" ++ dq ++ ": 1, " ++ dq ++ "claim" ++ dq ++ ": "
  ++ dq ++ "claim text here" ++ dq ++ "}," ++ nl
  ++ "  {" ++ dq ++ "id" ++ dq ++ ": 2, " ++ dq ++ "claim" ++ dq ++ ": "
  ++ dq ++ "another claim" ++ dq ++ "}" ++ nl
  ++ "]" ++ nl ++ nl
  ++ "Only extract factual, verifiable claims. Ignore questions, opinions, and statements without factual content."
  ++ nl
  ++ "Use the knowledge base context above to better understand domain-specific terms and concepts."
  ++ nl ++ "JSON:".

(** The narrowing of the reply to its outermost bracket span. *)
Definition bracket_span (response_clean : string) : string :=
  if isin "{" response_clean && isin "}" response_clean then
    match find_char "["%char response_clean,
          rfind_char "]"%char response_clean with
    | Some start, Some last =>
        if (start <? last + 1)%nat
        then slice response_clean start (last + 1)
        else response_clean
    | _, _ => response_clean
    end
  else response_clean.

(** The list comprehension over [enumerate(claims_data)]. *)
Fixpoint llm_claims (idx : nat) (items : list json) (base_confidence : Q)
         (method : string) : result (list raw_claim) :=
  match items with
  | [] => Ok []
  | item :: rest =>
      (value <- PyVal.dict_get item "claim" (JStr "") ;;
       stripped <- PyVal.str_strip value ;;
       tail <- llm_claims (S idx) rest base_confidence method ;;
       match stripped, value with
       | String _ _, JStr text =>
           Ok (mk_raw_claim (idx + 1) text (Some base_confidence) (Some method)
                 :: tail)
       | _, _ => Ok tail
       end)%result
  end.

Section WithEnv.

Variable E : env.
Variable self : extractor.

Definition extract_with_llm (text : string)
           (rag_retriever_arg : option (string -> nat -> result (list rag_hit)))
  : M (list raw_claim) :=
  match llm_service self with
  | None => ret []
  | Some llm =>
      let active_rag_retriever :=
        match rag_retriever_arg with
        | Some r => Some r
        | None => rag_retriever self
        end in
      let context :=
        match active_rag_retriever with
        | Some search => rag_context search text
        | None => ""
        end in
      let prompt := extraction_prompt context text in
      try_except
        (response <~ generate E llm prompt (Some 0.3) (Some 1000%Z) (Some true) ;;
         response_clean <~ lift (PyVal.str_strip response) ;;
         let response_clean := bracket_span response_clean in
         claims_data <~ lift (json_loads E response_clean) ;;
         let claims_data :=
           match claims_data with
           | JArr items => items
           | JObj _ => [claims_data]
           | _ => []
           end in
         let with_rag :=
           match active_rag_retriever, context with
           | Some _, String _ _ => true
           | _, _ => false
           end in
         lift (llm_claims 0 claims_data
                          (if with_rag then 0.85 else 0.8)
                          (if with_rag then "llm_rag" else "llm")))%llm
        (fun _ => ret [])
  end.

(** [re.split(r'[.!?]+', text)]: [cur] is the piece being read,
    reversed; [in_run] tells that the previous character ended a
    piece. *)
Fixpoint split_sentences_aux (in_run : bool) (cur : list ascii) (s : string)
  : list string :=
  match s with
  | EmptyString => [string_of_list_ascii (rev cur)]
  | String c t =>
      if existsb (Ascii.eqb c) ["."; "!"; "?"]%char then
        if in_run then split_sentences_aux true [] t
        else string_of_list_ascii (rev cur) :: split_sentences_aux true [] t
      else split_sentences_aux false (c :: cur) t
  end.

Definition split_sentences (text : string) : list string :=
  split_sentences_aux false [] text.

Definition simple_keywords : list string :=
  ["is"; "are"; "was"; "were"; "will"; "can"; "has"; "have"]%string.

(** The loop of [_extract_simple] over [enumerate(sentences)]. *)
Fixpoint simple_claims (idx : nat) (sentences : list string) : list raw_claim :=
  match sentences with
  | [] => []
  | sentence :: rest =>
      let sentence := strip sentence in
      if (20 <? String.length sentence)%nat
         && existsb (fun keyword => isin keyword (lower sentence)) simple_keywords
      then mk_raw_claim (idx + 1) sentence (Some 0.6) None
             :: simple_claims (S idx) rest
      else simple_claims (S idx) rest
  end.

Definition _extract_simple (text : string) : list raw_claim :=
  simple_claims 0 (split_sentences text).

(** [all_claims] and the set [claim_texts]; the set is only asked
    for membership and scanned for the existence of a similar text,
    so the order of its elements is not observed. *)
Record fusion : Type := mk_fusion {
  all_claims : list claim;
  claim_texts : list string
}.

(** [x in claim_texts] *)
Definition seen (x : string) (texts : list string) : bool :=
  existsb (String.eqb x) texts.

(** [claim["claim"].strip().lower()] *)
Definition dedup_key (text : string) : string := lower (strip text).

(** The scan that sets [is_duplicate]. *)
Definition is_duplicate (key : string) (texts : list string) : bool :=
  existsb (fun existing_text =>
             (isin key existing_text || isin existing_text key)
             && ((20 <? String.length key)%nat
                 && (20 <? String.length existing_text)%nat))
          texts.

Definition add_claim (st : fusion) (key : string) (c : raw_claim)
           (default_confidence : Q) (method : string) : fusion :=
  mk_fusion
    (all_claims st ++
       [mk_claim (List.length (all_claims st) + 1) (rc_claim c)
                 (get_or (rc_confidence c) default_confidence) method])
    (key :: claim_texts st).

(** One iteration of the loop over the spaCy claims. *)
Definition fuse_spacy (st : fusion) (c : raw_claim) : fusion :=
  let key := dedup_key (rc_claim c) in
  if seen key (claim_texts st) then st
  else add_claim st key c 0.7 "spacy".

(** One iteration of the loop over the LLM claims. *)
Definition fuse_llm (st : fusion) (c : raw_claim) : fusion :=
  let key := dedup_key (rc_claim c) in
  if negb (is_duplicate key (claim_texts st)) && negb (seen key (claim_texts st))
  then add_claim st key c 0.8 (get_or (rc_method c) "llm")
  else st.

(** One iteration of the loop over the fallback claims. *)
Definition fuse_simple (st : fusion) (c : raw_claim) : fusion :=
  let key := dedup_key (rc_claim c) in
  if negb (is_duplicate key (claim_texts st)) && negb (seen key (claim_texts st))
  then add_claim st key c 0.6 "fallback"
  else st.

(** Insertion before the first claim that does not rank higher. *)
Fixpoint insert_desc (c : claim) (sorted : list claim) : list claim :=
  match sorted with
  | [] => [c]
  | d :: rest =>
      if Qle_bool (confidence d) (confidence c) then c :: d :: rest
      else d :: insert_desc c rest
  end.

(** [all_claims.sort(key=lambda x: x["confidence"], reverse=True)]:
    a stable sort, highest confidence first. *)
Definition sort_desc (claims : list claim) : list claim :=
  fold_right insert_desc [] claims.

(** [for idx, claim in enumerate(all_claims, idx): claim["id"] = idx] *)
Fixpoint renumber (idx : nat) (claims : list claim) : list claim :=
  match claims with
  | [] => []
  | c :: rest =>
      mk_claim idx (claim_text c) (confidence c) (method c)
        :: renumber (S idx) rest
  end.

Definition extract (text : string) : M (list claim) :=
  if match text with EmptyString => true | _ => false end
     || (String.length (strip text) <? 10)%nat
  then ret []
  else
    let st := mk_fusion [] [] in
    let st :=
      match extract_with_spacy self text with
      | Ok spacy_claims => fold_left fuse_spacy spacy_claims st
      | Raise _ => st
      end in
    (st <~ (if use_llm self
               && match llm_service self with Some _ => true | None => false end
            then
              llm_found <~ extract_with_llm text (rag_retriever self) ;;
              ret (fold_left fuse_llm llm_found st)
            else ret st) ;;
     let st := fold_left fuse_simple (_extract_simple text) st in
     ret (renumber 1 (sort_desc (all_claims st))))%llm.

End WithEnv.

End Extractor.

(** ** [app/services/search_engine.py] *)

Module Search.

Import PyStr PyDict.

(** The attributes set by [SearchEngine.__init__]. *)
Record engine : Type := mk_engine {
  top_k : Z;
  region : string
}.

(** A result dict of [ddgs.text], read through [.get]. *)
Record ddg_hit : Type := mk_ddg_hit {
  dh_title : option string;
  dh_href : option string;
  dh_body : option string
}.

(** A call [ddgs.text(query, max_results=..., region=...)]. *)
Record ddg_query : Type := mk_ddg_query {
  q_query : string;
  q_max_results : Z;
  q_region : string
}.

(** A result dict of [SearchEngine.search]: the four keys are always
    there. *)
Record search_result : Type := mk_search_result {
  sr_title : string;
  sr_url : string;
  sr_snippet : string;
  sr_source : string
}.

Section WithWorld.

(** [urlparse(url).netloc] of the standard library, which may raise. *)
Variable urlparse_netloc : string -> result string.

(** [with DDGS() as ddgs: list(ddgs.text(...))] *)
Variable ddgs_text : ddg_query -> result (list ddg_hit).

Definition _extract_domain (url : string) : string :=
  match urlparse_netloc url with
  | Ok netloc => replace_with_empty "www." netloc
  | Raise _ => url
  end.

(** The dict appended for one hit. *)
Definition result_of_hit (result : ddg_hit) : search_result :=
  mk_search_result (get_or (dh_title result) "")
                   (get_or (dh_href result) "")
                   (get_or (dh_body result) "")
                   (_extract_domain (get_or (dh_href result) "")).

(** [search(query, max_results)], with the queries it sends. *)
Definition search (self : engine) (query : string) (max_results : option Z)
  : list ddg_query * list search_result :=
  if match query with EmptyString => true | _ => false end
     || (String.length (strip query) <? 3)%nat
  then ([], [])
  else
    let max_results := match max_results with
                       | Some 0%Z | None => top_k self
                       | Some n => n
                       end in
    let q := mk_ddg_query query max_results (region self) in
    match ddgs_text q with
    | Ok search_results => ([q], map result_of_hit search_results)
    | Raise _ => ([q], [])
    end.

End WithWorld.

End Search.

(** ** [app/services/autogen_service.py] *)

Module AutoGen.

Import PyStr PyDict LLM.
Local Open Scope Q_scope.

(** The attributes set by [AutoGenService.__init__]. *)
Record autogen : Type := mk_autogen {
  ag_endpoint : option string;
  ag_agent_count : Z;
  ag_enabled : bool
}.

(** [AutoGenService(endpoint, agent_count)] read against the two
    settings [AUTOGEN_ENDPOINT] and [AUTOGEN_ENABLED]. *)
Definition new (endpoint : option string) (agent_count : Z)
           (settings_endpoint : option string) (settings_enabled : bool)
  : autogen :=
  let endpoint := match endpoint with
                  | Some (String c e) => Some (String c e)
                  | _ => settings_endpoint
                  end in
  mk_autogen endpoint agent_count
             (settings_enabled
              && match endpoint with Some _ => true | None => false end).

(** The request sent to the debate service. *)
Record debate_request : Type := mk_debate_request {
  deb_url : string;
  deb_claim : string;
  deb_evidence : list evidence;
  deb_agent_count : Z
}.

(** The dict returned when the service gives no answer. *)
Definition no_debate (explanation : string) : json :=
  JObj [("verdict", JStr "unverified");
        ("confidence", JNum 0.0);
        ("explanation", JStr explanation);
        ("agent_responses", JArr [])].

Section WithWorld.

(** [client.post(url, json=payload)], [raise_for_status()] and
    [response.json()] together. *)
Variable debate_post : debate_request -> result json.

(** [str(e)] *)
Variable str_exn : exn -> string.

(** [debate_claim(claim, evidence)], with the requests it sends. *)
Definition debate_claim (self : autogen) (claim : string) (evs : list evidence)
  : list debate_request * json :=
  if negb (ag_enabled self)
  then ([], no_debate "AutoGen service not enabled")
  else
    let url := (match ag_endpoint self with
                | Some e => e
                | None => "None"
                end ++ "/debate")%string in
    let payload := mk_debate_request url claim evs (ag_agent_count self) in
    match debate_post payload with
    | Ok reply => ([payload], reply)
    | Raise e =>
        ([payload],
         no_debate ("AutoGen service unavailable: " ++ str_exn e)%string)
    end.

End WithWorld.

(** An agent response, read through [.get]. *)
Record agent_response : Type := mk_agent_response {
  ar_verdict : option string;
  ar_confidence : option Q;
  ar_explanation : option string
}.

(** The dict returned by [AutoGenService.aggregate_verdicts]; the last
    two keys are absent from the result for an empty input. *)
Record debate_aggregate : Type := mk_debate_aggregate {
  da_verdict : string;
  da_confidence : Q;
  da_explanation : string;
  da_agent_responses : option (list agent_response);
  da_verdict_distribution : option (list (string * nat))
}.

(** The two accumulators of the counting loop. *)
Record debate_tally : Type := mk_debate_tally {
  verdict_counts : list (string * nat);
  total_confidence : Q
}.

(** One iteration of [for response in agent_responses]. *)
Definition debate_step (t : debate_tally) (response : agent_response)
  : debate_tally :=
  let verdict := get_or (ar_verdict response) "unverified" in
  let confidence := get_or (ar_confidence response) 0.0 in
  mk_debate_tally (Scoring.count_incr (verdict_counts t) verdict)
                  (total_confidence t + confidence).

(** [[f"Agent {idx + 1}: {exp}" for idx, exp in enumerate(explanations)]] *)
Fixpoint agent_lines (idx : nat) (explanations : list string) : list string :=
  match explanations with
  | [] => []
  | exp :: rest =>
      ("Agent " ++ of_nat (idx + 1) ++ ": " ++ exp)%string
        :: agent_lines (S idx) rest
  end.

(** [aggregate_verdicts(agent_responses)]; [None] stands for a raised
    exception. *)
Definition aggregate_verdicts (agent_responses : list agent_response)
  : option debate_aggregate :=
  match agent_responses with
  | [] => Some (mk_debate_aggregate "unverified" 0.0 "No agent responses"
                                    None None)
  | _ :: _ =>
      let t := fold_left debate_step agent_responses (mk_debate_tally [] 0.0) in
      match Scoring.max_by_count (verdict_counts t) with
      | None => None
      | Some best =>
          let final_verdict := fst best in
          let avg_confidence :=
            total_confidence t / PyNum.of_nat (List.length agent_responses) in
          let explanations :=
            map (fun r => get_or (ar_explanation r) "") agent_responses in
          Some (mk_debate_aggregate
                  final_verdict avg_confidence
                  (join (nl ++ nl) (agent_lines 0 explanations))
                  (Some agent_responses) (Some (verdict_counts t)))
      end
  end.

End AutoGen.

(** ** [app/routes/verify.py] *)

Module Pipeline.

Import PyStr PyDict LLM Extractor Credibility Search AutoGen.
Local Open Scope Q_scope.

(** The metadata of a knowledge-base chunk, read through [.get]. *)
Record kb_metadata : Type := mk_kb_metadata {
  kb_title : option string;
  kb_source : option string
}.

(** A result dict of [RAGRetriever.search]; a chunk stored without
    metadata has [None] under ["metadata"]. *)
Record kb_result : Type := mk_kb_result {
  kr_text : string;
  kr_metadata : option kb_metadata
}.

(** The fields of [VerifyRequest]. *)
Record request : Type := mk_request {
  req_text : string;
  req_mode : string;
  req_top_k_search : Z;
  req_use_llm_extraction : bool
}.

(** The services the module creates when it is loaded, and the world
    they talk to.  [w_autogen_service] is [None] when the setting
    [AUTOGEN_ENABLED] is off. *)
Record world : Type := mk_world {
  w_env : env;
  w_llm_service : service;
  w_claim_extractor : extractor;
  w_search_engine : engine;
  w_ddgs_text : ddg_query -> result (list ddg_hit);
  w_urlparse_netloc : string -> result string;
  w_rag_search : string -> result (list kb_result);
  w_autogen_service : option autogen;
  w_debate_post : debate_request -> result json;
  w_str_exn : exn -> string
}.

(** The evidence dict built from a web search result. *)
Definition web_evidence (found : search_result) : evidence :=
  mk_evidence (Some (sr_title found)) (Some (sr_url found))
              (Some (sr_snippet found)) None (Some (sr_source found))
              (Some "web").

(** The evidence dict built from a knowledge-base result. *)
Definition kb_evidence (hit : kb_result) : result evidence :=
  match kr_metadata hit with
  | None => Raise OtherException
  | Some metadata =>
      Ok (mk_evidence (Some (get_or (kb_title metadata) "KB Document"))
                      None None (Some (kr_text hit))
                      (Some (get_or (kb_source metadata) "Knowledge Base"))
                      (Some "kb"))
  end.

(** [for result in kb_results: evidence.append({...})] *)
Fixpoint kb_evidences (hits : list kb_result) : result (list evidence) :=
  match hits with
  | [] => Ok []
  | hit :: rest =>
      (e <- kb_evidence hit ;;
       tail <- kb_evidences rest ;;
       Ok (e :: tail))%result
  end.

(** [[e.get("url") for e in evidence if e.get("url")]] *)
Definition evidence_urls (evs : list evidence) : list string :=
  flat_map (fun e => if truthy (ev_url e) then [get_or (ev_url e) ""] else [])
           evs.

(** The source credibility of a claim's evidence. *)
Definition source_credibility (urlparse_netloc : string -> result string)
           (evs : list evidence) : Q :=
  match evidence_urls evs with
  | [] => 0.5
  | urls => average_trust_score (analyze_multiple_sources urlparse_netloc urls)
  end.

(** The four values read from a verification result. *)
Record reading : Type := mk_reading {
  rd_verdict : json;
  rd_confidence : json;
  rd_explanation : json;
  rd_citations : json
}.

(** The reading of what [verify_claim] returns. *)
Definition read_verification (v : verification) : reading :=
  mk_reading (v_verdict v) (JNum (v_confidence v)) (v_explanation v)
             (v_citations v).

(** The reading of what [debate_claim] returns: three subscripts and a
    [.get("citations", [])]. *)
Definition read_debate (reply : json) : result reading :=
  (verdict <- PyVal.getitem reply "verdict" ;;
   confidence <- PyVal.getitem reply "confidence" ;;
   explanation <- PyVal.getitem reply "explanation" ;;
   citations <- PyVal.dict_get reply "citations" (JArr []) ;;
   Ok (mk_reading verdict confidence explanation citations))%result.

(** An entry of [ddg_results]. *)
Record ddg_result : Type := mk_ddg_result {
  ddg_id : nat;
  ddg_text : string;
  ddg_verdict : string;
  ddg_confidence : Q;
  ddg_explanation : string;
  ddg_citations : list string;
  ddg_evidence_count : nat;
  ddg_source_credibility : Q;
  ddg_evidence : list evidence;
  ddg_method : string
}.

(** An entry of [claims]. *)
Record verified_claim : Type := mk_verified_claim {
  vc_id : nat;
  vc_text : string;
  vc_verdict : json;
  vc_confidence : json;
  vc_explanation : json;
  vc_citations : json;
  vc_evidence_count : nat;
  vc_source_credibility : Q;
  vc_evidence : list evidence
}.

(** An entry of [llm_results]: the same nine values and a method tag. *)
Record llm_result : Type := mk_llm_result {
  lr_claim : verified_claim;
  lr_method : string
}.

(** What one iteration of the loop appends to the three lists. *)
Record entry : Type := mk_entry {
  e_ddg : ddg_result;
  e_llm : llm_result;
  e_verified : verified_claim
}.

Definition ddg_result_of (claim_data : claim) (ddg_evidence : list evidence)
  : ddg_result :=
  mk_ddg_result
    (id claim_data) (claim_text claim_data) "unverified" 0.5
    ("Found " ++ of_nat (List.length ddg_evidence)
     ++ " web search results from DuckDuckGo. Review the sources below to verify the claim.")%string
    (evidence_urls ddg_evidence) (List.length ddg_evidence) 0.5
    ddg_evidence "ddg_search".

(** One iteration of [for claim_data in extracted_claims].  The log
    holds the requests to the LLM endpoint only. *)
Definition verify_one (W : world) (req : request) (claim_data : claim) : M entry :=
  let claim_text := claim_text claim_data in
  let search_results :=
    snd (search (w_urlparse_netloc W) (w_ddgs_text W) (w_search_engine W)
                claim_text (Some (req_top_k_search req))) in
  (kb_results <~ lift (w_rag_search W claim_text) ;;
   let ddg_evidence := map web_evidence search_results in
   let ddg_result := ddg_result_of claim_data ddg_evidence in
   kb_part <~ lift (kb_evidences kb_results) ;;
   let evidence := (map web_evidence search_results ++ kb_part)%list in
   let source_credibility := source_credibility (w_urlparse_netloc W) evidence in
   verification_result <~
     match (if String.eqb (req_mode req) "debate"
            then w_autogen_service W else None) with
     | Some autogen_service =>
         lift (read_debate
                 (snd (debate_claim (w_debate_post W) (w_str_exn W)
                                    autogen_service claim_text evidence)))
     | None =>
         v <~ verify_claim (w_env W) (w_llm_service W) claim_text evidence ;;
         ret (read_verification v)
     end ;;
   let verified :=
     mk_verified_claim (id claim_data) claim_text
                       (rd_verdict verification_result)
                       (rd_confidence verification_result)
                       (rd_explanation verification_result)
                       (rd_citations verification_result)
                       (List.length evidence) source_credibility
                       (firstn 3 evidence) in
   ret (mk_entry ddg_result (mk_llm_result verified "llm_verification")
                 verified))%llm.




(** The fields of [VerifyResponse], the processing time apart. *)
Record response : Type := mk_response {
  resp_claims : list verified_claim;
  resp_llm_results : option (list llm_result);
  resp_ddg_results : option (list ddg_result)
}.


End Pipeline.

(** ** [app/routes/kb.py]: the statistics of [analyze_document] *)

Module KbAnalysis.

Import PyStr PyDict LLM Credibility Search Pipeline.
Local Open Scope Q_scope.

(** The evidence dict built from a web search result. *)
Definition web_evidence (found : search_result) : evidence :=
  mk_evidence (Some (sr_title found)) (Some (sr_url found))
              (Some (sr_snippet found)) None (Some (sr_source found))
              (Some "web").

(** The evidence dict built from a knowledge-base result. *)
Definition kb_evidence (hit : kb_result) : result evidence :=
  match kr_metadata hit with
  | None => Raise OtherException
  | Some metadata =>
      Ok (mk_evidence (Some (get_or (kb_title metadata) ""))
                      None None (Some (kr_text hit))
                      (Some "knowledge_base") (Some "kb"))
  end.

(** The two loops that fill [all_evidence]. *)
Fixpoint kb_part (kb_results : list kb_result) : result (list evidence) :=
  match kb_results with
  | [] => Ok []
  | hit :: rest =>
      (e <- kb_evidence hit ;;
       tail <- kb_part rest ;;
       Ok (e :: tail))%result
  end.

Definition all_evidence (web_results : list search_result)
           (kb_results : list kb_result) : result (list evidence) :=
  (part <- kb_part kb_results ;;
   Ok (map web_evidence web_results ++ part)%list)%result.

(** The loop that fills [source_scores]. *)
Definition source_scores (urlparse_netloc : string -> result string)
           (all_evidence : list evidence) : list Q :=
  flat_map (fun e =>
              if truthy (ev_url e)
              then [analysis_trust_score
                      (analyze_source urlparse_netloc (get_or (ev_url e) ""))]
              else [])
           all_evidence.

(** [sum(source_scores) / len(source_scores) if source_scores else 0.5] *)
Definition avg_credibility (urlparse_netloc : string -> result string)
           (all_evidence : list evidence) : Q :=
  match source_scores urlparse_netloc all_evidence with
  | [] => 0.5
  | scores => PyNum.sum scores / PyNum.of_nat (List.length scores)
  end.

(** The dict [verdict_counts], with its four keys. *)
Record statistics : Type := mk_statistics {
  st_true : nat;
  st_false : nat;
  st_misleading : nat;
  st_unverified : nat
}.

(** [if verdict in verdict_counts: verdict_counts[verdict] += 1].  The
    verdict is whatever [verify_claim] returned: a list or a dict cannot
    be looked up in a dict and raises. *)
Definition count_verdict (counts : statistics) (verdict : json)
  : result statistics :=
  match verdict with
  | JStr v =>
      Ok (if String.eqb v "true" then
            mk_statistics (st_true counts + 1) (st_false counts)
                          (st_misleading counts) (st_unverified counts)
          else if String.eqb v "false" then
            mk_statistics (st_true counts) (st_false counts + 1)
                          (st_misleading counts) (st_unverified counts)
          else if String.eqb v "misleading" then
            mk_statistics (st_true counts) (st_false counts)
                          (st_misleading counts + 1) (st_unverified counts)
          else if String.eqb v "unverified" then
            mk_statistics (st_true counts) (st_false counts)
                          (st_misleading counts) (st_unverified counts + 1)
          else counts)
  | JArr _ | JObj _ => Raise OtherException
  | JNull | JBool _ | JNum _ => Ok counts
  end.

(** [for claim in verified_claims: ...] over the verdicts of the claims. *)
Fixpoint count_verdicts (verdicts : list json) (counts : statistics)
  : result statistics :=
  match verdicts with
  | [] => Ok counts
  | verdict :: rest =>
      (counts <- count_verdict counts verdict ;;
       count_verdicts rest counts)%result
  end.

(** [(count / total_claims * 100) if total_claims > 0 else 0.0], as an
    exact rational: the code computes it in doubles, so its value may
    differ from this one in the last place. *)
Definition percentage (count total_claims : nat) : Q :=
  if (0 <? total_claims)%nat
  then PyNum.of_nat count / PyNum.of_nat total_claims * 100
  else 0.0.

(** The dict [percentages]. *)
Record percentages : Type := mk_percentages {
  pc_true : Q;
  pc_false : Q;
  pc_misleading : Q;
  pc_unverified : Q
}.

Definition percentages_of (counts : statistics) (total_claims : nat)
  : percentages :=
  mk_percentages (percentage (st_true counts) total_claims)
                 (percentage (st_false counts) total_claims)
                 (percentage (st_misleading counts) total_claims)
                 (percentage (st_unverified counts) total_claims).

(** The cascade that sets [overall_accuracy]. *)
Definition overall_accuracy (total_claims : nat) (p : percentages) : string :=
  if (total_claims =? 0)%nat then "unknown"
  else if Qle_bool 70 (pc_true p) then "mostly_accurate"
  else if Qle_bool 50 (pc_false p) then "mostly_false"
  else if Qle_bool 40 (pc_misleading p) then "misleading"
  else if Qle_bool 50 (pc_true p) then "mixed"
  else "unverified".

(** The figures of the report: [total_claims], [statistics],
    [percentages] and [overall_accuracy]. *)
Record figures : Type := mk_figures {
  total_claims : nat;
  fig_statistics : statistics;
  fig_percentages : percentages;
  fig_overall_accuracy : option string
}.

(** The report returned at once when no claim was extracted; it has no
    key ["overall_accuracy"]. *)
Definition no_claims : figures :=
  mk_figures 0 (mk_statistics 0 0 0 0) (mk_percentages 0.0 0.0 0.0 100.0) None.

(** The figures computed from the verdicts of the verified claims, one
    per extracted claim. *)
Definition figures_of (verdicts : list json) : result figures :=
  match verdicts with
  | [] => Ok no_claims
  | _ :: _ =>
      (counts <- count_verdicts verdicts (mk_statistics 0 0 0 0) ;;
       let total_claims := List.length verdicts in
       let p := percentages_of counts total_claims in
       Ok (mk_figures total_claims counts p
                      (Some (overall_accuracy total_claims p))))%result
  end.

End KbAnalysis.

(** ** [app/services/category_detector.py] *)

Module Category.

Import PyStr.

Definition CATEGORIES : list string :=
  ["politics"; "games"; "bollywood"; "news"; "farmers"; "animals"; "sports";
   "technology"; "health"; "education"; "business"; "entertainment";
   "science"; "environment"; "general"]%string.

(** The items of [CATEGORY_KEYWORDS], in the order of the dict. *)
Definition CATEGORY_KEYWORDS : list (string * list string) :=
  [("politics",
    ["election"; "vote"; "government"; "minister"; "parliament"; "political";
     "party"; "democracy"; "president"; "prime minister"; "congress"; "bjp";
     "aap"; "modi"; "rahul"; "kejriwal"; "politician"; "policy"; "law";
     "bill"; "assembly"]);
   ("games",
    ["game"; "gaming"; "player"; "tournament"; "cricket"; "football";
     "soccer"; "basketball"; "tennis"; "olympics"; "match"; "score"; "team";
     "championship"; "esports"; "video game"; "console"; "mobile game"]);
   ("bollywood",
    ["bollywood"; "actor"; "actress"; "movie"; "film"; "director";
     "producer"; "song"; "music"; "album"; "celebrity"; "star"; "release";
     "box office"; "award"; "oscar"; "filmfare"; "khan"; "kapoor"; "bhatt"]);
   ("news",
    ["news"; "report"; "breaking"; "headline"; "journalist"; "media";
     "press"; "announcement"; "update"; "latest"; "recent"; "happened";
     "incident"]);
   ("farmers",
    ["farmer"; "agriculture"; "crop"; "harvest"; "farming"; "field"; "land";
     "irrigation"; "subsidy"; "mandi"; "kisan"; "agricultural"; "rural";
     "village"; "crop price"; "msp"; "farmer protest"]);
   ("animals",
    ["animal"; "dog"; "cat"; "bird"; "wildlife"; "tiger"; "elephant"; "lion";
     "pet"; "veterinary"; "zoo"; "conservation"; "endangered"; "species";
     "cattle"; "livestock"; "cow"; "buffalo"]);
   ("sports",
    ["sport"; "athlete"; "coach"; "stadium"; "league"; "cup"; "medal";
     "gold"; "silver"; "bronze"; "champion"; "world cup"; "olympic";
     "cricket"; "football"]);
   ("technology",
    ["tech"; "technology"; "computer"; "software"; "app"; "mobile"; "phone";
     "internet"; "ai"; "artificial intelligence"; "robot"; "digital";
     "cyber"; "startup"; "innovation"; "gadget"; "device"]);
   ("health",
    ["health"; "medical"; "doctor"; "hospital"; "disease"; "medicine";
     "treatment"; "patient"; "covid"; "vaccine"; "healthcare"; "surgery";
     "clinic"; "diagnosis"]);
   ("education",
    ["education"; "school"; "college"; "university"; "student"; "teacher";
     "exam"; "degree"; "course"; "learning"; "academic"; "study";
     "research"]);
   ("business",
    ["business"; "company"; "corporate"; "market"; "stock"; "economy";
     "trade"; "industry"; "revenue"; "profit"; "investment"; "bank";
     "finance"; "startup"]);
   ("entertainment",
    ["entertainment"; "tv"; "television"; "show"; "series"; "comedy";
     "drama"; "reality show"; "youtube"; "streaming"; "netflix";
     "amazon prime"]);
   ("science",
    ["science"; "scientist"; "research"; "study"; "experiment"; "discovery";
     "laboratory"; "theory"; "hypothesis"; "data"; "analysis";
     "publication"]);
   ("environment",
    ["environment"; "climate"; "pollution"; "green"; "renewable"; "energy";
     "carbon"; "emission"; "global warming"; "sustainability";
     "eco-friendly"])]%string.

(** The class [\w] of [re] on a code point below 256: the letters,
    digits and numeric characters, and the underscore. *)
Definition is_word_char (c : ascii) : bool :=
  let n := nat_of_ascii c in
  (((48 <=? n) && (n <=? 57)) || ((65 <=? n) && (n <=? 90)) || (n =? 95)
   || ((97 <=? n) && (n <=? 122)) || (n =? 170) || (n =? 178) || (n =? 179)
   || (n =? 181) || (n =? 185) || (n =? 186) || ((188 <=? n) && (n <=? 190))
   || ((192 <=? n) && (n <=? 214)) || ((216 <=? n) && (n <=? 246))
   || ((248 <=? n) && (n <=? 255)))%nat.

(** [\b] between two neighbours, [None] being an end of the text: one
    of the two is a word character and the other is not. *)
Definition boundary (before after : option ascii) : bool :=
  xorb (match before with Some c => is_word_char c | None => false end)
       (match after with Some c => is_word_char c | None => false end).

Definition first_char (s : string) : option ascii :=
  match s with
  | EmptyString => None
  | String c _ => Some c
  end.

Fixpoint last_char (before : option ascii) (s : string) : option ascii :=
  match s with
  | EmptyString => before
  | String c t => last_char (Some c) t
  end.

(** Whether [\b keyword \b] matches at the start of [s], the character
    before [s] being [before]. *)
Definition matches_here (keyword : string) (before : option ascii) (s : string)
  : bool :=
  boundary before (first_char s)
  && prefix keyword s
  && boundary (last_char before keyword)
              (first_char (drop (String.length keyword) s)).

(** [len(re.findall(r'\b' + re.escape(keyword) + r'\b', s))] for a
    non-empty keyword: the scan goes from left to right and resumes
    after each match. *)
Fixpoint count_from (keyword : string) (before : option ascii) (s : string)
         (fuel : nat) : nat :=
  match fuel with
  | O => 0
  | S fuel' =>
      if matches_here keyword before s then
        S (count_from keyword (last_char before keyword)
                      (drop (String.length keyword) s) fuel')
      else
        match s with
        | EmptyString => 0
        | String c t => count_from keyword (Some c) t fuel'
        end
  end.

Definition count_matches (keyword s : string) : nat :=
  count_from keyword None s (S (String.length s)).

(** The inner loop: the score of one category. *)
Definition score_of (keywords : list string) (claim_lower : string) : nat :=
  fold_left (fun score keyword => score + count_matches keyword claim_lower)
            keywords 0.

(** The outer loop: the items of [category_scores], in insertion order. *)
Definition category_scores (claim_lower : string) : list (string * nat) :=
  flat_map (fun item =>
              let score := score_of (snd item) claim_lower in
              if (0 <? score)%nat then [(fst item, score)] else [])
           CATEGORY_KEYWORDS.

Definition detect_category (claim_text : string) : string :=
  match claim_text with
  | EmptyString => "general"
  | _ =>
      let claim_lower := lower claim_text in
      match Scoring.max_by_count (category_scores claim_lower) with
      | Some best => fst best
      | None => "general"
      end
  end.

End Category.

(** ** Notions the statements below are written with *)

Module ScoringSpec.

Import PyDict Scoring.

(** The list [normalized] that [aggregate_verdicts] votes over. *)
Definition normalized_of (verdicts : list verdict_dict) : list string :=
  map (fun v => normalize_verdict (get_or (vd_verdict v) "unverified")) verdicts.

(** Number of responses whose normalized verdict is [v]. *)
Definition votes (normalized : list string) (v : string) : nat :=
  count_occ string_dec normalized v.

(** The distinct elements of a list, in order of first occurrence: the
    order in which a dict filled by a loop over the list holds its keys. *)
Fixpoint firsts (l : list string) : list string :=
  match l with
  | [] => []
  | x :: rest => x :: filter (fun y => negb (String.eqb y x)) (firsts rest)
  end.

(** The responses whose normalized verdict is [winner]. *)
Definition supporters (verdicts : list verdict_dict) (winner : string)
  : list verdict_dict :=
  filter (fun d => String.eqb (normalize_verdict (get_or (vd_verdict d) "unverified"))
                              winner)
         verdicts.

(** The mean of the confidences of a list of responses. *)
Definition mean_confidence (ds : list verdict_dict) : Q :=
  (PyNum.sum (map (fun d => get_or (vd_confidence d) 0%Q) ds)
   / PyNum.of_nat (List.length ds))%Q.

(** The count table after the loop has read the prefix [p]. *)
Definition table_of (p : list string) (c : list (string * nat)) : Prop :=
  map fst c = firsts p /\ forall k n, In (k, n) c -> n = votes p k.

End ScoringSpec.

Module CredibilitySpec.

Import PyStr Credibility.
Local Open Scope Q_scope.

(** The scoring formula: 0.5, the four adjustments, then the clamp. *)
Definition trust_formula (fact_checker academic unreliable established : bool) : Q :=
  PyNum.max 0 (PyNum.min 1
    (0.5 + (if fact_checker then 0.3 else 0) + (if academic then 0.2 else 0)
     - (if unreliable then 0.4 else 0) + (if established then 0.1 else 0))).

(** [domain] is one of the strings of [set]. *)
Definition member (domain : string) (set : list string) : bool :=
  if in_dec string_dec domain set then true else false.

(** [domain] ends with one of the [suffixes]. *)
Definition has_suffix (domain : string) (suffixes : list string) : bool :=
  existsb (endswith domain) suffixes.

(** The domain rated for a URL: its netloc without ["www."],
    lower-cased; none when the URL cannot be parsed. *)
Definition rated_domain (urlparse_netloc : string -> result string)
           (the_url : string) : option string :=
  match urlparse_netloc the_url with
  | Ok netloc => Some (lower (replace_with_empty "www." netloc))
  | Raise _ => None
  end.

(** Number of URLs whose rated domain passes [test]. *)
Definition urls_with (urlparse_netloc : string -> result string)
           (test : string -> bool) (urls : list string) : nat :=
  List.length
    (filter (fun u => match rated_domain urlparse_netloc u with
                      | Some d => test d
                      | None => false
                      end) urls).

End CredibilitySpec.

Module RuleBasedSpec.

Import PyStr LLM.
Local Open Scope Q_scope.

(** The verdict and the confidence, branch by branch, once there is
    evidence. *)
Definition verdict_cascade (claim : string) (evs : list evidence) : string * Q :=
  let cl := lower claim in
  let t := tally_evidence cl evs in
  let s := supporting_evidence t in
  let c := contradicting_evidence t in
  let n := PyNum.of_nat (List.length evs) in
  let fc := count_indicators ["never happened"; "fake"; "hoax"; "conspiracy";
                              "false"; "not true"; "debunked"]%string cl in
  let tc := count_indicators ["confirmed"; "verified"; "proven"; "fact"; "true";
                              "accurate"; "established"]%string cl in
  let mc := count_indicators ["partially"; "somewhat"; "misleading";
                              "out of context"; "exaggerated"]%string cl in
  if Qltb c s && Qltb 0 s then ("true", PyNum.min 0.75 (0.5 + s * 0.1 + n * 0.05))
  else if Qltb s c && Qltb 0 c then ("false", PyNum.min 0.75 (0.5 + c * 0.1 + n * 0.05))
  else if ((tc <? fc) && (0 <? fc))%nat then ("false", PyNum.min 0.7 (0.4 + n * 0.1))
  else if ((fc <? tc) && (0 <? tc))%nat then ("true", PyNum.min 0.7 (0.4 + n * 0.1))
  else if (0 <? mc)%nat then ("misleading", PyNum.min 0.65 (0.35 + n * 0.1))
  else ("unverified", PyNum.min 0.6 (0.3 + n * 0.05)).

(** What one evidence item adds to the supporting weight. *)
Definition support_of (claim_lower : string) (ev : evidence) : Q :=
  supporting_evidence (tally_step claim_lower (mk_tally 0 0 []) ev).

(** What one evidence item adds to the contradicting weight. *)
Definition contradiction_of (claim_lower : string) (ev : evidence) : Q :=
  contradicting_evidence (tally_step claim_lower (mk_tally 0 0 []) ev).

(** The sum of a list of weights. *)
Definition total (weights : list Q) : Q := fold_right Qplus 0 weights.

End RuleBasedSpec.

Module VerifySpec.

Import PyStr PyDict LLM.
Local Open Scope Q_scope.

(** What [verify_claim] does with the reply of [generate], up to the
    [return] of its [try] block. *)
Definition parse_reply (E : env) (response : json) : result verification :=
  (response_clean <- PyVal.str_strip response ;;
   parsed <- json_loads E (brace_span response_clean) ;;
   verdict <- PyVal.dict_get parsed "verdict" (JStr "unverified") ;;
   confidence <- PyVal.dict_get parsed "confidence" (JNum 0.5) ;;
   confidence <- PyVal.to_float (float_of_str E) confidence ;;
   explanation <- PyVal.dict_get parsed "explanation" (JStr "") ;;
   citations <- PyVal.dict_get parsed "citations" (JArr []) ;;
   Ok (mk_verification verdict confidence explanation citations))%result.

(** [float(result.get("confidence", 0.5))] for the reply of [generate]. *)
Definition reply_confidence (E : env) (response : json) : result Q :=
  (response_clean <- PyVal.str_strip response ;;
   parsed <- json_loads E (brace_span response_clean) ;;
   confidence <- PyVal.dict_get parsed "confidence" (JNum 0.5) ;;
   PyVal.to_float (float_of_str E) confidence)%result.

(** Number of calls of [generate] in a trace. *)
Definition generate_calls (log : list event) : nat :=
  List.length (filter (fun ev => match ev with EvGenerate _ => true | _ => false end) log).

(** Number of HTTP requests in a trace. *)
Definition http_posts (log : list event) : nat :=
  List.length (filter (fun ev => match ev with EvPost _ => true | _ => false end) log).


(** The text [{"verdict": 1, "confidence": 0.5, "explanation": null,
    "citations": "x"}]. *)
Definition untyped_reply : string :=
  "{" ++ dq ++ "verdict" ++ dq ++ ": 1, " ++ dq ++ "confidence" ++ dq ++ ": 0.5, "
  ++ dq ++ "explanation" ++ dq ++ ": null, " ++ dq ++ "citations" ++ dq ++ ": "
  ++ dq ++ "x" ++ dq ++ "}".

(** The text [{"verdict": "true", "confidence": 5}]. *)
Definition overconfident_reply : string :=
  "{" ++ dq ++ "verdict" ++ dq ++ ": " ++ dq ++ "true" ++ dq ++ ", "
  ++ dq ++ "confidence" ++ dq ++ ": 5}".

(** A backend whose completion endpoint answers [{"content": text}], with
    [json.loads] given on the two texts above. *)
Definition canned_env (text : string) : env :=
  mk_env
    (fun _ _ => Ok (JObj [("content", JStr text)]))
    (fun s =>
       if String.eqb s untyped_reply then
         Ok (JObj [("verdict", JNum 1); ("confidence", JNum 0.5);
                   ("explanation", JNull); ("citations", JStr "x")])
       else if String.eqb s overconfident_reply then
         Ok (JObj [("verdict", JStr "true"); ("confidence", JNum 5)])
       else Raise JSONDecodeError)
    (fun _ => "")
    (fun _ => "")
    (fun _ => None).

Definition local_service : service :=
  mk_service "http://localhost:8080/v1/completions" "local-model" 0.7 512 true.

(** A tier is one HTTP request, whatever it answers. *)
Definition one_post (m : M json) : Prop := exists p r, m = ([EvPost p], r).

(** The request of the first tier: the Ollama shape for an Ollama
    endpoint, the OpenAI shape otherwise. *)
Definition first_payload (self : service) (prompt : string) (temperature : Q)
           (max_tokens : Z) (json_mode : bool) : payload :=
  if isin "11434" (endpoint self) || isin "/api/generate" (endpoint self)
  then OllamaPayload (model self) prompt temperature max_tokens
  else OpenAIPayload (model self) prompt temperature max_tokens json_mode.

(** The reading of the first tier's reply. *)
Definition first_reader (E : env) (self : service) : json -> result json :=
  if isin "11434" (endpoint self) || isin "/api/generate" (endpoint self)
  then read_ollama E
  else read_openai E.

(** One tier: the request, then the reading of its reply. *)
Definition tier (E : env) (self : service) (p : payload)
           (read : json -> result json) : result json :=
  rbind (http_post E (endpoint self) p) read.

End VerifySpec.

Module ExtractorSpec.

Import PyStr PyDict LLM Extractor.
Local Open Scope Q_scope.

(** A claim of a strategy whose confidence, when it has one, is in
    [[0,1]]. *)
Definition graded (c : raw_claim) : Prop :=
  match rc_confidence c with
  | Some q => PyNum.in_unit q
  | None => True
  end.

(** What the three loops keep true of [all_claims] and [claim_texts]. *)
Definition fused (st : fusion) : Prop :=
  NoDup (map (fun c => dedup_key (claim_text c)) (all_claims st))
  /\ (forall c, In c (all_claims st) ->
                seen (dedup_key (claim_text c)) (claim_texts st) = true)
  /\ Forall (fun c => PyNum.in_unit (confidence c)) (all_claims st).

(** [a] ranks no lower than [b]. *)
Definition outranks (a b : Q) : Prop := b <= a.

(** Two keys one of which contains the other, both longer than twenty
    characters: what the fusion loops call similar. *)
Definition near_duplicate (k1 k2 : string) : bool :=
  (isin k1 k2 || isin k2 k1)
  && ((20 <? String.length k1)%nat && (20 <? String.length k2)%nat).

(** The method tags and the confidence each one comes with. *)
Definition labelled (c : claim) : Prop :=
  (method c = "spacy" /\ (confidence c = 0.7 \/ confidence c = 0.8))
  \/ (method c = "llm" /\ confidence c = 0.8)
  \/ (method c = "llm_rag" /\ confidence c = 0.85)
  \/ (method c = "fallback" /\ confidence c = 0.6).

(** A claim as the spaCy strategy returns it. *)
Definition spacy_raw (c : raw_claim) : Prop :=
  rc_confidence c = Some 0.7 \/ rc_confidence c = Some 0.8.

(** A claim as the LLM strategy returns it. *)
Definition llm_raw (c : raw_claim) : Prop :=
  (rc_confidence c = Some 0.8 /\ rc_method c = Some "llm")
  \/ (rc_confidence c = Some 0.85 /\ rc_method c = Some "llm_rag").

(** A claim as the fallback strategy returns it. *)
Definition simple_raw (c : raw_claim) : Prop := rc_confidence c = Some 0.6.

(** What the spaCy loop keeps true. *)
Definition spacy_only (st : fusion) : Prop :=
  (forall c, In c (all_claims st) -> In (dedup_key (claim_text c)) (claim_texts st))
  /\ Forall (fun c => method c = "spacy"
                      /\ (confidence c = 0.7 \/ confidence c = 0.8))
            (all_claims st).

(** What the three loops keep true: every key is recorded, similar
    claims are spaCy claims, every claim carries a known label. *)
Definition separated (st : fusion) : Prop :=
  (forall c, In c (all_claims st) -> In (dedup_key (claim_text c)) (claim_texts st))
  /\ (forall a b,
         In a (all_claims st) -> In b (all_claims st) ->
         dedup_key (claim_text a) <> dedup_key (claim_text b) ->
         near_duplicate (dedup_key (claim_text a)) (dedup_key (claim_text b)) = true ->
         method a = "spacy" /\ method b = "spacy")
  /\ Forall labelled (all_claims st).

(** The text [t] repeats one of the [earlier] texts: trimmed and
    lower-cased, it is equal or similar to it. *)
Definition repeats (earlier : list string) (t : string) : bool :=
  existsb (fun e => String.eqb (dedup_key t) (dedup_key e)
                    || near_duplicate (dedup_key t) (dedup_key e))
          earlier.

(** The texts of a list that repeat no text kept before them, [kept]
    being the texts kept so far. *)
Fixpoint fresh (kept texts : list string) : list string :=
  match texts with
  | [] => []
  | t :: rest =>
      if repeats kept t then fresh kept rest
      else t :: fresh (kept ++ [t]) rest
  end.

(** [l1] is [l2] with some elements left out. *)
Inductive subseq {A : Type} : list A -> list A -> Prop :=
| subseq_nil : subseq [] []
| subseq_skip (x : A) (l1 l2 : list A) : subseq l1 l2 -> subseq l1 (x :: l2)
| subseq_keep (x : A) (l1 l2 : list A) : subseq l1 l2 -> subseq (x :: l1) (x :: l2).

(** The characters of a string. *)
Definition chars (s : string) : list ascii := list_ascii_of_string s.

(** The characters [re.split] splits at in [_extract_simple]. *)
Definition terminator (c : ascii) : bool :=
  existsb (Ascii.eqb c) ["."; "!"; "?"]%char.

(** A claim of the spaCy strategy, read against its text. *)
Definition spacy_claim_ok (c : raw_claim) : Prop :=
  (15 <= String.length (rc_claim c))%nat
  /\ endswith (rc_claim c) "?" = false
  /\ (forall pattern, In pattern skip_patterns ->
                      isin pattern (lower (rc_claim c)) = false)
  /\ ((rc_confidence c = Some 0.8
       /\ exists indicator, In indicator claim_indicators
                            /\ isin indicator (lower (rc_claim c)) = true)
      \/ (rc_confidence c = Some 0.7
          /\ forall indicator, In indicator claim_indicators ->
                               isin indicator (lower (rc_claim c)) = false)).

End ExtractorSpec.

Module SearchSpec.

Import PyDict Search.

(** The [max_results] a query is sent with: the argument, unless it is
    absent or 0, in which case the engine's [top_k]. *)
Definition effective_max (self : engine) (max_results : option Z) : Z :=
  match max_results with
  | Some n => if (n =? 0)%Z then top_k self else n
  | None => top_k self
  end.

End SearchSpec.

Module AutoGenSpec.

Import PyDict Scoring AutoGen.

(** The verdicts the agents vote with. *)
Definition raw_verdicts (responses : list agent_response) : list string :=
  map (fun r => get_or (ar_verdict r) "unverified") responses.

(** The confidences of the agents. *)
Definition confidences (responses : list agent_response) : list Q :=
  map (fun r => get_or (ar_confidence r) 0.0%Q) responses.

(** An agent response as an entry for [Scoring.aggregate_verdicts]. *)
Definition as_verdict_dict (r : agent_response) : verdict_dict :=
  mk_verdict_dict (ar_verdict r) (ar_confidence r).

End AutoGenSpec.

Module PipelineSpec.

Import PyStr PyDict LLM Extractor Credibility Search AutoGen Pipeline.

(** The web results found for a claim. *)
Definition web_of (W : world) (req : request) (c : claim) : list search_result :=
  snd (search (w_urlparse_netloc W) (w_ddgs_text W) (w_search_engine W)
              (claim_text c) (Some (req_top_k_search req))).

(** The knowledge base answers every query, with chunks that carry
    metadata. *)
Definition kb_available (W : world) : Prop :=
  forall query, exists hits,
      w_rag_search W query = Ok hits
      /\ Forall (fun hit => kr_metadata hit <> None) hits.


(** The request is verified by the LLM service, not by a debate. *)
Definition single_mode (W : world) (req : request) : Prop :=
  req_mode req <> "debate" \/ w_autogen_service W = None.



(** A deployment without spaCy whose web search fails and whose LLM
    endpoint answers with an empty text; the knowledge base and the
    debate service are given. *)
Definition offline_world (kb : string -> result (list kb_result))
           (debate : option autogen) : world :=
  mk_world (VerifySpec.canned_env "") VerifySpec.local_service
           (mk_extractor false None None None) (mk_engine 5 "us-en")
           (fun _ => Raise OtherException) (fun u => Ok u) kb debate
           (fun _ => Raise OtherException) (fun _ => "refused").

(** A knowledge base with one chunk for every query. *)
Definition one_chunk (query : string) : result (list kb_result) :=
  Ok [mk_kb_result "The Moon orbits the Earth."
                   (Some (mk_kb_metadata (Some "Astronomy") None))].

(** A text from which the fallback strategy extracts two claims. *)
Definition moon_text : string :=
  "The Moon is a natural satellite. It was formed long ago indeed.".

End PipelineSpec.

Module KbSpec.

Import KbAnalysis.

(** A verdict that can be looked up in a dict: not a list, not a dict. *)
Definition hashable (v : json) : bool :=
  match v with
  | JArr _ | JObj _ => false
  | _ => true
  end.

(** The verdict is the string [label]. *)
Definition is_label (label : string) (v : json) : bool :=
  match v with
  | JStr s => String.eqb s label
  | _ => false
  end.

(** Number of verdicts that are the string [label]. *)
Definition occurrences (label : string) (verdicts : list json) : nat :=
  List.length (filter (is_label label) verdicts).

(** The verdict is one of the four keys of the statistics. *)
Definition known (v : json) : bool :=
  is_label "true" v || is_label "false" v || is_label "misleading" v
  || is_label "unverified" v.

(** The claims the statistics count. *)
Definition counted (counts : statistics) : nat :=
  st_true counts + st_false counts + st_misleading counts + st_unverified counts.

End KbSpec.

(* ================================================================== *)
(** * Part II. Properties *)
(* ================================================================== *)

(** ** The model on small inputs *)

Module Examples.

Import PyStr PyDict Scoring Credibility LLM Extractor.
Local Open Scope Q_scope.

Example strip_inner_space : strip "  a b  " = "a b".
Proof. reflexivity. Qed.

Example lower_mixed_case : lower "The Earth is Round." = "the earth is round.".
Proof. reflexivity. Qed.

Example split_ws_runs : split_ws " the earth  is round. " = ["the"; "earth"; "is"; "round."].
Proof. reflexivity. Qed.

Example replace_www : replace_with_empty "www." "www.Snopes.com" = "Snopes.com".
Proof. reflexivity. Qed.

Example brace_span_prose : brace_span "Sure: {a} and {b}. Done" = "{a} and {b}".
Proof. reflexivity. Qed.

Example split_sentences_runs : split_sentences "a.b!?c." = ["a"; "b"; "c"; ""].
Proof. reflexivity. Qed.

Example claim_keywords_earth :
  claim_keywords (lower "The Earth is round.") = ["earth"; "round."].
Proof. reflexivity. Qed.

Example normalize_upper_padded : normalize_verdict "  DEBUNKED " = "false".
Proof. reflexivity. Qed.

Example count_verdicts_order :
  count_verdicts ["false"; "true"; "false"; "unverified"]
  = [("false", 2%nat); ("true", 1%nat); ("unverified", 1%nat)].
Proof. reflexivity. Qed.

Example trust_score_fact_checker :
  analysis_trust_score (analyze_source (fun u => Ok u) "www.Snopes.com") == 0.8.
Proof. vm_compute. reflexivity. Qed.

Example trust_score_unreliable :
  analysis_trust_score (analyze_source (fun u => Ok u) "infowars.com") == 0.1.
Proof. vm_compute. reflexivity. Qed.

Example trust_score_academic :
  analysis_trust_score (analyze_source (fun u => Ok u) "www.mit.edu") == 0.8.
Proof. vm_compute. reflexivity. Qed.

Example rule_based_two_sources :
  let evs := [mk_evidence (Some "A") (Some "http://a.example") (Some "Studies debunk the flat earth idea")
                          None None (Some "web");
              mk_evidence (Some "B") None None (Some "The earth has an equator")
                          None (Some "kb")] in
  let r := _rule_based_verify_claim "The Earth is flat" evs in
  rr_verdict r = "false" /\ rr_confidence r == 0.7
  /\ rr_citations r = ["http://a.example"; "B"].
Proof. repeat split. Qed.

Example extract_two_strategies :
  snd (extract
         (mk_env (fun _ _ => Raise OtherException) (fun _ => Raise JSONDecodeError)
                 (fun _ => "") (fun _ => "") (fun _ => None))
         (mk_extractor true None None
            (Some (fun _ => Ok [mk_sentence "The Earth is round and it orbits the Sun."
                                  [mk_token "ROOT" "AUX"; mk_token "nsubj" "NOUN"]])))
         "The Earth is round and it orbits the Sun. Water is wet when it has rained all day! ok")
  = Ok [mk_claim 1 "The Earth is round and it orbits the Sun." 0.8 "spacy";
        mk_claim 2 "Water is wet when it has rained all day" 0.6 "fallback"].
Proof. reflexivity. Qed.

(** The context block stops at a chunk whose metadata is [None], the
    passage of that chunk included. *)
Example add_hits_metadata_none :
  add_hits 1 [mk_rag_hit (Some "first") (Metadata (Some "Atlas"));
              mk_rag_hit (Some "second") MetadataNone;
              mk_rag_hit (Some "third") (Metadata None)] ""
  = ("1. first..." ++ nl ++ "   Source: Atlas" ++ nl ++ "2. second..." ++ nl)%string.
Proof. reflexivity. Qed.

(** [float] on a number: an integer of 401 digits raises, the largest
    integer that rounds to a double does not. *)
Example to_float_overflow :
  PyVal.to_float (fun _ => None) (JNum (inject_Z (10 ^ 400)))
  = Raise OtherException
  /\ PyVal.to_float (fun _ => None) (JNum (inject_Z (2 ^ 1024 - 2 ^ 970 - 1)))
     = Ok (inject_Z (2 ^ 1024 - 2 ^ 970 - 1))
  /\ PyVal.to_float (fun _ => None) (JNum (inject_Z (- (2 ^ 1024 - 2 ^ 970))))
     = Raise OtherException.
Proof. repeat split; vm_compute; reflexivity. Qed.

(** A reply whose confidence is such an integer is answered by the
    rule-based verifier. *)
Example verify_claim_huge_confidence :
  snd (verify_claim
         (mk_env (fun _ _ => Ok (JObj [("content", JStr "{}")]))
                 (fun _ => Ok (JObj [("verdict", JStr "true");
                                     ("confidence", JNum (inject_Z (10 ^ 400)))]))
                 (fun _ => "") (fun _ => "") (fun _ => None))
         (mk_service "http://localhost:8080/v1/completions" "local-model" 0.7 512 true)
         "The Earth is round." [])
  = Ok (of_rule_result (_rule_based_verify_claim "The Earth is round." [])).
Proof. vm_compute. reflexivity. Qed.

End Examples.

(** ** Verdict normalisation and aggregation *)

Module ScoringProofs.

Import PyStr PyDict Scoring ScoringSpec.

(** C2. [normalize_verdict] applied twice to ["maybe"] does not give what
    one application gives: ["maybe"] is normalised to ["unverified"],
    and ["unverified"], which contains ["verified"], is normalised to
    ["true"]. *)
Theorem normalize_verdict_twice_maybe :
  normalize_verdict "maybe" = "unverified"
  /\ normalize_verdict (normalize_verdict "maybe") = "true".
Proof. split; reflexivity. Qed.

(** C3. The value of [normalize_verdict] at each synonym the
    specification lists.  The first two columns agree with it except at
    ["incorrect"]; ["partially true"] is taken by the earlier test for
    ["true"], and ["unverified"] itself by the test for ["verified"]. *)
Theorem normalize_verdict_synonyms :
  map normalize_verdict ["correct"; "accurate"; "verified"; "factual"]
  = ["true"; "true"; "true"; "true"]
  /\ map normalize_verdict ["incorrect"; "debunked"; "disproven"]
     = ["true"; "false"; "false"]
  /\ map normalize_verdict ["partially true"; "mixed"; "unclear"]
     = ["true"; "misleading"; "misleading"]
  /\ map normalize_verdict ["maybe"; "unverified"] = ["unverified"; "true"].
Proof. repeat split; reflexivity. Qed.

(** C10. On the empty list [aggregate_verdicts] returns, without raising,
    the dict with verdict ["unverified"], confidence 0.0 and count 0,
    and no other key. *)
Theorem aggregate_verdicts_empty :
  aggregate_verdicts [] = Some (mk_aggregate "unverified" 0%Q 0 None).
Proof. reflexivity. Qed.

Lemma count_incr_absent (c : list (string * nat)) (x : string) :
  ~ In x (map fst c) -> count_incr c x = c ++ [(x, 1)].
Proof.
  induction c as [|[k n] c IH]; intros Hx; simpl in *.
  - reflexivity.
  - destruct (String.eqb_spec k x) as [->|Hkx].
    + exfalso. apply Hx. now left.
    + rewrite IH; [reflexivity|]. intros Hin. apply Hx. now right.
Qed.

Lemma count_incr_present (c : list (string * nat)) (x : string) :
  In x (map fst c) ->
  exists A n B, c = A ++ (x, n) :: B /\ ~ In x (map fst A)
                /\ count_incr c x = A ++ (x, n + 1) :: B.
Proof.
  induction c as [|[k n] c IH]; intros Hx; simpl in *.
  - contradiction.
  - destruct (String.eqb_spec k x) as [->|Hkx].
    + exists [], n, c. simpl. auto.
    + destruct Hx as [Hx|Hx]; [contradiction|].
      destruct (IH Hx) as (A & m & B & -> & HA & Heq).
      exists ((k, n) :: A), m, B. simpl. rewrite Heq.
      repeat split; auto. intros [H|H]; auto.
Qed.

Lemma count_incr_keys (c : list (string * nat)) (x : string) :
  map fst (count_incr c x) = if in_dec string_dec x (map fst c) then map fst c else map fst c ++ [x].
Proof.
  destruct (in_dec string_dec x (map fst c)) as [Hin|Hout].
  - destruct (count_incr_present c x Hin) as (A & n & B & -> & _ & ->).
    now rewrite !map_app.
  - rewrite (count_incr_absent c x Hout). now rewrite map_app.
Qed.

Lemma firsts_In (l : list string) (x : string) : In x (firsts l) <-> In x l.
Proof.
  induction l as [|a l IH]; simpl; [tauto|].
  rewrite filter_In, IH. destruct (String.eqb_spec x a) as [->|Hne]; simpl.
  - split; auto.
  - split; [intros [H|[H _]]; auto | intros [H|H]; auto].
Qed.

Lemma firsts_NoDup (l : list string) : NoDup (firsts l).
Proof.
  induction l as [|a l IH]; simpl; constructor.
  - rewrite filter_In. intros [_ H]. now rewrite String.eqb_refl in H.
  - now apply NoDup_filter.
Qed.

Lemma firsts_snoc (p : list string) (x : string) :
  firsts (p ++ [x]) = if in_dec string_dec x p then firsts p else firsts p ++ [x].
Proof.
  induction p as [|a p IH]; simpl.
  - reflexivity.
  - rewrite IH. destruct (in_dec string_dec x p) as [Hin|Hout].
    + destruct (string_dec a x); [reflexivity|].
      destruct (in_dec string_dec x p); [reflexivity|contradiction].
    + rewrite filter_app. simpl.
      destruct (string_dec a x) as [->|Hne].
      * rewrite String.eqb_refl. simpl. now rewrite app_nil_r.
      * destruct (String.eqb_spec x a) as [->|_]; [congruence|]. simpl.
        destruct (in_dec string_dec x p); [contradiction|reflexivity].
Qed.

Lemma votes_snoc (p : list string) (x k : string) :
  votes (p ++ [x]) k = votes p k + (if string_dec x k then 1 else 0).
Proof.
  unfold votes. rewrite count_occ_app. simpl.
  destruct (string_dec x k); reflexivity.
Qed.

Lemma table_of_step (p : list string) (c : list (string * nat)) (x : string) :
  table_of p c -> table_of (p ++ [x]) (count_incr c x).
Proof.
  intros [Hkeys Hcount]. split.
  - rewrite count_incr_keys, firsts_snoc, Hkeys.
    destruct (in_dec string_dec x (firsts p)) as [H|H];
      destruct (in_dec string_dec x p) as [H'|H']; try reflexivity;
      rewrite firsts_In in H; contradiction.
  - intros k n Hin. rewrite votes_snoc.
    destruct (in_dec string_dec x (map fst c)) as [Hx|Hx].
    + destruct (count_incr_present c x Hx) as (A & m & B & Hc & HA & Heq).
      rewrite Heq in Hin. apply in_app_or in Hin.
      assert (Hnd : NoDup (map fst (A ++ (x, m) :: B))).
      { rewrite <- Hc, Hkeys. apply firsts_NoDup. }
      rewrite map_app in Hnd. simpl in Hnd.
      apply NoDup_remove_2 in Hnd.
      destruct Hin as [Hin|[Hin|Hin]].
      * assert (k <> x).
        { intros ->. apply HA. now apply (in_map fst) in Hin. }
        destruct (string_dec x k); [congruence|].
        rewrite Nat.add_0_r. apply Hcount. rewrite Hc. apply in_or_app. now left.
      * inversion Hin; subst k n.
        destruct (string_dec x x); [|congruence].
        f_equal. apply Hcount. rewrite Hc. apply in_or_app. right. now left.
      * assert (k <> x).
        { intros ->. apply Hnd. apply in_or_app. right.
          now apply (in_map fst) in Hin. }
        destruct (string_dec x k); [congruence|].
        rewrite Nat.add_0_r. apply Hcount. rewrite Hc. apply in_or_app.
        right. now right.
    + rewrite (count_incr_absent c x Hx) in Hin. apply in_app_or in Hin.
      destruct Hin as [Hin|[Hin|[]]].
      * assert (k <> x).
        { intros ->. apply Hx. now apply (in_map fst) in Hin. }
        destruct (string_dec x k); [congruence|].
        rewrite Nat.add_0_r. now apply Hcount.
      * inversion Hin; subst k n.
        destruct (string_dec x x); [|congruence].
        assert (Hv : votes p x = 0).
        { unfold votes. apply count_occ_not_In. rewrite <- firsts_In, <- Hkeys.
          exact Hx. }
        now rewrite Hv.
Qed.

Lemma table_of_fold (l p : list string) (c : list (string * nat)) :
  table_of p c -> table_of (p ++ l) (fold_left count_incr l c).
Proof.
  revert p c. induction l as [|x l IH]; intros p c H; simpl.
  - now rewrite app_nil_r.
  - replace (p ++ x :: l) with ((p ++ [x]) ++ l) by now rewrite <- app_assoc.
    apply IH. now apply table_of_step.
Qed.

Lemma count_verdicts_table (l : list string) : table_of l (count_verdicts l).
Proof.
  apply (table_of_fold l [] []). split; [reflexivity|]. intros k n [].
Qed.

(** The scan keeps the first item whose count no other item exceeds. *)
Lemma max_scan_first_max (rest A B : list (string * nat)) (best : string * nat) :
  (forall x, In x A -> snd x < snd best) ->
  (forall x, In x B -> snd x <= snd best) ->
  exists A' B',
    A ++ best :: B ++ rest = A' ++ max_scan best rest :: B'
    /\ (forall x, In x A' -> snd x < snd (max_scan best rest))
    /\ (forall x, In x B' -> snd x <= snd (max_scan best rest)).
Proof.
  revert A B best. induction rest as [|it rest IH]; intros A B best HA HB; simpl.
  - exists A, B. rewrite app_nil_r. auto.
  - destruct (Nat.ltb_spec (snd best) (snd it)) as [Hlt|Hge].
    + destruct (IH (A ++ best :: B) [] it) as (A' & B' & Heq & HA' & HB').
      * intros x Hx. apply in_app_or in Hx. destruct Hx as [Hx|[<-|Hx]].
        -- specialize (HA x Hx). lia.
        -- exact Hlt.
        -- specialize (HB x Hx). lia.
      * intros x [].
      * exists A', B'. split; [|auto].
        rewrite <- Heq. simpl. now rewrite <- app_assoc.
    + destruct (IH A (B ++ [it]) best) as (A' & B' & Heq & HA' & HB').
      * exact HA.
      * intros x Hx. apply in_app_or in Hx. destruct Hx as [Hx|[<-|[]]]; auto.
      * exists A', B'. split; [|auto].
        rewrite <- Heq. now rewrite <- app_assoc.
Qed.

(** The first occurrence of a key of [firsts l] comes after first
    occurrences of the keys before it only. *)
Lemma filter_split {A : Type} (f : A -> bool) (L : list A) (K1 K2 : list A) (k : A) :
  filter f L = K1 ++ k :: K2 ->
  exists L1 L2, L = L1 ++ k :: L2 /\ filter f L1 = K1 /\ f k = true.
Proof.
  revert K1. induction L as [|a L IH]; intros K1 H; simpl in H.
  - destruct K1; discriminate.
  - destruct (f a) eqn:Hfa.
    + destruct K1 as [|b K1]; simpl in H.
      * inversion H; subst. exists [], L. auto.
      * inversion H; subst b.
        destruct (IH K1 H2) as (L1 & L2 & -> & HL1 & Hk).
        exists (a :: L1), L2. simpl. rewrite Hfa, HL1. auto.
    + destruct (IH K1 H) as (L1 & L2 & -> & HL1 & Hk).
      exists (a :: L1), L2. simpl. rewrite Hfa. auto.
Qed.

Lemma firsts_split (l K1 K2 : list string) (k : string) :
  firsts l = K1 ++ k :: K2 ->
  exists pre post, l = pre ++ k :: post /\ ~ In k pre
                   /\ forall v, In v pre -> In v K1.
Proof.
  revert K1 K2. induction l as [|a l IH]; intros K1 K2 H; simpl in H.
  - destruct K1; discriminate.
  - destruct K1 as [|b K1]; simpl in H.
    + inversion H; subst. exists [], l. simpl. auto.
    + inversion H; subst b.
      destruct (filter_split _ _ _ _ _ H2) as (L1 & L2 & HL & HL1 & Hk).
      destruct (IH L1 L2 HL) as (pre & post & -> & Hpre & Hsub).
      exists (a :: pre), post. simpl. repeat split.
      * intros [->|Hin]; [|contradiction].
        now rewrite String.eqb_refl in Hk.
      * intros v [<-|Hv]; [now left|].
        destruct (string_dec v a) as [->|Hne]; [now left|right].
        rewrite <- HL1. apply filter_In. split; [auto|].
        now apply Bool.negb_true_iff, String.eqb_neq.
Qed.

Lemma matching_verdicts_supporters (verdicts : list verdict_dict) (w : string) :
  matching_verdicts verdicts (normalized_of verdicts) w = supporters verdicts w.
Proof.
  unfold matching_verdicts, supporters, normalized_of.
  induction verdicts as [|d ds IH]; simpl; [reflexivity|].
  destruct (String.eqb _ w); simpl; now rewrite IH.
Qed.

Lemma supporters_nonempty (verdicts : list verdict_dict) (w : string) :
  In w (normalized_of verdicts) -> supporters verdicts w <> [].
Proof.
  unfold normalized_of, supporters. intros Hin.
  apply in_map_iff in Hin. destruct Hin as (d & Hd & Hin).
  intros Hnil.
  assert (Hf : In d (filter (fun d0 => (normalize_verdict (get_or (vd_verdict d0) "unverified") =? w)%string) verdicts)).
  { apply filter_In. split; [exact Hin|]. rewrite Hd. apply String.eqb_refl. }
  rewrite Hnil in Hf. exact Hf.
Qed.

(** C9. On a non-empty list [aggregate_verdicts] returns a result whose
    verdict has the most votes among the normalized verdicts; every
    verdict first met before it has strictly fewer votes, so that a tie
    goes to the verdict met first; its confidence is the mean of the
    confidences of the responses whose normalized verdict is the winner.
    Votes ["true", "true", "false"] and the tie ["true", "false"] both
    give ["true"]. *)
Theorem aggregate_verdicts_majority :
  (forall verdicts : list verdict_dict,
      verdicts <> [] ->
      exists r,
        aggregate_verdicts verdicts = Some r
        /\ agg_count r = List.length verdicts
        /\ (forall v, votes (normalized_of verdicts) v
                      <= votes (normalized_of verdicts) (agg_verdict r))
        /\ (exists pre post,
               normalized_of verdicts = pre ++ agg_verdict r :: post
               /\ ~ In (agg_verdict r) pre
               /\ forall v, In v pre ->
                            votes (normalized_of verdicts) v
                            < votes (normalized_of verdicts) (agg_verdict r))
        /\ supporters verdicts (agg_verdict r) <> []
        /\ (agg_confidence r == mean_confidence (supporters verdicts (agg_verdict r)))%Q)
  /\ (forall c1 c2 c3,
         option_map agg_verdict
           (aggregate_verdicts [mk_verdict_dict (Some "true") c1;
                                mk_verdict_dict (Some "true") c2;
                                mk_verdict_dict (Some "false") c3])
         = Some "true")
  /\ (forall c1 c2,
         option_map agg_verdict
           (aggregate_verdicts [mk_verdict_dict (Some "true") c1;
                                mk_verdict_dict (Some "false") c2])
         = Some "true").
Proof.
  split; [|split; intros; reflexivity].
  intros verdicts Hne.
  destruct verdicts as [|d0 ds]; [congruence|].
  set (verdicts := d0 :: ds) in *.
  unfold aggregate_verdicts. fold verdicts.
  change (map (fun v => normalize_verdict (get_or (vd_verdict v) "unverified")) verdicts)
    with (normalized_of verdicts).
  destruct (count_verdicts_table (normalized_of verdicts)) as [Hkeys Hcount].
  destruct (count_verdicts (normalized_of verdicts)) as [|it rest] eqn:Hc.
  { simpl in Hkeys. discriminate. }
  simpl max_by_count. cbv iota.
  destruct (max_scan_first_max rest [] [] it) as (A & B & Heq & HA & HB);
    [intros x []|intros x []|].
  simpl in Heq.
  set (best := max_scan it rest) in *.
  assert (Hbest : In best (it :: rest)).
  { rewrite Heq. apply in_or_app. right. now left. }
  assert (Hw : In (fst best) (normalized_of verdicts)).
  { rewrite <- firsts_In, <- Hkeys. now apply in_map. }
  assert (Hvotes : forall k n, In (k, n) (it :: rest) ->
                               n = votes (normalized_of verdicts) k) by exact Hcount.
  assert (Hnb : snd best = votes (normalized_of verdicts) (fst best)).
  { apply Hvotes. now destruct best. }
  rewrite matching_verdicts_supporters.
  pose proof (supporters_nonempty verdicts (fst best) Hw) as Hsup.
  eexists. split; [reflexivity|]. cbn [agg_verdict agg_count agg_confidence].
  split; [reflexivity|]. split; [|split; [|split]].
  - intros v. rewrite <- Hnb.
    destruct (in_dec string_dec v (normalized_of verdicts)) as [Hin|Hout].
    + rewrite <- firsts_In, <- Hkeys in Hin.
      apply in_map_iff in Hin. destruct Hin as ([k n] & Hk & Hin). simpl in Hk. subst k.
      rewrite <- (Hvotes v n Hin).
      rewrite Heq in Hin. apply in_app_or in Hin.
      destruct Hin as [Hin|[Hin|Hin]].
      * specialize (HA _ Hin). simpl in HA. lia.
      * rewrite Hin. simpl. lia.
      * specialize (HB _ Hin). exact HB.
    + unfold votes. rewrite (proj1 (count_occ_not_In string_dec _ _) Hout). lia.
  - rewrite Heq, map_app in Hkeys.
    change (map fst (best :: B)) with (fst best :: map fst B) in Hkeys.
    destruct (firsts_split (normalized_of verdicts) _ _ _ (eq_sym Hkeys))
      as (pre & post & Hsplit & Hpre & Hsub).
    exists pre, post. repeat split; auto.
    intros v Hv. rewrite <- Hnb. apply Hsub in Hv.
    apply in_map_iff in Hv. destruct Hv as ([k n] & Hk & Hin). simpl in Hk. subst k.
    assert (Hin' : In (v, n) (it :: rest)).
    { rewrite Heq. apply in_or_app. now left. }
    rewrite <- (Hvotes v n Hin'). exact (HA _ Hin).
  - exact Hsup.
  - unfold mean_confidence.
    destruct (supporters verdicts (fst best)); [congruence|reflexivity].
Qed.

(** A run of C9 on three responses. *)
Lemma aggregate_verdicts_majority_witness :
  exists r,
    aggregate_verdicts [mk_verdict_dict (Some "correct") (Some 0.9%Q);
                        mk_verdict_dict (Some "debunked") (Some 0.4%Q);
                        mk_verdict_dict None None] = Some r
    /\ agg_verdict r = "true".
Proof.
  destruct (proj1 aggregate_verdicts_majority
              [mk_verdict_dict (Some "correct") (Some 0.9%Q);
               mk_verdict_dict (Some "debunked") (Some 0.4%Q);
               mk_verdict_dict None None]) as (r & Hr & _).
  - discriminate.
  - exists r. split; [exact Hr|].
    vm_compute in Hr. injection Hr as <-. reflexivity.
Defined.

(** X3. [normalize_verdict] returns one of the four verdicts. *)
Theorem normalize_verdict_canonical (verdict : string) :
  In (normalize_verdict verdict) ["true"; "false"; "misleading"; "unverified"].
Proof.
  unfold normalize_verdict. cbv zeta.
  destruct (any_in true_variants _); [now left|].
  destruct (any_in false_variants _); [right; now left|].
  destruct (any_in misleading_variants _); simpl; tauto.
Qed.

End ScoringProofs.

(** ** Facts about the string and number primitives *)

Module PyFacts.

Import PyStr.

Lemma prefix_app (a s : string) :
  prefix a s = true <-> exists post, s = (a ++ post)%string.
Proof.
  revert s. induction a as [|c a IH]; intros s.
  - split; [intros _; now exists s | intros _; now destruct s].
  - destruct s as [|d s]; simpl.
    + split; [discriminate | intros [post H]; discriminate].
    + destruct (Ascii.ascii_dec c d) as [->|Hne].
      * rewrite IH. split; intros [post H]; exists post; congruence.
      * split; [discriminate | intros [post H]; congruence].
Qed.

Lemma isin_nil (sub : string) : isin sub "" = prefix sub "".
Proof. change (isin sub "") with (if prefix sub "" then true else false).
  now destruct (prefix sub ""). Qed.

Lemma isin_cons (sub : string) (c : ascii) (s : string) :
  isin sub (String c s) = prefix sub (String c s) || isin sub s.
Proof.
  change (isin sub (String c s))
    with (if prefix sub (String c s) then true else isin sub s).
  now destruct (prefix sub (String c s)).
Qed.

(** [sub in s] holds exactly when [s] is [pre + sub + post]. *)
Lemma isin_app (sub s : string) :
  isin sub s = true <-> exists pre post, s = (pre ++ sub ++ post)%string.
Proof.
  induction s as [|c s IH].
  - rewrite isin_nil, prefix_app. split.
    + intros [post H]. now exists "", post.
    + intros ([|d pre] & post & H); [now exists post | discriminate].
  - rewrite isin_cons, Bool.orb_true_iff, prefix_app, IH. split.
    + intros [[post H]|(pre & post & H)].
      * now exists "", post.
      * exists (String c pre), post. simpl. now rewrite H.
    + intros ([|d pre] & post & H).
      * left. now exists post.
      * right. simpl in H. inversion H. now exists pre, post.
Qed.

(** [s.endswith(suffix)] holds exactly when [s] is [pre + suffix]. *)
Lemma endswith_app (s suffix : string) :
  endswith s suffix = true <-> exists pre, s = (pre ++ suffix)%string.
Proof.
  induction s as [|c s IH].
  - simpl. destruct suffix as [|d suffix]; simpl.
    + split; [intros _; now exists ""|reflexivity].
    + split; [discriminate|]. intros ([|e pre] & H); discriminate.
  - change (endswith (String c s) suffix)
      with (if String.eqb (String c s) suffix then true else endswith s suffix).
    destruct (String.eqb_spec (String c s) suffix) as [<-|Hne].
    + split; [intros _; now exists ""|reflexivity].
    + rewrite IH. split.
      * intros [pre ->]. now exists (String c pre).
      * intros ([|d pre] & H); simpl in H; [congruence|].
        inversion H. now exists pre.
Qed.

Lemma lower_app (a b : string) : lower (a ++ b) = (lower a ++ lower b)%string.
Proof. induction a as [|c a IH]; simpl; [reflexivity|now rewrite IH]. Qed.

Lemma append_assoc (a b c : string) : ((a ++ b) ++ c = a ++ (b ++ c))%string.
Proof. induction a as [|x a IH]; simpl; [reflexivity|now rewrite IH]. Qed.

(** A needle that [lower] leaves alone is still found after [lower]. *)
Lemma isin_lower (sub s : string) :
  lower sub = sub -> isin sub s = true -> isin sub (lower s) = true.
Proof.
  intros Hsub H. apply isin_app in H. destruct H as (pre & post & ->).
  apply isin_app. exists (lower pre), (lower post).
  now rewrite !lower_app, Hsub.
Qed.

(** What contains a string contains each of its beginnings. *)
Lemma isin_shorter (sub rest s : string) :
  isin (sub ++ rest) s = true -> isin sub s = true.
Proof.
  intros H. apply isin_app in H. destruct H as (pre & post & ->).
  apply isin_app. exists pre, (rest ++ post)%string.
  now rewrite append_assoc.
Qed.

Local Open Scope Q_scope.

Lemma Qltb_lt (a b : Q) : LLM.Qltb a b = true <-> a < b.
Proof.
  unfold LLM.Qltb. rewrite Qlt_alt. destruct (a ?= b); split; congruence.
Qed.

Lemma min_in_unit (cap x : Q) : 0 <= cap -> cap <= 1 -> 0 <= x -> PyNum.in_unit (PyNum.min cap x).
Proof.
  intros H0 H1 Hx. unfold PyNum.in_unit, PyNum.min. split.
  - now apply Q.min_glb.
  - eapply Qle_trans; [apply Q.le_min_l|exact H1].
Qed.

Lemma of_nat_nonneg (n : nat) : 0 <= PyNum.of_nat n.
Proof.
  unfold PyNum.of_nat, Qle. simpl. lia.
Qed.

End PyFacts.

(** ** Source credibility *)

Module CredibilityProofs.

Import PyStr Credibility CredibilitySpec.
Local Open Scope Q_scope.

Lemma mem_member (x : string) (set : list string) : mem x set = member x set.
Proof.
  unfold mem, member. destruct (in_dec string_dec x set) as [Hin|Hout].
  - apply existsb_exists. exists x. split; [exact Hin|apply String.eqb_refl].
  - apply Bool.not_true_is_false. intros H. apply existsb_exists in H.
    destruct H as (y & Hy & Heq). apply String.eqb_eq in Heq. now subst.
Qed.

Lemma established_iff (d : string) :
  String.eqb (_estimate_domain_age d) "established"
  = (endswith d ".edu" || endswith d ".gov").
Proof.
  unfold _estimate_domain_age.
  destruct (endswith d ".edu" || endswith d ".gov"); [reflexivity|].
  destruct (endswith d ".org"); reflexivity.
Qed.

Lemma trust_formula_in_unit (f a u e : bool) : PyNum.in_unit (trust_formula f a u e).
Proof.
  destruct f, a, u, e; split; vm_compute; discriminate.
Qed.

Lemma _calculate_trust_score_formula (m : metrics) :
  _calculate_trust_score m
  == trust_formula (is_fact_checker m) (is_academic m) (is_unreliable m)
                   (String.eqb (domain_age m) "established").
Proof.
  unfold _calculate_trust_score, trust_formula.
  destruct (is_fact_checker m), (is_academic m), (is_unreliable m),
    (String.eqb (domain_age m) "established"); vm_compute; reflexivity.
Qed.

Lemma _calculate_trust_score_in_unit (m : metrics) :
  PyNum.in_unit (_calculate_trust_score m).
Proof.
  unfold PyNum.in_unit. rewrite (_calculate_trust_score_formula m).
  apply trust_formula_in_unit.
Qed.

Lemma analyze_source_in_unit (urlparse_netloc : string -> result string)
      (the_url : string) :
  PyNum.in_unit (analysis_trust_score (analyze_source urlparse_netloc the_url)).
Proof.
  unfold analyze_source. destruct (urlparse_netloc the_url) as [netloc|e].
  - cbn [analysis_trust_score update_with_metadata set_trust_score trust_score].
    apply _calculate_trust_score_in_unit.
  - split; vm_compute; discriminate.
Qed.

(** C7. When [urlparse] succeeds, [analyze_source] returns metrics for
    the domain (the netloc without ["www."], lower-cased) whose
    [trust_score] is the clamp to [[0,1]] of 0.5, plus 0.3 for a
    fact-checker domain, plus 0.2 for an academic suffix, minus 0.4 for
    an unreliable domain, plus 0.1 for a [.edu] or [.gov] suffix; and
    [_calculate_trust_score] is in [[0,1]] for every metrics dict. *)
Theorem analyze_source_trust_score
        (urlparse_netloc : string -> result string) (the_url netloc : string) :
  urlparse_netloc the_url = Ok netloc ->
  let d := lower (replace_with_empty "www." netloc) in
  exists m,
    analyze_source urlparse_netloc the_url = Analysed m
    /\ domain m = d
    /\ is_fact_checker m = member d fact_check_domains
    /\ is_academic m = has_suffix d academic_domains
    /\ is_unreliable m = member d unreliable_domains
    /\ (domain_age m = "established"
        <-> endswith d ".edu" = true \/ endswith d ".gov" = true)
    /\ trust_score m
       == trust_formula (member d fact_check_domains)
                        (has_suffix d academic_domains)
                        (member d unreliable_domains)
                        (endswith d ".edu" || endswith d ".gov")
    /\ PyNum.in_unit (trust_score m)
    /\ forall any : metrics, PyNum.in_unit (_calculate_trust_score any).
Proof.
  intros Hparse d. unfold analyze_source. rewrite Hparse. fold d.
  eexists. split; [reflexivity|]. cbn [domain is_fact_checker is_academic
    is_unreliable domain_age trust_score update_with_metadata set_trust_score].
  pose proof _calculate_trust_score_in_unit as Hall.
  repeat split; try apply mem_member; try apply Hall.
  - intros H. apply Bool.orb_true_iff. rewrite <- established_iff, H. reflexivity.
  - intros H. apply Bool.orb_true_iff in H. rewrite <- established_iff in H.
    now apply String.eqb_eq in H.
  - rewrite _calculate_trust_score_formula.
    cbn [is_fact_checker is_academic is_unreliable domain_age].
    now rewrite established_iff, !mem_member.
Qed.

(** C7 at the address of a fact-checking site. *)
Lemma analyze_source_trust_score_witness :
  exists m,
    analyze_source (fun u => Ok (drop 8 u)) "https://www.Snopes.com" = Analysed m
    /\ domain m = "snopes.com"
    /\ trust_score m == 0.8.
Proof.
  destruct (analyze_source_trust_score (fun u => Ok (drop 8 u))
              "https://www.Snopes.com" "www.Snopes.com" eq_refl)
    as (m & Hm & Hd & _ & _ & _ & _ & Ht & _).
  exists m. split; [exact Hm|]. split; [exact Hd|].
  rewrite Ht. vm_compute. reflexivity.
Defined.

(** X2. When [urlparse] raises, [analyze_source] does not: it reports the
    domain ["unknown"] with trust score 0.0. *)
Theorem analyze_source_parse_failure
        (urlparse_netloc : string -> result string) (the_url : string) (e : exn) :
  urlparse_netloc the_url = Raise e ->
  analyze_source urlparse_netloc the_url = Failed "unknown" the_url 0.0.
Proof. intros H. unfold analyze_source. now rewrite H. Qed.

(** X2 for a parser that rejects everything. *)
Lemma analyze_source_parse_failure_witness :
  analyze_source (fun _ => Raise OtherException) "http://[bad"
  = Failed "unknown" "http://[bad" 0.0.
Proof.
  exact (analyze_source_parse_failure (fun _ => Raise OtherException)
                                      "http://[bad" OtherException eq_refl).
Defined.

End CredibilityProofs.

(** ** The rule-based verifier *)

Module RuleBasedProofs.

Import PyStr PyDict LLM PyFacts RuleBasedSpec.
Local Open Scope Q_scope.

Lemma tally_step_nonneg (cl : string) (t : tally) (ev : evidence) :
  0 <= supporting_evidence t -> 0 <= contradicting_evidence t ->
  0 <= supporting_evidence (tally_step cl t ev)
  /\ 0 <= contradicting_evidence (tally_step cl t ev).
Proof.
  intros Hs Hc. unfold tally_step.
  destruct (existsb _ (claim_keywords cl)); [|auto].
  destruct (existsb _ supporting_words); [simpl; split; lra|].
  destruct (existsb _ contradicting_words); simpl; split; lra.
Qed.

Lemma tally_fold_nonneg (cl : string) (evs : list evidence) (t : tally) :
  0 <= supporting_evidence t -> 0 <= contradicting_evidence t ->
  0 <= supporting_evidence (fold_left (tally_step cl) evs t)
  /\ 0 <= contradicting_evidence (fold_left (tally_step cl) evs t).
Proof.
  revert t. induction evs as [|ev evs IH]; intros t Hs Hc; simpl; [auto|].
  destruct (tally_step_nonneg cl t ev Hs Hc). now apply IH.
Qed.

Lemma tally_evidence_nonneg (cl : string) (evs : list evidence) :
  0 <= supporting_evidence (tally_evidence cl evs)
  /\ 0 <= contradicting_evidence (tally_evidence cl evs).
Proof. apply tally_fold_nonneg; simpl; lra. Qed.

Lemma rule_based_cascade (claim : string) (ev : evidence) (evs : list evidence) :
  let r := _rule_based_verify_claim claim (ev :: evs) in
  (rr_verdict r, rr_confidence r) = verdict_cascade claim (ev :: evs).
Proof.
  unfold _rule_based_verify_claim, verdict_cascade. cbv zeta.
  change (List.length (ev :: evs) =? 0)%nat with false. cbv iota.
  destruct (Qltb _ _ && Qltb 0 _); [reflexivity|].
  destruct (Qltb _ _ && Qltb 0 _); [reflexivity|].
  destruct ((_ <? _)%nat && (0 <? _)%nat); [reflexivity|].
  destruct ((_ <? _)%nat && (0 <? _)%nat); [reflexivity|].
  destruct (0 <? _)%nat; reflexivity.
Qed.

Lemma rule_based_citations (claim : string) (evs : list evidence) :
  rr_citations (_rule_based_verify_claim claim evs) = citations_of evs.
Proof.
  destruct evs as [|ev evs]; [reflexivity|].
  unfold _rule_based_verify_claim. cbv zeta.
  change (List.length (ev :: evs) =? 0)%nat with false. cbv iota.
  destruct (Qltb _ _ && Qltb 0 _); [reflexivity|].
  destruct (Qltb _ _ && Qltb 0 _); [reflexivity|].
  destruct ((_ <? _)%nat && (0 <? _)%nat); [reflexivity|].
  destruct ((_ <? _)%nat && (0 <? _)%nat); [reflexivity|].
  destruct (0 <? _)%nat; reflexivity.
Qed.

Lemma rule_based_empty (claim : string) :
  rr_verdict (_rule_based_verify_claim claim []) = "unverified"
  /\ rr_confidence (_rule_based_verify_claim claim []) = 0.2
  /\ rr_citations (_rule_based_verify_claim claim []) = [].
Proof. repeat split. Qed.

Lemma rule_based_in_unit (claim : string) (evs : list evidence) :
  PyNum.in_unit (rr_confidence (_rule_based_verify_claim claim evs)).
Proof.
  destruct evs as [|ev evs].
  - rewrite (proj1 (proj2 (rule_based_empty claim))). split; vm_compute; discriminate.
  - pose proof (rule_based_cascade claim ev evs) as H. cbv zeta in H.
    replace (rr_confidence (_rule_based_verify_claim claim (ev :: evs)))
      with (snd (verdict_cascade claim (ev :: evs))) by now rewrite <- H.
    destruct (tally_evidence_nonneg (lower claim) (ev :: evs)) as [Hs Hc].
    pose proof (of_nat_nonneg (List.length (ev :: evs))) as Hn.
    unfold verdict_cascade. cbv zeta.
    repeat match goal with
           | |- context [if ?b then _ else _] => destruct b
           end; cbn [snd]; apply min_in_unit; lra.
Qed.

(** C6. With no evidence the rule-based verifier answers ["unverified"]
    with confidence 0.2, whatever the claim. *)
Theorem rule_based_no_evidence (claim : string) :
  rr_verdict (_rule_based_verify_claim claim []) = "unverified"
  /\ rr_confidence (_rule_based_verify_claim claim []) = 0.2.
Proof. split; reflexivity. Qed.

Lemma no_evidence_no_support (cl : string) :
  supporting_evidence (tally_evidence cl []) = 0
  /\ contradicting_evidence (tally_evidence cl []) = 0.
Proof. split; reflexivity. Qed.

(** Relevant evidence with confirmation language counts as one
    supporting source. *)
Lemma tally_step_supporting (cl : string) (t : tally) (ev : evidence) :
  existsb (fun keyword => isin keyword (lower (snippet_of ev))) (claim_keywords cl) = true ->
  existsb (fun word => isin word (lower (snippet_of ev))) supporting_words = true ->
  supporting_evidence (tally_step cl t ev) = supporting_evidence t + 1
  /\ contradicting_evidence (tally_step cl t ev) = contradicting_evidence t.
Proof.
  intros Hk Hs. unfold tally_step. cbv zeta. rewrite Hk, Hs. split; reflexivity.
Qed.

(** C5. When the supporting weight exceeds the contradicting weight and
    is positive, the verdict is ["true"] and the confidence is
    [min(0.75, 0.5 + 0.1 * supporting + 0.05 * evidence_count)]; the
    same with the roles exchanged gives ["false"].  For the claim
    ["The Earth is round."] and one web evidence whose snippet contains
    ["confirmed"], shares a keyword of the claim once lower-cased, and
    which has a URL or a title, the verdict is ["true"], the confidence
    is in [[0.5, 0.75]] and there is a citation. *)
Theorem rule_based_evidence_verdict :
  (forall (claim : string) (evs : list evidence),
      let t := tally_evidence (lower claim) evs in
      let r := _rule_based_verify_claim claim evs in
      contradicting_evidence t < supporting_evidence t ->
      0 < supporting_evidence t ->
      rr_verdict r = "true"
      /\ rr_confidence r
         == PyNum.min 0.75 (0.5 + 0.1 * supporting_evidence t
                            + 0.05 * PyNum.of_nat (List.length evs)))
  /\ (forall (claim : string) (evs : list evidence),
         let t := tally_evidence (lower claim) evs in
         let r := _rule_based_verify_claim claim evs in
         supporting_evidence t < contradicting_evidence t ->
         rr_verdict r = "false"
         /\ rr_confidence r
            == PyNum.min 0.75 (0.5 + 0.1 * contradicting_evidence t
                               + 0.05 * PyNum.of_nat (List.length evs)))
  /\ (forall (ev : evidence) (snippet : string),
         ev_type ev = Some "web" ->
         ev_snippet ev = Some snippet ->
         isin "confirmed" snippet = true ->
         (exists keyword,
             In keyword (claim_keywords (lower "The Earth is round."))
             /\ isin keyword (lower snippet) = true) ->
         truthy (ev_url ev) = true \/ truthy (ev_title ev) = true ->
         let r := _rule_based_verify_claim "The Earth is round." [ev] in
         rr_verdict r = "true"
         /\ 0.5 <= rr_confidence r <= 0.75
         /\ rr_citations r <> []).
Proof.
  assert (Hsup : forall claim evs,
             contradicting_evidence (tally_evidence (lower claim) evs)
             < supporting_evidence (tally_evidence (lower claim) evs) ->
             0 < supporting_evidence (tally_evidence (lower claim) evs) ->
             rr_verdict (_rule_based_verify_claim claim evs) = "true"
             /\ rr_confidence (_rule_based_verify_claim claim evs)
                = PyNum.min 0.75
                    (0.5 + supporting_evidence (tally_evidence (lower claim) evs) * 0.1
                     + PyNum.of_nat (List.length evs) * 0.05)).
  { intros claim evs H1 H2. destruct evs as [|ev evs].
    - exfalso. rewrite (proj1 (no_evidence_no_support (lower claim))) in H2.
      revert H2. apply Qlt_irrefl.
    - pose proof (rule_based_cascade claim ev evs) as H. cbv zeta in H.
      unfold verdict_cascade in H. cbv zeta in H.
      apply Qltb_lt in H1, H2. rewrite H1, H2 in H. cbn [andb] in H.
      injection H as Hv Hc. now split. }
  split; [|split].
  - intros claim evs t r H1 H2. destruct (Hsup claim evs H1 H2) as [Hv Hc].
    split; [exact Hv|]. subst r. rewrite Hc. fold t.
    apply Q.min_compat; [reflexivity|ring].
  - intros claim evs t r H1.
    assert (H2 : 0 < contradicting_evidence t).
    { destruct (tally_evidence_nonneg (lower claim) evs) as [Hs _]. fold t in Hs. lra. }
    destruct evs as [|ev evs].
    + exfalso. subst t. rewrite (proj2 (no_evidence_no_support (lower claim))) in H2.
      revert H2. apply Qlt_irrefl.
    + pose proof (rule_based_cascade claim ev evs) as H. cbv zeta in H.
      unfold verdict_cascade in H. cbv zeta in H. fold t in H.
      assert (Hn : Qltb (contradicting_evidence t) (supporting_evidence t) = false).
      { apply Bool.not_true_is_false. rewrite Qltb_lt. intros Hlt.
        apply (Qlt_irrefl (supporting_evidence t)). eapply Qlt_trans; eauto. }
      apply Qltb_lt in H1, H2. rewrite Hn, H1, H2 in H. cbn [andb] in H.
      injection H as Hv Hc. split; [exact Hv|].
      subst r. rewrite Hc. cbn [List.length].
      apply Q.min_compat; [reflexivity|ring].
  - intros ev snippet Hty Hsn Hconf (keyword & Hkin & Hkw) Hcite r.
    assert (Hsnip : snippet_of ev = snippet).
    { unfold snippet_of. rewrite Hsn. simpl. destruct snippet; [discriminate|reflexivity]. }
    assert (Hstep : supporting_evidence (tally_evidence (lower "The Earth is round.") [ev])
                    = 0 + 1
                    /\ contradicting_evidence
                         (tally_evidence (lower "The Earth is round.") [ev]) = 0).
    { unfold tally_evidence. cbn [fold_left].
      apply (tally_step_supporting _ (mk_tally 0 0 []) ev); rewrite Hsnip.
      - apply existsb_exists. now exists keyword.
      - apply existsb_exists. exists "confirm"%string. split; [now left|].
        apply (isin_shorter "confirm" "ed"). now apply isin_lower. }
    destruct Hstep as [Hs Hc].
    destruct (Hsup "The Earth is round."%string [ev]) as [Hv Hq].
    + rewrite Hs, Hc. reflexivity.
    + rewrite Hs. reflexivity.
    + subst r. rewrite Hv, Hq, Hs. split; [reflexivity|]. split.
      * split; vm_compute; discriminate.
      * rewrite rule_based_citations. unfold citations_of. cbn [firstn flat_map].
        destruct Hcite as [Hu|Ht]; rewrite ?Hu.
        -- discriminate.
        -- destruct (truthy (ev_url ev)); [discriminate|]. rewrite Ht. discriminate.
Qed.

(** The scenario of C5 on a snippet from a space agency. *)
Lemma rule_based_evidence_verdict_witness :
  let ev := mk_evidence (Some "NASA") (Some "https://nasa.gov/earth")
                        (Some "Satellite images confirmed that Earth is a sphere")
                        None (Some "DuckDuckGo") (Some "web") in
  rr_verdict (_rule_based_verify_claim "The Earth is round." [ev]) = "true"
  /\ 0.5 <= rr_confidence (_rule_based_verify_claim "The Earth is round." [ev]) <= 0.75
  /\ rr_citations (_rule_based_verify_claim "The Earth is round." [ev]) <> [].
Proof.
  intros ev.
  apply (proj2 (proj2 rule_based_evidence_verdict) ev
           "Satellite images confirmed that Earth is a sphere"%string).
  - reflexivity.
  - reflexivity.
  - reflexivity.
  - exists "earth"%string. split; [now left|reflexivity].
  - left. reflexivity.
Defined.

(** X5. The citations are taken from the first five evidence items, one at
    most for each. *)
Theorem rule_based_citations_bound (claim : string) (evs : list evidence) :
  (List.length (rr_citations (_rule_based_verify_claim claim evs)) <= 5)%nat
  /\ rr_citations (_rule_based_verify_claim claim evs)
     = rr_citations (_rule_based_verify_claim claim (firstn 5 evs)).
Proof.
  rewrite !rule_based_citations. unfold citations_of. split.
  - assert (H : forall l : list evidence,
               (List.length
                  (flat_map (fun ev => if truthy (ev_url ev) then [get_or (ev_url ev) ""]
                                       else if truthy (ev_title ev)
                                            then [get_or (ev_title ev) ""] else []) l)
                <= List.length l)%nat).
    { induction l as [|ev l IH]; simpl; [lia|].
      rewrite length_app.
      destruct (truthy (ev_url ev)); [simpl; lia|].
      destruct (truthy (ev_title ev)); simpl; lia. }
    eapply Nat.le_trans; [apply H|]. apply firstn_le_length.
  - now rewrite firstn_firstn, Nat.min_id.
Qed.

End RuleBasedProofs.

(** ** The verification engine *)

Module VerifyProofs.

Import PyStr PyDict LLM PyFacts VerifySpec.
Local Open Scope Q_scope.

Lemma bind_lift {A B : Type} (r : result A) (f : A -> M B) :
  bind (lift r) f = match r with
                    | Ok a => f a
                    | Raise e => ([], Raise e)
                    end.
Proof.
  destruct r as [a|e]; simpl; [|reflexivity]. now destruct (f a).
Qed.

Lemma post_then_read (E : env) (self : service) (p : payload)
      (read : json -> result json) :
  one_post (bind (post E self p) (fun data => lift (read data))).
Proof.
  unfold post, one_post. simpl. destruct (http_post E (endpoint self) p) as [data|e].
  - exists p, (read data). reflexivity.
  - exists p, (Raise e). reflexivity.
Qed.

Lemma _call_openai_api_one_post (E : env) (self : service) (prompt : string)
      (t : Q) (n : Z) (j : bool) :
  one_post (_call_openai_api E self prompt t n j).
Proof.
  unfold _call_openai_api, _call_ollama_api.
  destruct (isin "11434" (endpoint self) || isin "/api/generate" (endpoint self));
    apply post_then_read.
Qed.

Lemma _call_completion_api_one_post (E : env) (self : service) (prompt : string)
      (t : Q) (n : Z) :
  one_post (_call_completion_api E self prompt t n).
Proof. apply post_then_read. Qed.

(** [generate] never raises; it is one call, of at most two requests. *)
Lemma generate_total (E : env) (self : service) (prompt : string)
      (t : option Q) (n : option Z) (j : option bool) :
  exists log response,
    generate E self prompt t n j = (log, Ok response)
    /\ generate_calls log = 1%nat
    /\ (1 <= http_posts log <= 2)%nat.
Proof.
  unfold generate. cbv zeta.
  match goal with
  | |- context [_call_openai_api E self ?p ?a ?b ?c] =>
      destruct (_call_openai_api_one_post E self p a b c) as (p1 & r1 & H1);
      destruct (_call_completion_api_one_post E self p a b) as (p2 & r2 & H2);
      rewrite H1, H2
  end.
  destruct r1 as [v1|e1]; [|destruct r2 as [v2|e2]]; simpl;
    eexists; eexists; (split; [reflexivity|]); split; cbv; lia.
Qed.

Lemma verify_attempt_parse (E : env) (self : service) (prompt : string) :
  verify_attempt E self prompt
  = let (log, r) := generate E self prompt (Some 0.3) None (Some true) in
    (log, rbind r (parse_reply E)).
Proof.
  unfold verify_attempt.
  destruct (generate_total E self prompt (Some 0.3) None (Some true))
    as (log & response & Hg & _ & _).
  rewrite Hg. unfold bind at 1.
  unfold parse_reply. cbn [rbind].
  repeat (rewrite bind_lift;
          match goal with
          | |- context [match ?r with Ok _ => _ | Raise _ => _ end] =>
              destruct r; cbn [rbind]
          end; try (now rewrite app_nil_r)).
  unfold ret. now rewrite app_nil_r.
Qed.

(** [verify_claim] is one call of [generate], followed by the reading of
    its reply or, when that fails, by the rule-based verifier. *)
Lemma verify_claim_shape (E : env) (self : service) (claim : string)
      (evs : list evidence) :
  exists log response,
    generate E self (verify_prompt claim evs) (Some 0.3) None (Some true)
    = (log, Ok response)
    /\ generate_calls log = 1%nat
    /\ (1 <= http_posts log <= 2)%nat
    /\ verify_claim E self claim evs
       = (log, Ok match parse_reply E response with
                  | Ok v => v
                  | Raise _ => of_rule_result (_rule_based_verify_claim claim evs)
                  end).
Proof.
  destruct (generate_total E self (verify_prompt claim evs) (Some 0.3) None (Some true))
    as (log & response & Hg & Hcalls & Hposts).
  exists log, response. repeat split; try assumption; try apply Hposts.
  unfold verify_claim. cbv zeta. rewrite verify_attempt_parse, Hg. cbn [rbind].
  destruct (parse_reply E response) as [v|e]; simpl; [reflexivity|].
  destruct e; simpl; now rewrite app_nil_r.
Qed.


Lemma parse_reply_confidence (E : env) (response : json) (v : verification) :
  parse_reply E response = Ok v -> reply_confidence E response = Ok (v_confidence v).
Proof.
  unfold parse_reply, reply_confidence.
  destruct (PyVal.str_strip response) as [rc|]; cbn [rbind]; [|discriminate].
  destruct (json_loads E (brace_span rc)) as [parsed|]; cbn [rbind]; [|discriminate].
  destruct (PyVal.dict_get parsed "verdict" (JStr "unverified")); cbn [rbind];
    [|discriminate].
  destruct (PyVal.dict_get parsed "confidence" (JNum 0.5)) as [c|]; cbn [rbind];
    [|discriminate].
  destruct (PyVal.to_float (float_of_str E) c) as [q|]; cbn [rbind]; [|discriminate].
  destruct (PyVal.dict_get parsed "explanation" (JStr "")); cbn [rbind]; [|discriminate].
  destruct (PyVal.dict_get parsed "citations" (JArr [])); cbn [rbind]; [|discriminate].
  intros H. injection H as <-. reflexivity.
Qed.




End VerifyProofs.

(** ** Ranges of confidences and trust scores *)

Module RangeProofs.

Import PyStr PyDict Scoring ScoringSpec Credibility LLM PyFacts VerifySpec.
Local Open Scope Q_scope.

Lemma of_nat_succ (n : nat) : PyNum.of_nat (S n) == PyNum.of_nat n + 1.
Proof.
  unfold PyNum.of_nat. rewrite Nat2Z.inj_succ, <- Z.add_1_r, inject_Z_plus.
  reflexivity.
Qed.

(** A sum of values of [[0,1]] lies between its start and its start plus
    the number of values. *)
Lemma fold_sum_bounds (xs : list Q) (a : Q) :
  Forall PyNum.in_unit xs ->
  a <= fold_left Qplus xs a /\ fold_left Qplus xs a <= a + PyNum.of_nat (List.length xs).
Proof.
  revert a. induction xs as [|x xs IH]; intros a Hall; simpl.
  - change (PyNum.of_nat 0) with 0. split; lra.
  - inversion Hall as [|y ys [Hx0 Hx1] Hrest]; subst.
    destruct (IH (a + x) Hrest) as [Hlo Hhi].
    split; [lra|]. rewrite of_nat_succ. lra.
Qed.

Lemma mean_in_unit (xs : list Q) :
  xs <> [] -> Forall PyNum.in_unit xs ->
  PyNum.in_unit (PyNum.sum xs / PyNum.of_nat (List.length xs)).
Proof.
  intros Hne Hall. destruct (fold_sum_bounds xs 0 Hall) as [Hlo Hhi].
  assert (Hpos : 0 < PyNum.of_nat (List.length xs)).
  { destruct xs as [|x xs]; [congruence|]. cbn [List.length].
    rewrite of_nat_succ. pose proof (of_nat_nonneg (List.length xs)). lra. }
  unfold PyNum.in_unit, PyNum.sum. split.
  - apply Qle_shift_div_l; [exact Hpos|]. lra.
  - apply Qle_shift_div_r; [exact Hpos|]. lra.
Qed.

Lemma zero_in_unit : PyNum.in_unit 0.
Proof. split; vm_compute; discriminate. Qed.

Lemma aggregate_in_unit (verdicts : list verdict_dict) (r : aggregate) :
  (forall d, In d verdicts -> PyNum.in_unit (get_or (vd_confidence d) 0)) ->
  aggregate_verdicts verdicts = Some r ->
  PyNum.in_unit (agg_confidence r).
Proof.
  intros Hall Hr. unfold aggregate_verdicts in Hr.
  destruct verdicts as [|d0 ds].
  - injection Hr as <-. exact zero_in_unit.
  - remember (d0 :: ds) as verdicts eqn:Hvs.
    change (map (fun v => normalize_verdict (get_or (vd_verdict v) "unverified")) verdicts)
      with (normalized_of verdicts) in Hr.
    destruct (max_by_count (count_verdicts (normalized_of verdicts))) as [best|];
      [|discriminate].
    rewrite ScoringProofs.matching_verdicts_supporters in Hr.
    remember (supporters verdicts (fst best)) as sup eqn:Hsup.
    injection Hr as <-. cbv beta iota delta [agg_confidence].
    destruct sup as [|d ds'].
    + exact zero_in_unit.
    + rewrite <- (length_map (fun v => get_or (vd_confidence v) 0) (d :: ds')).
      apply mean_in_unit; [discriminate|].
      apply Forall_forall. intros q Hq. apply in_map_iff in Hq.
      destruct Hq as (d' & <- & Hd'). apply Hall.
      rewrite Hsup in Hd'. unfold supporters in Hd'. now apply filter_In in Hd'.
Qed.

(** C1, as stated, fails: the mean that [aggregate_verdicts] returns for
    one response of confidence 2.0 is 2.0, and [verify_claim] returns
    the 5.0 of a reply [{"verdict": "true", "confidence": 5}]. *)
Lemma confidence_out_of_range :
  (exists r,
      aggregate_verdicts [mk_verdict_dict (Some "true") (Some 2)] = Some r
      /\ agg_confidence r == 2
      /\ ~ PyNum.in_unit (agg_confidence r))
  /\ (exists v,
         snd (verify_claim (canned_env overconfident_reply) local_service
                           "The Earth is round." []) = Ok v
         /\ v_confidence v == 5
         /\ ~ PyNum.in_unit (v_confidence v)).
Proof.
  split; eexists; (split; [vm_compute; reflexivity|]); split;
    try (vm_compute; reflexivity);
    intros [_ H]; vm_compute in H; congruence.
Qed.

(** C1, amended.  The trust score of [CredibilityAnalyzer] is in [[0,1]]
    for every metrics dict and every URL, and so is the confidence of
    the rule-based verifier.  The confidence [verify_claim] returns is
    the rule-based one when the reply cannot be read (a confidence on
    which [float] raises, such as an integer too large for a double,
    is such a case), and otherwise the float of the reply's confidence
    field, unchanged.  The confidence of
    [aggregate_verdicts] is in [[0,1]] when the confidences of the
    responses are. *)
Theorem confidence_ranges :
  (forall m : metrics, PyNum.in_unit (_calculate_trust_score m))
  /\ (forall (urlparse_netloc : string -> result string) (the_url : string),
         PyNum.in_unit (analysis_trust_score (analyze_source urlparse_netloc the_url)))
  /\ (forall (claim : string) (evs : list evidence),
         PyNum.in_unit (rr_confidence (_rule_based_verify_claim claim evs)))
  /\ (forall (E : env) (self : service) (claim : string) (evs : list evidence),
         exists log response v,
           generate E self (verify_prompt claim evs) (Some 0.3) None (Some true)
           = (log, Ok response)
           /\ verify_claim E self claim evs = (log, Ok v)
           /\ (forall e, parse_reply E response = Raise e ->
                         PyNum.in_unit (v_confidence v))
           /\ (forall v', parse_reply E response = Ok v' ->
                          reply_confidence E response = Ok (v_confidence v)))
  /\ (forall (verdicts : list verdict_dict) (r : aggregate),
         (forall d, In d verdicts -> PyNum.in_unit (get_or (vd_confidence d) 0)) ->
         aggregate_verdicts verdicts = Some r ->
         PyNum.in_unit (agg_confidence r)).
Proof.
  split; [exact CredibilityProofs._calculate_trust_score_in_unit|].
  split; [exact CredibilityProofs.analyze_source_in_unit|].
  split; [exact RuleBasedProofs.rule_based_in_unit|].
  split; [|exact aggregate_in_unit].
  intros E self claim evs.
  destruct (VerifyProofs.verify_claim_shape E self claim evs)
    as (log & response & Hg & _ & _ & Hv).
  exists log, response. eexists. split; [exact Hg|]. split; [exact Hv|]. split.
  - intros e He. rewrite He. apply RuleBasedProofs.rule_based_in_unit.
  - intros v' Hv'. rewrite Hv'. now apply VerifyProofs.parse_reply_confidence.
Qed.

(** C1, amended, on two responses of confidence 0.9 and 0.4. *)
Lemma confidence_ranges_witness :
  exists r,
    aggregate_verdicts [mk_verdict_dict (Some "true") (Some 0.9);
                        mk_verdict_dict (Some "false") (Some 0.4)] = Some r
    /\ PyNum.in_unit (agg_confidence r).
Proof.
  eexists. split; [vm_compute; reflexivity|].
  apply (proj2 (proj2 (proj2 (proj2 confidence_ranges)))
           [mk_verdict_dict (Some "true") (Some 0.9);
            mk_verdict_dict (Some "false") (Some 0.4)]).
  - intros d [<-|[<-|[]]]; split; vm_compute; discriminate.
  - vm_compute. reflexivity.
Defined.

End RangeProofs.

(** ** Claim extraction *)

Module ExtractorProofs.

Import PyStr PyDict LLM Extractor PyFacts ExtractorSpec VerifySpec.
Local Open Scope Q_scope.

Lemma unit_06 : PyNum.in_unit 0.6. Proof. split; vm_compute; discriminate. Qed.
Lemma unit_07 : PyNum.in_unit 0.7. Proof. split; vm_compute; discriminate. Qed.
Lemma unit_08 : PyNum.in_unit 0.8. Proof. split; vm_compute; discriminate. Qed.
Lemma unit_085 : PyNum.in_unit 0.85. Proof. split; vm_compute; discriminate. Qed.

Create HintDb units.
#[local] Hint Resolve unit_06 unit_07 unit_08 unit_085 : units.

Lemma fold_left_invariant {A B : Type} (P : A -> Prop) (Q : B -> Prop)
      (f : A -> B -> A) (l : list B) (a : A) :
  (forall a b, P a -> Q b -> P (f a b)) ->
  P a -> Forall Q l -> P (fold_left f l a).
Proof.
  intros Hstep. revert a. induction l as [|b l IH]; intros a Ha Hl; simpl.
  - exact Ha.
  - inversion Hl; subst. apply IH; auto.
Qed.

(** *** The three strategies *)

Lemma spacy_step_graded (claims : list raw_claim) (sent : sentence) :
  Forall graded claims -> Forall graded (spacy_step claims sent).
Proof.
  intros H. unfold spacy_step. cbv zeta.
  repeat match goal with
         | |- context [if ?b then _ else _] => destruct b
         end; auto; apply Forall_app; split; auto;
    constructor; auto; unfold graded; simpl; auto with units.
Qed.

Lemma extract_with_spacy_graded (self : extractor) (text : string)
      (claims : list raw_claim) :
  extract_with_spacy self text = Ok claims -> Forall graded claims.
Proof.
  unfold extract_with_spacy. destruct (nlp self) as [parse|].
  - destruct (parse text) as [sents|e]; simpl; [|discriminate].
    intros H. injection H as <-.
    apply (fold_left_invariant (Forall graded) (fun _ => True)); auto.
    + intros a b Ha _. now apply spacy_step_graded.
    + apply Forall_forall. auto.
  - intros H. injection H as <-. constructor.
Qed.

Lemma llm_claims_graded (items : list json) (idx : nat) (base : Q)
      (method : string) (claims : list raw_claim) :
  PyNum.in_unit base ->
  llm_claims idx items base method = Ok claims -> Forall graded claims.
Proof.
  intros Hbase. revert idx claims.
  induction items as [|item items IH]; intros idx claims H; simpl in H.
  - injection H as <-. constructor.
  - destruct (PyVal.dict_get item "claim" (JStr "")) as [value|]; simpl in H;
      [|discriminate].
    destruct (PyVal.str_strip value) as [stripped|]; simpl in H; [|discriminate].
    destruct (llm_claims (S idx) items base method) as [tail|] eqn:Htail;
      simpl in H; [|discriminate].
    specialize (IH (S idx) tail Htail).
    destruct stripped, value; injection H as <-; auto.
Qed.

Lemma simple_claims_graded (sentences : list string) (idx : nat) :
  Forall graded (simple_claims idx sentences).
Proof.
  revert idx. induction sentences as [|s rest IH]; intros idx; simpl.
  - constructor.
  - destruct (_ && _); [constructor|]; auto. unfold graded. simpl. auto with units.
Qed.

(** The LLM strategy never raises: any failure gives the empty list. *)
Lemma extract_with_llm_total (E : env) (self : extractor) (text : string)
      (rag : option (string -> nat -> result (list rag_hit))) :
  exists log claims,
    extract_with_llm E self text rag = (log, Ok claims) /\ Forall graded claims.
Proof.
  unfold extract_with_llm. destruct (llm_service self) as [llm|].
  2:{ exists [], []. split; [reflexivity|constructor]. }
  cbv zeta.
  match goal with
  | |- context [generate E llm ?p ?a ?b ?c] =>
      destruct (VerifyProofs.generate_total E llm p a b c)
        as (log & response & Hg & _ & _); rewrite Hg
  end.
  unfold bind at 1.
  rewrite VerifyProofs.bind_lift.
  destruct (PyVal.str_strip response) as [rc|e].
  2:{ eexists; eexists. split; [reflexivity|constructor]. }
  rewrite VerifyProofs.bind_lift.
  destruct (json_loads E (bracket_span rc)) as [data|].
  2:{ eexists; eexists. split; [reflexivity|constructor]. }
  match goal with
  | |- context [lift (llm_claims ?i ?items ?b ?m)] =>
      destruct (llm_claims i items b m) as [claims|e] eqn:Hclaims;
      [ assert (Hgraded : Forall graded claims)
        by (apply (llm_claims_graded items i b m claims); [|exact Hclaims];
            match goal with
            | |- PyNum.in_unit (if ?b then _ else _) => destruct b
            end; auto with units)
      | ]
  end.
  - eexists; eexists. split; [reflexivity|exact Hgraded].
  - eexists; eexists. split; [reflexivity|constructor].
Qed.

(** *** Fusion *)

Lemma seen_cons (x k : string) (texts : list string) :
  seen x texts = true -> seen x (k :: texts) = true.
Proof. unfold seen. simpl. intros ->. apply Bool.orb_true_r. Qed.

Lemma add_claim_fused (st : fusion) (c : raw_claim) (dflt : Q) (method : string) :
  fused st -> graded c -> PyNum.in_unit dflt ->
  seen (dedup_key (rc_claim c)) (claim_texts st) = false ->
  fused (add_claim st (dedup_key (rc_claim c)) c dflt method).
Proof.
  intros (Hnd & Hseen & Hconf) Hc Hd Hnew. unfold fused, add_claim.
  cbn [all_claims claim_texts]. split; [|split].
  - rewrite map_app. simpl.
    apply NoDup_app; [exact Hnd | repeat constructor; intros [] | ].
    intros k Hk [<-|[]]. apply in_map_iff in Hk. destruct Hk as (c' & Hkey & Hin).
    specialize (Hseen c' Hin). rewrite Hkey in Hseen. congruence.
  - intros c' Hin. apply in_app_or in Hin. destruct Hin as [Hin|[<-|[]]].
    + apply seen_cons. now apply Hseen.
    + simpl. unfold seen. simpl. now rewrite String.eqb_refl.
  - apply Forall_app. split; [exact Hconf|]. constructor; [|constructor].
    simpl. unfold graded in Hc. destruct (rc_confidence c); simpl; auto.
Qed.

Lemma fuse_spacy_fused (st : fusion) (c : raw_claim) :
  fused st -> graded c -> fused (fuse_spacy st c).
Proof.
  intros Hst Hc. unfold fuse_spacy. cbv zeta.
  destruct (seen _ _) eqn:Hseen; [exact Hst|].
  apply add_claim_fused; auto with units.
Qed.

Lemma fuse_llm_fused (st : fusion) (c : raw_claim) :
  fused st -> graded c -> fused (fuse_llm st c).
Proof.
  intros Hst Hc. unfold fuse_llm. cbv zeta.
  destruct (is_duplicate _ _); [exact Hst|].
  destruct (seen _ _) eqn:Hseen; [exact Hst|].
  apply add_claim_fused; auto with units.
Qed.

Lemma fuse_simple_fused (st : fusion) (c : raw_claim) :
  fused st -> graded c -> fused (fuse_simple st c).
Proof.
  intros Hst Hc. unfold fuse_simple. cbv zeta.
  destruct (is_duplicate _ _); [exact Hst|].
  destruct (seen _ _) eqn:Hseen; [exact Hst|].
  apply add_claim_fused; auto with units.
Qed.

(** *** Ranking *)

Lemma insert_desc_perm (c : claim) (l : list claim) :
  Permutation (insert_desc c l) (c :: l).
Proof.
  induction l as [|d l IH]; simpl; [reflexivity|].
  destruct (Qle_bool (confidence d) (confidence c)); [reflexivity|].
  rewrite IH. apply perm_swap.
Qed.

Lemma sort_desc_perm (l : list claim) : Permutation (sort_desc l) l.
Proof.
  induction l as [|c l IH]; simpl; [reflexivity|].
  unfold sort_desc in *. simpl. rewrite insert_desc_perm. now constructor.
Qed.

Lemma insert_desc_sorted (c : claim) (l : list claim) :
  StronglySorted outranks (map confidence l) ->
  StronglySorted outranks (map confidence (insert_desc c l)).
Proof.
  induction l as [|d l IH]; intros Hs; simpl.
  - repeat constructor.
  - inversion Hs as [|x xs Hrest Hall]; subst.
    destruct (Qle_bool (confidence d) (confidence c)) eqn:Hle.
    + apply Qle_bool_iff in Hle. simpl. constructor; [exact Hs|].
      constructor; [exact Hle|].
      eapply Forall_impl; [|exact Hall]. intros q Hq. unfold outranks in *.
      eapply Qle_trans; eauto.
    + simpl. constructor; [now apply IH|].
      assert (Hlt : confidence c < confidence d).
      { apply Qnot_le_lt. intros H. apply Qle_bool_iff in H. congruence. }
      apply Forall_forall. intros q Hq.
      apply (Permutation_in _ (Permutation_map confidence (insert_desc_perm c l))) in Hq.
      destruct Hq as [<-|Hq].
      * unfold outranks. now apply Qlt_le_weak.
      * rewrite Forall_forall in Hall. now apply Hall.
Qed.

Lemma sort_desc_sorted (l : list claim) :
  StronglySorted outranks (map confidence (sort_desc l)).
Proof.
  induction l as [|c l IH]; simpl; [constructor|].
  now apply insert_desc_sorted.
Qed.

Lemma renumber_fields (l : list claim) (idx : nat) :
  map claim_text (renumber idx l) = map claim_text l
  /\ map confidence (renumber idx l) = map confidence l
  /\ map id (renumber idx l) = seq idx (List.length l).
Proof.
  revert idx. induction l as [|c l IH]; intros idx; simpl; [auto|].
  destruct (IH (S idx)) as (-> & -> & ->). auto.
Qed.

(** C8. [extract] never raises, and in the list it returns no two claims
    have the same text once trimmed and lower-cased, every confidence is
    in [[0,1]], the ids are 1, 2, ..., N in this order, and the
    confidences are non-increasing along the list. *)
Theorem extract_well_formed (E : env) (self : extractor) (text : string) :
  exists log claims,
    extract E self text = (log, Ok claims)
    /\ NoDup (map (fun c => dedup_key (claim_text c)) claims)
    /\ Forall (fun c => PyNum.in_unit (confidence c)) claims
    /\ map id claims = seq 1 (List.length claims)
    /\ StronglySorted outranks (map confidence claims).
Proof.
  unfold extract.
  destruct (_ || _).
  { exists [], []. repeat split; constructor. }
  cbv zeta.
  set (st0 := mk_fusion [] []).
  assert (H0 : fused st0).
  { repeat split; [constructor|intros c []|constructor]. }
  set (st1 := match extract_with_spacy self text with
              | Ok spacy_claims => fold_left fuse_spacy spacy_claims st0
              | Raise _ => st0
              end).
  assert (H1 : fused st1).
  { subst st1. destruct (extract_with_spacy self text) as [cs|e] eqn:Hsp; [|exact H0].
    apply (fold_left_invariant fused graded); auto using fuse_spacy_fused.
    now apply (extract_with_spacy_graded self text). }
  assert (Hllm : exists log st2,
             (if use_llm self
                 && match llm_service self with Some _ => true | None => false end
              then bind (extract_with_llm E self text (rag_retriever self))
                        (fun llm_found => ret (fold_left fuse_llm llm_found st1))
              else ret st1) = (log, Ok st2) /\ fused st2).
  { destruct (use_llm self && _).
    - destruct (extract_with_llm_total E self text (rag_retriever self))
        as (log & cs & Hx & Hcs).
      rewrite Hx. exists (log ++ []), (fold_left fuse_llm cs st1).
      split; [reflexivity|].
      apply (fold_left_invariant fused graded); auto using fuse_llm_fused.
    - exists [], st1. split; [reflexivity|exact H1]. }
  destruct Hllm as (log & st2 & -> & H2).
  set (st3 := fold_left fuse_simple (_extract_simple text) st2).
  assert (H3 : fused st3).
  { apply (fold_left_invariant fused graded); auto using fuse_simple_fused.
    apply simple_claims_graded. }
  destruct H3 as (Hnd & _ & Hconf).
  exists (log ++ []), (renumber 1 (sort_desc (all_claims st3))).
  split; [reflexivity|].
  destruct (renumber_fields (sort_desc (all_claims st3)) 1) as (Htext & Hc & Hid).
  pose proof (sort_desc_perm (all_claims st3)) as Hperm.
  split; [|split; [|split]].
  - rewrite <- (map_map claim_text dedup_key), Htext, map_map.
    eapply Permutation_NoDup; [|exact Hnd].
    apply Permutation_map. now symmetry.
  - apply Forall_forall. intros c Hin.
    apply (in_map confidence) in Hin. rewrite Hc in Hin.
    apply in_map_iff in Hin. destruct Hin as (c' & <- & Hin').
    rewrite Forall_forall in Hconf. apply Hconf.
    now apply (Permutation_in _ Hperm).
  - rewrite Hid. f_equal.
    rewrite <- (length_map claim_text (renumber _ _)), Htext. now rewrite length_map.
  - rewrite Hc. apply sort_desc_sorted.
Qed.

(** X1. A text of fewer than ten characters once trimmed gives no claim, and
    no call is made. *)
Theorem extract_short_text (E : env) (self : extractor) (text : string) :
  (String.length (strip text) < 10)%nat ->
  extract E self text = ([], Ok []).
Proof.
  intros H. unfold extract.
  apply Nat.ltb_lt in H. rewrite H. now rewrite Bool.orb_true_r.
Qed.

(** X1 on a padded phrase. *)
Lemma extract_short_text_witness :
  extract (mk_env (fun _ _ => Raise OtherException) (fun _ => Raise JSONDecodeError)
                  (fun _ => "") (fun _ => "") (fun _ => None))
          (mk_extractor true None None None) "   Too short   "
  = ([], Ok []).
Proof.
  apply extract_short_text. vm_compute. reflexivity.
Defined.

End ExtractorProofs.

(** ** Agreement, source credibility and the weighted confidence *)

Module SignalProofs.

Import PyStr PyDict Scoring ScoringSpec PyFacts.
Local Open Scope Q_scope.

Lemma fold_max_greatest (rest : list nat) (n : nat) :
  let m := fold_left (fun best x => if (best <? x)%nat then x else best) rest n in
  In m (n :: rest) /\ forall x, In x (n :: rest) -> (x <= m)%nat.
Proof.
  revert n. induction rest as [|y rest IH]; intros n; simpl.
  - split; [now left|]. intros x [<-|[]]. lia.
  - destruct (IH (if (n <? y)%nat then y else n)) as [Hin Hmax].
    simpl in Hin, Hmax. split.
    + destruct Hin as [Hin|Hin]; [|now right; right].
      rewrite <- Hin. destruct (n <? y)%nat; [right; now left|now left].
    + intros x Hx. pose proof (Hmax _ (or_introl eq_refl)) as Hfirst.
      destruct Hx as [Hx|[Hx|Hx]].
      * subst x. destruct (Nat.ltb_spec n y); lia.
      * subst x. destruct (Nat.ltb_spec n y); lia.
      * apply Hmax. now right.
Qed.

(** The largest count of the table of a non-empty list is the number of
    votes of its most frequent element. *)
Lemma max_count_votes (l : list string) :
  l <> [] ->
  exists m w,
    max_count (count_verdicts l) = Some m
    /\ In w l /\ votes l w = m /\ forall v, (votes l v <= m)%nat.
Proof.
  intros Hne. destruct (ScoringProofs.count_verdicts_table l) as [Hkeys Hcount].
  unfold max_count.
  destruct (count_verdicts l) as [|[k n] c] eqn:Hc.
  { destruct l; [congruence|discriminate]. }
  cbn [map snd].
  destruct (fold_max_greatest (map snd c) n) as [Hin Hmax].
  set (m := fold_left _ (map snd c) n) in *.
  change (n :: map snd c) with (map snd ((k, n) :: c)) in Hin, Hmax.
  apply in_map_iff in Hin. destruct Hin as ([w m'] & Hm & Hin). simpl in Hm. subst m'.
  exists m, w. split; [reflexivity|]. split; [|split].
  - rewrite <- ScoringProofs.firsts_In, <- Hkeys. now apply (in_map fst) in Hin.
  - symmetry. now apply Hcount.
  - intros v. destruct (in_dec string_dec v l) as [Hv|Hv].
    + rewrite <- ScoringProofs.firsts_In, <- Hkeys in Hv.
      apply in_map_iff in Hv. destruct Hv as ([v' nv] & Hv' & Hv). simpl in Hv'. subst v'.
      rewrite <- (Hcount v nv Hv). apply Hmax. now apply (in_map snd) in Hv.
    + unfold votes. rewrite (proj1 (count_occ_not_In string_dec l v) Hv). lia.
Qed.

Lemma votes_all (l : list string) (w : string) :
  votes l w = List.length l <-> forall v, In v l -> v = w.
Proof.
  unfold votes. induction l as [|a l IH]; simpl.
  - split; [intros _ v []|reflexivity].
  - pose proof (count_occ_bound string_dec w l) as Hb.
    destruct (string_dec a w) as [->|Hne].
    + split.
      * intros H v [<-|Hv]; [reflexivity|]. apply IH; [lia|exact Hv].
      * intros H. f_equal. apply IH. intros v Hv. apply H. now right.
    + split; [lia|]. intros H. exfalso. apply Hne. apply H. now left.
Qed.

Lemma of_nat_pos (n : nat) : (0 < n)%nat -> 0 < PyNum.of_nat n.
Proof. intros H. unfold PyNum.of_nat, Qlt. simpl. lia. Qed.

Lemma of_nat_le (m n : nat) : (m <= n)%nat -> PyNum.of_nat m <= PyNum.of_nat n.
Proof. intros H. unfold PyNum.of_nat. rewrite <- Zle_Qle. lia. Qed.

Lemma of_nat_eq (m n : nat) : PyNum.of_nat m == PyNum.of_nat n <-> m = n.
Proof.
  unfold PyNum.of_nat. rewrite inject_Z_injective. split; [apply Nat2Z.inj|congruence].
Qed.

Lemma ratio_one (x d : Q) : 0 < d -> (x / d == 1 <-> x == d).
Proof.
  intros Hd. assert (Hnz : ~ d == 0) by (intros H; rewrite H in Hd; revert Hd; apply Qlt_irrefl).
  split; intros H.
  - rewrite <- (Qmult_div_r x d Hnz), H. ring.
  - rewrite H. now apply Qmult_inv_r.
Qed.

(** X6. [calculate_agreement_score] is 0.0 on the empty list; on a
    non-empty list it is the share of the most frequent verdict, a value
    in (0, 1] that is 1 exactly when all verdicts are the same string. *)
Theorem calculate_agreement_score_share :
  calculate_agreement_score [] = Some 0.0
  /\ forall verdicts : list string,
      verdicts <> [] ->
      exists a w,
        calculate_agreement_score verdicts = Some a
        /\ In w verdicts
        /\ (forall v, (votes verdicts v <= votes verdicts w)%nat)
        /\ a == PyNum.of_nat (votes verdicts w) / PyNum.of_nat (List.length verdicts)
        /\ 0 < a /\ a <= 1
        /\ (a == 1 <-> forall v, In v verdicts -> v = w).
Proof.
  split; [reflexivity|]. intros verdicts Hne.
  destruct (max_count_votes verdicts Hne) as (m & w & Hm & Hw & Hvw & Hmax).
  unfold calculate_agreement_score.
  destruct verdicts as [|v0 vs]; [congruence|].
  remember (v0 :: vs) as verdicts eqn:Hvs.
  rewrite Hm. subst m.
  assert (Hlen : 0 < PyNum.of_nat (List.length verdicts)).
  { apply of_nat_pos. subst verdicts. simpl. lia. }
  assert (Hpos : (0 < votes verdicts w)%nat).
  { unfold votes. now apply count_occ_In. }
  assert (Hle : (votes verdicts w <= List.length verdicts)%nat)
    by apply count_occ_bound.
  eexists; exists w. split; [reflexivity|].
  split; [exact Hw|]. split; [exact Hmax|]. split; [reflexivity|].
  split; [|split].
  - apply Qlt_shift_div_l; [exact Hlen|]. rewrite Qmult_0_l. now apply of_nat_pos.
  - apply Qle_shift_div_r; [exact Hlen|]. rewrite Qmult_1_l. now apply of_nat_le.
  - rewrite (ratio_one _ _ Hlen), of_nat_eq. apply votes_all.
Qed.

(** X6 on three verdicts, two of them the same. *)
Lemma calculate_agreement_score_share_witness :
  exists a, calculate_agreement_score ["true"; "false"; "true"] = Some a
            /\ 0 < a /\ a <= 1.
Proof.
  destruct (proj2 calculate_agreement_score_share ["true"; "false"; "true"])
    as (a & w & Ha & _ & _ & _ & Hpos & Hle & _); [discriminate|].
  exists a. auto.
Defined.

Lemma credibility_scores_filter (sources : list source_dict) :
  credibility_scores
    (filter (fun s => match sd_trust_score s with Some _ => true | None => false end)
            sources)
  = credibility_scores sources.
Proof.
  unfold credibility_scores. induction sources as [|s l IH]; simpl; [reflexivity|].
  destruct (sd_trust_score s) eqn:Hs; simpl; [rewrite Hs|]; now rewrite IH.
Qed.

(** X7. [calculate_source_credibility_score] is 0.0 for no source and
    0.5 when no source has a trust score.  Otherwise it is the mean of
    the trust scores that are present: a source without one changes
    nothing, and the result is in [[0,1]] when those scores are. *)
Theorem calculate_source_credibility_score_mean (sources : list source_dict) :
  (sources = [] -> calculate_source_credibility_score sources == 0)
  /\ (sources <> [] -> credibility_scores sources = [] ->
      calculate_source_credibility_score sources == 0.5)
  /\ (credibility_scores sources <> [] ->
      calculate_source_credibility_score sources
      == PyNum.sum (credibility_scores sources)
         / PyNum.of_nat (List.length (credibility_scores sources))
      /\ calculate_source_credibility_score sources
         = calculate_source_credibility_score
             (filter (fun s => match sd_trust_score s with
                               | Some _ => true
                               | None => false
                               end) sources))
  /\ ((forall s t, In s sources -> sd_trust_score s = Some t -> PyNum.in_unit t) ->
      PyNum.in_unit (calculate_source_credibility_score sources)).
Proof.
  unfold calculate_source_credibility_score. split; [|split; [|split]].
  - intros ->. reflexivity.
  - intros Hne Hnone. destruct sources; [congruence|]. rewrite Hnone. reflexivity.
  - intros Hsome.
    assert (Hne : sources <> []) by (intros ->; now apply Hsome).
    pose proof (credibility_scores_filter sources) as Hf.
    destruct (filter _ sources) as [|s' l'] eqn:Hfl.
    { simpl in Hf. congruence. }
    rewrite Hf. destruct sources as [|s l]; [congruence|].
    destruct (credibility_scores (s :: l)); [congruence|]. split; reflexivity.
  - intros Hall. destruct sources as [|s l]; [split; vm_compute; discriminate|].
    destruct (credibility_scores (s :: l)) as [|q qs] eqn:Hq;
      [split; vm_compute; discriminate|].
    apply RangeProofs.mean_in_unit; [discriminate|].
    rewrite <- Hq. apply Forall_forall. intros t Ht.
    unfold credibility_scores in Ht. apply in_flat_map in Ht.
    destruct Ht as (s0 & Hs0 & Ht).
    destruct (sd_trust_score s0) as [t0|] eqn:Hts; [|contradiction].
    destruct Ht as [<-|[]]. now apply (Hall s0).
Qed.

(** X7 on two scored sources and one without a score. *)
Lemma calculate_source_credibility_score_mean_witness :
  calculate_source_credibility_score
    [mk_source_dict (Some 0.8); mk_source_dict None; mk_source_dict (Some 0.4)]
  == 0.6.
Proof.
  destruct (calculate_source_credibility_score_mean
              [mk_source_dict (Some 0.8); mk_source_dict None;
               mk_source_dict (Some 0.4)])
    as (_ & _ & Hmean & _).
  destruct Hmean as [Hmean _]; [discriminate|].
  rewrite Hmean. vm_compute. reflexivity.
Defined.

(** X8. When it does not raise, [calculate_confidence_score] returns a
    value of [[0,1]], whatever its inputs, and a higher source
    credibility or agreement never lowers it.  It raises when
    [math.log] does. *)
Theorem calculate_confidence_score_clamped
        (math_log : Q -> option Q) (evidence_count : Z) (base : option Q) :
  (forall cred agr q,
      calculate_confidence_score math_log evidence_count cred agr base = Some q ->
      PyNum.in_unit q)
  /\ (forall cred cred' agr agr' q q',
         cred <= cred' -> agr <= agr' ->
         calculate_confidence_score math_log evidence_count cred agr base = Some q ->
         calculate_confidence_score math_log evidence_count cred' agr' base = Some q' ->
         q <= q')
  /\ (math_log (inject_Z (evidence_count + 1)) = None ->
      forall cred agr,
        calculate_confidence_score math_log evidence_count cred agr base = None).
Proof.
  unfold calculate_confidence_score. cbv zeta.
  destruct (math_log (inject_Z (evidence_count + 1))) as [num|];
    [|repeat split; intros; congruence].
  destruct (math_log 10) as [den|]; [|repeat split; intros; congruence].
  destruct (Qeq_bool den 0); [repeat split; intros; congruence|].
  split; [|split; [|discriminate]].
  - intros cred agr q H. injection H as <-. unfold PyNum.in_unit, PyNum.max, PyNum.min.
    split.
    + eapply Qle_trans; [|apply Q.le_max_l]. vm_compute. discriminate.
    + apply Q.max_lub; [vm_compute; discriminate|].
      eapply Qle_trans; [apply Q.le_min_l|]. vm_compute. discriminate.
  - intros cred cred' agr agr' q q' Hc Ha H H'.
    injection H as <-. injection H' as <-. unfold PyNum.max, PyNum.min.
    apply Q.max_le_compat_l, Q.min_le_compat_l. lra.
Qed.

(** X8 with a logarithm that knows one value. *)
Lemma calculate_confidence_score_clamped_witness :
  exists q,
    calculate_confidence_score (fun x => if Qeq_bool x 10 then Some 1 else None)
                               9 0.9 1 None = Some q
    /\ PyNum.in_unit q.
Proof.
  eexists. split; [reflexivity|].
  apply (proj1 (calculate_confidence_score_clamped
                  (fun x => if Qeq_bool x 10 then Some 1 else None) 9 None)
               0.9 1).
  reflexivity.
Defined.

End SignalProofs.

(** ** Batches of sources *)

Module SourceSummaryProofs.

Import PyStr PyDict Credibility CredibilitySpec PyFacts.
Local Open Scope Q_scope.

(** No domain is on both lists. *)
Lemma fact_checker_not_unreliable (d : string) :
  mem d fact_check_domains = true -> mem d unreliable_domains = false.
Proof.
  unfold mem. intros H. apply existsb_exists in H.
  destruct H as (x & Hin & Heq). apply String.eqb_eq in Heq. subst x.
  unfold fact_check_domains in Hin. simpl in Hin.
  repeat (destruct Hin as [<-|Hin]; [reflexivity|]). contradiction.
Qed.

Lemma analyze_source_flags (urlparse_netloc : string -> result string) (u : string) :
  flagged is_fact_checker (analyze_source urlparse_netloc u) = true ->
  flagged is_unreliable (analyze_source urlparse_netloc u) = false.
Proof.
  unfold analyze_source. destruct (urlparse_netloc u) as [netloc|e]; [|reflexivity].
  cbn [flagged is_fact_checker is_unreliable update_with_metadata set_trust_score].
  apply fact_checker_not_unreliable.
Qed.

Lemma count_disjoint {A : Type} (f g : A -> bool) (l : list A) :
  (forall x, In x l -> f x = true -> g x = false) ->
  (List.length (filter f l) + List.length (filter g l) <= List.length l)%nat.
Proof.
  induction l as [|x l IH]; intros H; simpl; [lia|].
  assert (IH' := IH (fun y Hy => H y (or_intror Hy))).
  pose proof (H x (or_introl eq_refl)) as Hx.
  destruct (f x); [rewrite (Hx eq_refl)|destruct (g x)]; simpl; lia.
Qed.

Lemma count_flagged_urls (urlparse_netloc : string -> result string)
      (flag : metrics -> bool) (test : string -> bool) (urls : list string) :
  (forall u netloc,
      urlparse_netloc u = Ok netloc ->
      flagged flag (analyze_source urlparse_netloc u)
      = test (lower (replace_with_empty "www." netloc))) ->
  count_flagged flag (map (analyze_source urlparse_netloc) urls)
  = urls_with urlparse_netloc test urls.
Proof.
  intros Hflag. unfold count_flagged, urls_with.
  induction urls as [|u us IH]; [reflexivity|].
  cbn [map filter]. unfold rated_domain at 1.
  destruct (urlparse_netloc u) as [netloc|e] eqn:Hu.
  - rewrite (Hflag u netloc Hu).
    destruct (test _); cbn [List.length]; now rewrite IH.
  - unfold analyze_source at 1. rewrite Hu. cbn [flagged]. exact IH.
Qed.

(** X9. [analyze_multiple_sources] counts every URL, also one that
    cannot be parsed, and returns their analyses in order; its average
    trust score is the mean of their trust scores, in [[0,1]] (0.0 for
    no URL).  For an empty list the three counts are absent.  For a
    non-empty list they are present: the number of URLs whose domain is
    a fact-checker, the number whose domain has an academic suffix and
    the number whose domain is on the unreliable list, a URL that cannot
    be parsed being counted nowhere.  No URL is counted both as a
    fact-checker and as unreliable, so these two counts together do not
    exceed the number of sources, and neither does the academic one. *)
Theorem analyze_multiple_sources_summary
        (urlparse_netloc : string -> result string) (urls : list string) :
  let r := analyze_multiple_sources urlparse_netloc urls in
  source_count r = List.length urls
  /\ sources r = map (analyze_source urlparse_netloc) urls
  /\ PyNum.in_unit (average_trust_score r)
  /\ (urls = [] ->
      average_trust_score r = 0.0
      /\ fact_checker_sources r = None /\ academic_sources r = None
      /\ unreliable_sources r = None)
  /\ (urls <> [] ->
      average_trust_score r
      = PyNum.sum (map (fun u => analysis_trust_score
                                   (analyze_source urlparse_netloc u)) urls)
        / PyNum.of_nat (List.length urls)
      /\ fact_checker_sources r
         = Some (urls_with urlparse_netloc
                           (fun d => member d fact_check_domains) urls)
      /\ academic_sources r
         = Some (urls_with urlparse_netloc
                           (fun d => has_suffix d academic_domains) urls)
      /\ unreliable_sources r
         = Some (urls_with urlparse_netloc
                           (fun d => member d unreliable_domains) urls)
      /\ (urls_with urlparse_netloc (fun d => member d fact_check_domains) urls
          + urls_with urlparse_netloc (fun d => member d unreliable_domains) urls
          <= List.length urls)%nat
      /\ (urls_with urlparse_netloc (fun d => has_suffix d academic_domains) urls
          <= List.length urls)%nat)
  /\ (forall u d,
         In u urls -> rated_domain urlparse_netloc u = Some d ->
         member d fact_check_domains = true ->
         member d unreliable_domains = false).
Proof.
  assert (Hboth : forall d, member d fact_check_domains = true ->
                            member d unreliable_domains = false).
  { intros d. rewrite <- !CredibilityProofs.mem_member.
    apply fact_checker_not_unreliable. }
  assert (Hf : count_flagged is_fact_checker (map (analyze_source urlparse_netloc) urls)
               = urls_with urlparse_netloc (fun d => member d fact_check_domains) urls).
  { apply count_flagged_urls. intros u netloc Hu. unfold analyze_source. rewrite Hu.
    cbn [flagged is_fact_checker update_with_metadata set_trust_score].
    apply CredibilityProofs.mem_member. }
  assert (Ha : count_flagged is_academic (map (analyze_source urlparse_netloc) urls)
               = urls_with urlparse_netloc (fun d => has_suffix d academic_domains) urls).
  { apply count_flagged_urls. intros u netloc Hu. unfold analyze_source. rewrite Hu.
    reflexivity. }
  assert (Hu : count_flagged is_unreliable (map (analyze_source urlparse_netloc) urls)
               = urls_with urlparse_netloc (fun d => member d unreliable_domains) urls).
  { apply count_flagged_urls. intros u netloc Hu. unfold analyze_source. rewrite Hu.
    cbn [flagged is_unreliable update_with_metadata set_trust_score].
    apply CredibilityProofs.mem_member. }
  unfold analyze_multiple_sources. cbv zeta.
  destruct urls as [|u0 us].
  { repeat split; try reflexivity; try (vm_compute; discriminate);
      try congruence. intros u d []. }
  remember (u0 :: us) as urls eqn:Hurls.
  assert (Hlen : List.length (map (analyze_source urlparse_netloc) urls)
                 = List.length urls) by apply length_map.
  destruct (map (analyze_source urlparse_netloc) urls) as [|a0 rest] eqn:Hmap.
  { subst urls. discriminate. }
  rewrite <- Hmap in *.
  cbn [source_count sources average_trust_score fact_checker_sources
       academic_sources unreliable_sources].
  split; [exact Hlen|]. split; [reflexivity|]. split; [|split; [|split]].
  - rewrite <- (length_map analysis_trust_score).
    apply RangeProofs.mean_in_unit.
    + rewrite Hmap. discriminate.
    + apply Forall_forall. intros q Hq. apply in_map_iff in Hq.
      destruct Hq as (a & <- & Hin). apply in_map_iff in Hin.
      destruct Hin as (u & <- & _). apply CredibilityProofs.analyze_source_in_unit.
  - subst urls. discriminate.
  - intros _. rewrite Hf, Ha, Hu, Hlen, map_map.
    split; [reflexivity|]. split; [reflexivity|]. split; [reflexivity|].
    split; [reflexivity|]. split.
    + unfold urls_with. apply count_disjoint. intros u _.
      destruct (rated_domain urlparse_netloc u) as [d|]; [apply Hboth|reflexivity].
    + unfold urls_with. apply filter_length_le.
  - intros u d _ _. apply Hboth.
Qed.

(** X9 on a fact-checker, a university and an address that cannot be
    parsed. *)
Lemma analyze_multiple_sources_summary_witness :
  let r := analyze_multiple_sources
             (fun u => if String.eqb u "bad" then Raise OtherException else Ok u)
             ["www.snopes.com"; "mit.edu"; "bad"] in
  source_count r = 3%nat
  /\ fact_checker_sources r = Some 1%nat
  /\ academic_sources r = Some 1%nat
  /\ unreliable_sources r = Some 0%nat.
Proof.
  cbv zeta.
  destruct (analyze_multiple_sources_summary
              (fun u => if String.eqb u "bad" then Raise OtherException else Ok u)
              ["www.snopes.com"; "mit.edu"; "bad"])
    as (Hn & _ & _ & _ & Hcounts & _).
  destruct (Hcounts ltac:(discriminate)) as (_ & Hf & Ha & Hu & _).
  rewrite Hn, Hf, Ha, Hu. repeat split.
Defined.

End SourceSummaryProofs.

(** ** The cascade of wire shapes *)

Module CascadeProofs.

Import PyStr PyDict LLM PyFacts VerifySpec.
Local Open Scope Q_scope.

Lemma post_read (E : env) (self : service) (p : payload)
      (read : json -> result json) :
  bind (post E self p) (fun data => lift (read data))
  = ([EvPost p], tier E self p read).
Proof.
  unfold post, tier, bind, lift.
  destruct (http_post E (endpoint self) p) as [data|e]; reflexivity.
Qed.

Lemma _call_openai_api_tier (E : env) (self : service) (prompt : string)
      (t : Q) (n : Z) (j : bool) :
  _call_openai_api E self prompt t n j
  = ([EvPost (first_payload self prompt t n j)],
     tier E self (first_payload self prompt t n j) (first_reader E self)).
Proof.
  unfold _call_openai_api, _call_ollama_api, first_payload, first_reader.
  destruct (isin "11434" (endpoint self) || isin "/api/generate" (endpoint self));
    apply post_read.
Qed.

(** X11. [generate] is a cascade.  It sends the first request (Ollama
    shape for an Ollama endpoint, OpenAI shape otherwise); if that tier
    answers and its reply can be read, this is the result and no other
    request is made.  Otherwise it sends the completion request to the
    same endpoint, and if that tier fails too it returns the rule-based
    fallback text.  Every request carries the same prompt (with the JSON
    instruction appended in JSON mode), temperature and token limit; a
    token limit of 0 counts as not given. *)
Theorem generate_cascade (E : env) (self : service) (prompt : string)
        (temperature_arg : option Q) (max_tokens_arg : option Z)
        (strict_json_arg : option bool) :
  let temp := get_or temperature_arg (temperature self) in
  let tokens := match max_tokens_arg with
                | Some 0%Z | None => max_tokens self
                | Some n => n
                end in
  let json_mode := get_or strict_json_arg (strict_json self) in
  let sent := if json_mode then _format_json_prompt prompt else prompt in
  let p1 := first_payload self sent temp tokens json_mode in
  let p2 := CompletionPayload sent temp tokens in
  generate E self prompt temperature_arg max_tokens_arg strict_json_arg
  = match tier E self p1 (first_reader E self) with
    | Ok reply => ([EvGenerate sent; EvPost p1], Ok reply)
    | Raise _ =>
        match tier E self p2 (read_completion E) with
        | Ok reply => ([EvGenerate sent; EvPost p1; EvPost p2], Ok reply)
        | Raise _ =>
            ([EvGenerate sent; EvPost p1; EvPost p2],
             Ok (JStr (_rule_based_fallback E sent)))
        end
    end.
Proof.
  cbv zeta. unfold generate. cbv zeta.
  replace (match max_tokens_arg with
           | Some n => if (n =? 0)%Z then max_tokens self else n
           | None => max_tokens self
           end)
    with (match max_tokens_arg with
          | Some 0%Z | None => max_tokens self
          | Some n => n
          end)
    by (destruct max_tokens_arg as [[| |]|]; reflexivity).
  change (match temperature_arg with Some t => t | None => temperature self end)
    with (get_or temperature_arg (temperature self)).
  change (match strict_json_arg with Some b => b | None => strict_json self end)
    with (get_or strict_json_arg (strict_json self)).
  rewrite _call_openai_api_tier. unfold _call_completion_api. rewrite post_read.
  destruct (tier E self _ (first_reader E self)) as [r1|e1]; [reflexivity|].
  destruct (tier E self _ (read_completion E)) as [r2|e2]; reflexivity.
Qed.

(** X12. The reading of an OpenAI-style reply.  The text of the first
    choice is preferred to its message content; an empty list of choices
    makes the tier fail, also when the reply has a content key; without
    choices the content key is read; without either the reply is
    returned as [str(data)]. *)
Theorem read_openai_shapes (E : env) (fields : list (string * json)) :
  (forall first rest t,
      PyVal.lookup "choices" fields = Some (JArr (JObj first :: rest)) ->
      PyVal.lookup "text" first = Some t ->
      read_openai E (JObj fields) = Ok t)
  /\ (forall first rest message c,
         PyVal.lookup "choices" fields = Some (JArr (JObj first :: rest)) ->
         PyVal.lookup "text" first = None ->
         PyVal.lookup "message" first = Some (JObj message) ->
         PyVal.lookup "content" message = Some c ->
         read_openai E (JObj fields) = Ok c)
  /\ (PyVal.lookup "choices" fields = Some (JArr []) ->
      read_openai E (JObj fields) = Raise OtherException)
  /\ (forall c,
         PyVal.lookup "choices" fields = None ->
         PyVal.lookup "content" fields = Some c ->
         read_openai E (JObj fields) = Ok c)
  /\ (PyVal.lookup "choices" fields = None ->
      PyVal.lookup "content" fields = None ->
      read_openai E (JObj fields) = Ok (JStr (py_str E (JObj fields)))).
Proof.
  unfold read_openai. repeat split; intros;
    repeat (cbn [rbind PyVal.contains PyVal.getitem PyVal.getitem0];
            repeat match goal with
                   | H : PyVal.lookup _ _ = _ |- _ => rewrite H
                   end);
    reflexivity.
Qed.

(** X12 on a chat-style reply. *)
Lemma read_openai_shapes_witness :
  read_openai (canned_env "")
    (JObj [("id", JStr "1");
           ("choices",
            JArr [JObj [("message", JObj [("role", JStr "assistant");
                                          ("content", JStr "{}")])]])])
  = Ok (JStr "{}").
Proof.
  apply (proj1 (proj2 (read_openai_shapes (canned_env "") _))
               [("message", JObj [("role", JStr "assistant"); ("content", JStr "{}")])]
               []
               [("role", JStr "assistant"); ("content", JStr "{}")]);
    reflexivity.
Defined.

Lemma find_char_none (c : ascii) (s : string) :
  isin (String c "") s = false -> find_char c s = None.
Proof.
  induction s as [|d s IH]; [reflexivity|].
  rewrite isin_cons. intros H. apply Bool.orb_false_iff in H. destruct H as [Hp Hs].
  simpl. destruct (Ascii.eqb_spec d c) as [->|Hne].
  - exfalso. assert (Ht : prefix (String c "") (String c s) = true)
      by (apply prefix_app; now exists s).
    congruence.
  - now rewrite (IH Hs).
Qed.

Lemma rfind_char_none (c : ascii) (s : string) :
  isin (String c "") s = false -> rfind_char c s = None.
Proof.
  induction s as [|d s IH]; [reflexivity|].
  rewrite isin_cons. intros H. apply Bool.orb_false_iff in H. destruct H as [Hp Hs].
  simpl. rewrite (IH Hs). destruct (Ascii.eqb_spec d c) as [->|Hne]; [|reflexivity].
  exfalso. assert (Ht : prefix (String c "") (String c s) = true)
    by (apply prefix_app; now exists s).
  congruence.
Qed.

Lemma find_char_first (c : ascii) (pre rest : string) :
  isin (String c "") pre = false ->
  find_char c (pre ++ String c rest) = Some (String.length pre).
Proof.
  induction pre as [|d pre IH]; intros H; simpl.
  - now rewrite Ascii.eqb_refl.
  - rewrite isin_cons in H. apply Bool.orb_false_iff in H. destruct H as [Hp Hs].
    destruct (Ascii.eqb_spec d c) as [->|Hne].
    + exfalso. assert (Ht : prefix (String c "") (String c pre) = true)
        by (apply prefix_app; now exists pre).
      congruence.
    + now rewrite (IH Hs).
Qed.

Lemma rfind_char_last (c : ascii) (pre post : string) :
  isin (String c "") post = false ->
  rfind_char c (pre ++ String c post) = Some (String.length pre).
Proof.
  intros H. induction pre as [|d pre IH]; simpl.
  - rewrite (rfind_char_none c post H). now rewrite Ascii.eqb_refl.
  - now rewrite IH.
Qed.

Lemma drop_app (a b : string) : drop (String.length a) (a ++ b) = b.
Proof. induction a as [|c a IH]; simpl; [now destruct b|exact IH]. Qed.

Lemma take_app (a b : string) : take (String.length a) (a ++ b) = a.
Proof.
  induction a as [|c a IH]; simpl; [now destruct b|now rewrite IH].
Qed.

Lemma length_append (a b : string) :
  String.length (a ++ b) = (String.length a + String.length b)%nat.
Proof. induction a as [|c a IH]; simpl; [reflexivity|now rewrite IH]. Qed.

(** X10. [brace_span] keeps what lies between the first opening brace
    and the last closing brace, braces included: prose before and after
    a JSON object is dropped.  A text without an opening or without a
    closing brace is left as it is. *)
Theorem brace_span_wrapped :
  (forall pre mid post : string,
      isin "{" pre = false ->
      isin "}" post = false ->
      brace_span (pre ++ "{" ++ mid ++ "}" ++ post) = ("{" ++ mid ++ "}")%string)
  /\ (forall s : string,
         isin "{" s = false \/ isin "}" s = false -> brace_span s = s).
Proof.
  split.
  - intros pre mid post Hpre Hpost. unfold brace_span.
    set (s := (pre ++ "{" ++ mid ++ "}" ++ post)%string).
    assert (H1 : isin "{" s = true).
    { apply isin_app. exists pre, (mid ++ "}" ++ post)%string. reflexivity. }
    assert (H2 : isin "}" s = true).
    { apply isin_app. exists (pre ++ "{" ++ mid)%string, post. subst s.
      now rewrite !append_assoc. }
    rewrite H1, H2. cbn [andb].
    assert (Hf : find_char "{" s = Some (String.length pre)).
    { apply (find_char_first "{" pre (mid ++ "}" ++ post)). exact Hpre. }
    assert (Hr : rfind_char "}" s = Some (String.length (pre ++ "{" ++ mid))).
    { replace s with ((pre ++ "{" ++ mid) ++ String "}" post)%string
        by (subst s; now rewrite !append_assoc).
      apply rfind_char_last. exact Hpost. }
    rewrite Hf, Hr. unfold slice. subst s. rewrite drop_app.
    rewrite length_append.
    replace (String.length pre + String.length ("{" ++ mid) + 1 - String.length pre)%nat
      with (String.length ("{" ++ mid ++ "}"))%nat.
    + replace ("{" ++ mid ++ "}" ++ post)%string
        with (("{" ++ mid ++ "}") ++ post)%string
        by (simpl; now rewrite append_assoc).
      apply take_app.
    + simpl. rewrite length_append. simpl. lia.
  - intros s [H|H]; unfold brace_span; rewrite H; [reflexivity|].
    now rewrite Bool.andb_false_r.
Qed.

(** X10 on a reply wrapped in prose. *)
Lemma brace_span_wrapped_witness :
  brace_span "Here is my answer: {a: {b: 1}} I hope it helps." = "{a: {b: 1}}".
Proof.
  apply (proj1 brace_span_wrapped "Here is my answer: " "a: {b: 1}"
               " I hope it helps."); reflexivity.
Defined.

Lemma _rule_based_fallback_dict (E : env) (prompt : string) :
  exists verdict confidence explanation,
    _rule_based_fallback E prompt
    = json_dumps E (JObj [("verdict", JStr verdict);
                          ("confidence", JNum confidence);
                          ("explanation", JStr explanation);
                          ("citations", JArr [])])
    /\ In verdict ["true"; "false"; "misleading"; "unverified"]
    /\ PyNum.in_unit confidence.
Proof.
  unfold _rule_based_fallback. cbv zeta.
  repeat match goal with
         | |- context [if ?b then _ else _] => destruct b
         end;
    do 3 eexists; (split; [reflexivity|]); (split; [simpl; tauto|]);
    split; vm_compute; discriminate.
Qed.

(** X4. With an endpoint that refuses every request, [generate],
    whatever its arguments, makes exactly two requests, one per wire
    shape: first the request in the endpoint's own shape (Ollama or
    OpenAI), then the completion request, both with the prompt that was
    sent, the temperature and the token limit of the call.  It then
    returns the text of the rule-based fallback: [json.dumps] of an
    object with the keys verdict (one of the four verdicts), confidence
    (in [[0,1]]), explanation and citations.  With [strict_json=True]
    the prompt sent is the prompt with the JSON instruction appended. *)
Theorem generate_unreachable (E : env) (self : service) (prompt : string)
        (temperature_arg : option Q) (max_tokens_arg : option Z)
        (strict_json_arg : option bool) :
  (forall p, exists e, http_post E (endpoint self) p = Raise e) ->
  let temp := get_or temperature_arg (temperature self) in
  let tokens := match max_tokens_arg with
                | Some 0%Z | None => max_tokens self
                | Some n => n
                end in
  let json_mode := get_or strict_json_arg (strict_json self) in
  let sent := if json_mode then _format_json_prompt prompt else prompt in
  let log := [EvGenerate sent;
              EvPost (first_payload self sent temp tokens json_mode);
              EvPost (CompletionPayload sent temp tokens)] in
  generate E self prompt temperature_arg max_tokens_arg strict_json_arg
  = (log, Ok (JStr (_rule_based_fallback E sent)))
  /\ generate_calls log = 1%nat
  /\ http_posts log = 2%nat
  /\ (strict_json_arg = Some true -> sent = _format_json_prompt prompt)
  /\ exists verdict confidence explanation,
      _rule_based_fallback E sent
      = json_dumps E (JObj [("verdict", JStr verdict);
                            ("confidence", JNum confidence);
                            ("explanation", JStr explanation);
                            ("citations", JArr [])])
      /\ In verdict ["true"; "false"; "misleading"; "unverified"]
      /\ PyNum.in_unit confidence.
Proof.
  intros Hdown. cbv zeta.
  assert (Htier : forall p read, exists e, tier E self p read = Raise e).
  { intros p read. destruct (Hdown p) as [e He]. exists e.
    unfold tier. now rewrite He. }
  split; [|split; [reflexivity|split; [reflexivity|split]]].
  - unfold generate. cbv zeta.
    replace (match max_tokens_arg with
             | Some n => if (n =? 0)%Z then max_tokens self else n
             | None => max_tokens self
             end)
      with (match max_tokens_arg with
            | Some 0%Z | None => max_tokens self
            | Some n => n
            end)
      by (destruct max_tokens_arg as [[| |]|]; reflexivity).
    change (match temperature_arg with Some t => t | None => temperature self end)
      with (get_or temperature_arg (temperature self)).
    change (match strict_json_arg with Some b => b | None => strict_json self end)
      with (get_or strict_json_arg (strict_json self)).
    rewrite _call_openai_api_tier. unfold _call_completion_api. rewrite post_read.
    match goal with
    | |- context [tier E self ?p1 (first_reader E self)] =>
        destruct (Htier p1 (first_reader E self)) as [e1 ->]
    end.
    match goal with
    | |- context [tier E self ?p2 (read_completion E)] =>
        destruct (Htier p2 (read_completion E)) as [e2 ->]
    end.
    reflexivity.
  - intros ->. reflexivity.
  - apply _rule_based_fallback_dict.
Qed.

(** X4 on a backend that is down, called with a temperature, a token
    limit and [strict_json=True]. *)
Lemma generate_unreachable_witness :
  generate (mk_env (fun _ _ => Raise OtherException) (fun _ => Raise JSONDecodeError)
                   (fun _ => "{}") (fun _ => "") (fun _ => None))
           local_service "Is the Earth round?" (Some 0.2) (Some 64%Z) (Some true)
  = ([EvGenerate (_format_json_prompt "Is the Earth round?");
      EvPost (OpenAIPayload "local-model" (_format_json_prompt "Is the Earth round?")
                            0.2 64 true);
      EvPost (CompletionPayload (_format_json_prompt "Is the Earth round?") 0.2 64)],
     Ok (JStr "{}")).
Proof.
  destruct (generate_unreachable
              (mk_env (fun _ _ => Raise OtherException) (fun _ => Raise JSONDecodeError)
                      (fun _ => "{}") (fun _ => "") (fun _ => None))
              local_service "Is the Earth round?" (Some 0.2) (Some 64%Z) (Some true))
    as (Hg & _).
  - intros p. now exists OtherException.
  - rewrite Hg. reflexivity.
Defined.

End CascadeProofs.

(** ** More on the rule-based verifier *)

Module EvidenceProofs.

Import PyStr PyDict LLM PyFacts RuleBasedSpec.
Local Open Scope Q_scope.

Lemma tally_step_adds (cl : string) (t : tally) (ev : evidence) :
  supporting_evidence (tally_step cl t ev) == supporting_evidence t + support_of cl ev
  /\ contradicting_evidence (tally_step cl t ev)
     == contradicting_evidence t + contradiction_of cl ev.
Proof.
  unfold support_of, contradiction_of, tally_step. cbv zeta.
  destruct (existsb _ (claim_keywords cl)); [|simpl; split; ring].
  destruct (existsb _ supporting_words); [simpl; split; ring|].
  destruct (existsb _ contradicting_words); simpl; split; ring.
Qed.

Lemma tally_fold_adds (cl : string) (evs : list evidence) (t : tally) :
  supporting_evidence (fold_left (tally_step cl) evs t)
  == supporting_evidence t + total (map (support_of cl) evs)
  /\ contradicting_evidence (fold_left (tally_step cl) evs t)
     == contradicting_evidence t + total (map (contradiction_of cl) evs).
Proof.
  revert t. induction evs as [|ev evs IH]; intros t; simpl.
  - split; ring.
  - destruct (IH (tally_step cl t ev)) as [Hs Hc].
    destruct (tally_step_adds cl t ev) as [Hs' Hc'].
    rewrite Hs, Hc, Hs', Hc'. split; ring.
Qed.

Lemma total_permutation (f : evidence -> Q) (l l' : list evidence) :
  Permutation l l' -> total (map f l) == total (map f l').
Proof.
  induction 1 as [|x l l' _ IH|x y l|l l' l'' _ IH1 _ IH2]; simpl.
  - reflexivity.
  - now rewrite IH.
  - ring.
  - now rewrite IH1.
Qed.

Lemma Qltb_compat (a a' b b' : Q) : a == a' -> b == b' -> Qltb a b = Qltb a' b'.
Proof. intros Ha Hb. unfold Qltb. now rewrite Ha, Hb. Qed.

Lemma verdict_cascade_permutation (claim : string) (evs evs' : list evidence) :
  Permutation evs evs' ->
  fst (verdict_cascade claim evs) = fst (verdict_cascade claim evs')
  /\ snd (verdict_cascade claim evs) == snd (verdict_cascade claim evs').
Proof.
  intros Hp. unfold verdict_cascade. cbv zeta.
  destruct (tally_fold_adds (lower claim) evs (mk_tally 0 0 [])) as [Hs Hc].
  destruct (tally_fold_adds (lower claim) evs' (mk_tally 0 0 [])) as [Hs' Hc'].
  fold (tally_evidence (lower claim) evs) in Hs, Hc.
  fold (tally_evidence (lower claim) evs') in Hs', Hc'.
  assert (Es : supporting_evidence (tally_evidence (lower claim) evs)
               == supporting_evidence (tally_evidence (lower claim) evs')).
  { rewrite Hs, Hs'. cbn [supporting_evidence].
    now rewrite (total_permutation _ _ _ Hp). }
  assert (Ec : contradicting_evidence (tally_evidence (lower claim) evs)
               == contradicting_evidence (tally_evidence (lower claim) evs')).
  { rewrite Hc, Hc'. cbn [contradicting_evidence].
    now rewrite (total_permutation _ _ _ Hp). }
  rewrite (Permutation_length Hp).
  rewrite (Qltb_compat _ _ _ _ Ec Es), (Qltb_compat 0 0 _ _ (Qeq_refl 0) Es).
  rewrite (Qltb_compat _ _ _ _ Es Ec), (Qltb_compat 0 0 _ _ (Qeq_refl 0) Ec).
  repeat match goal with
         | |- context [if ?b then _ else _] => destruct b
         end; cbn [fst snd]; (split; [reflexivity|]);
    try reflexivity; unfold PyNum.min; apply Q.min_compat; try reflexivity;
    now rewrite ?Es, ?Ec.
Qed.

Lemma rule_based_is_cascade (claim : string) (evs : list evidence) :
  evs <> [] ->
  rr_verdict (_rule_based_verify_claim claim evs) = fst (verdict_cascade claim evs)
  /\ rr_confidence (_rule_based_verify_claim claim evs)
     = snd (verdict_cascade claim evs).
Proof.
  intros Hne. destruct evs as [|ev evs]; [congruence|].
  pose proof (RuleBasedProofs.rule_based_cascade claim ev evs) as H. cbv zeta in H.
  rewrite <- H. split; reflexivity.
Qed.

(** X13. The verdict and the confidence of the rule-based verifier do
    not depend on the order of the evidence: a permutation of the
    evidence list gives the same verdict and an equal confidence. *)
Theorem rule_based_order_independent (claim : string) (evs evs' : list evidence) :
  Permutation evs evs' ->
  rr_verdict (_rule_based_verify_claim claim evs)
  = rr_verdict (_rule_based_verify_claim claim evs')
  /\ rr_confidence (_rule_based_verify_claim claim evs)
     == rr_confidence (_rule_based_verify_claim claim evs').
Proof.
  intros Hp. destruct evs as [|ev evs].
  - apply Permutation_nil in Hp. subst evs'. split; reflexivity.
  - assert (Hne : evs' <> []).
    { intros ->. apply Permutation_sym, Permutation_nil in Hp. discriminate. }
    destruct (rule_based_is_cascade claim (ev :: evs)) as [-> ->]; [discriminate|].
    destruct (rule_based_is_cascade claim evs' Hne) as [-> ->].
    now apply verdict_cascade_permutation.
Qed.

(** X13 on two items exchanged. *)
Lemma rule_based_order_independent_witness :
  let a := mk_evidence (Some "A") (Some "http://a.example")
                       (Some "Experts debunk the claim about vaccines") None None
                       (Some "web") in
  let b := mk_evidence (Some "B") None None (Some "Vaccines are widely used")
                       None (Some "kb") in
  rr_verdict (_rule_based_verify_claim "Vaccines cause harm" [a; b])
  = rr_verdict (_rule_based_verify_claim "Vaccines cause harm" [b; a]).
Proof.
  intros a b.
  exact (proj1 (rule_based_order_independent "Vaccines cause harm" [a; b] [b; a]
                  (perm_swap b a []))).
Defined.

Lemma no_keywords_no_tally (cl : string) (evs : list evidence) (t : tally) :
  claim_keywords cl = [] -> fold_left (tally_step cl) evs t = t.
Proof.
  intros Hk. induction evs as [|ev evs IH]; simpl; [reflexivity|].
  unfold tally_step at 2. cbv zeta. rewrite Hk. simpl. exact IH.
Qed.

Lemma short_words_no_keywords (cl : string) :
  (forall w, In w (split_ws cl) -> (String.length w <= 4)%nat) ->
  claim_keywords cl = [].
Proof.
  intros H. unfold claim_keywords.
  induction (split_ws cl) as [|w ws IH]; simpl; [reflexivity|].
  destruct (Nat.ltb_spec 4 (String.length w)) as [Hlt|_].
  - specialize (H w (or_introl eq_refl)). lia.
  - apply IH. intros w' Hw'. apply H. now right.
Qed.

(** X14. When no word of the claim is longer than four characters, the
    evidence texts are never consulted: the supporting and contradicting
    weights stay 0, and the verdict and the confidence depend on the
    claim and on the number of evidence items only. *)
Theorem rule_based_short_words (claim : string) :
  (forall w, In w (split_ws (lower claim)) -> (String.length w <= 4)%nat) ->
  (forall evs, tally_evidence (lower claim) evs = mk_tally 0 0 [])
  /\ (forall evs evs',
         List.length evs = List.length evs' ->
         rr_verdict (_rule_based_verify_claim claim evs)
         = rr_verdict (_rule_based_verify_claim claim evs')
         /\ rr_confidence (_rule_based_verify_claim claim evs)
            = rr_confidence (_rule_based_verify_claim claim evs')).
Proof.
  intros Hshort.
  assert (Hk := short_words_no_keywords _ Hshort).
  assert (Ht : forall evs, tally_evidence (lower claim) evs = mk_tally 0 0 []).
  { intros evs. unfold tally_evidence. now apply no_keywords_no_tally. }
  split; [exact Ht|].
  intros evs evs' Hlen. destruct evs as [|ev evs], evs' as [|ev' evs'];
    try discriminate; [split; reflexivity|].
  destruct (rule_based_is_cascade claim (ev :: evs)) as [-> ->]; [discriminate|].
  destruct (rule_based_is_cascade claim (ev' :: evs')) as [-> ->]; [discriminate|].
  unfold verdict_cascade. cbv zeta. rewrite !Ht, Hlen. split; reflexivity.
Qed.

(** X14 on a claim of short words. *)
Lemma rule_based_short_words_witness :
  tally_evidence (lower "The sky is blue")
    [mk_evidence (Some "Sky") None (Some "It is true that the sky is blue") None
                 None (Some "web")]
  = mk_tally 0 0 [].
Proof.
  apply (proj1 (rule_based_short_words "The sky is blue"
                  ltac:(intros w Hw; simpl in Hw;
                        repeat (destruct Hw as [<-|Hw]; [simpl; lia|]);
                        contradiction))).
Defined.

(** X15. The verdict of the rule-based verifier is one of the four
    verdicts and its confidence lies between 0.2 and 0.75; with at least
    one evidence item the confidence is at least 0.35. *)
Theorem rule_based_range (claim : string) (evs : list evidence) :
  In (rr_verdict (_rule_based_verify_claim claim evs))
     ["true"; "false"; "misleading"; "unverified"]
  /\ 0.2 <= rr_confidence (_rule_based_verify_claim claim evs) <= 0.75
  /\ (evs <> [] -> 0.35 <= rr_confidence (_rule_based_verify_claim claim evs)).
Proof.
  destruct evs as [|ev evs].
  - destruct (RuleBasedProofs.rule_based_empty claim) as (-> & -> & _).
    split; [simpl; tauto|]. split; [split; vm_compute; discriminate|congruence].
  - destruct (rule_based_is_cascade claim (ev :: evs)) as [-> ->]; [discriminate|].
    destruct (RuleBasedProofs.tally_evidence_nonneg (lower claim) (ev :: evs))
      as [Hs Hc].
    assert (Hn : 1 <= PyNum.of_nat (List.length (ev :: evs))).
    { cbn [List.length]. rewrite RangeProofs.of_nat_succ.
      pose proof (of_nat_nonneg (List.length evs)). lra. }
    unfold verdict_cascade. cbv zeta.
    repeat match goal with
           | |- context [if ?b then _ else _] => destruct b
           end; cbn [fst snd]; (split; [simpl; tauto|]);
      unfold PyNum.min;
      (assert (Hlow : forall cap x, 0.35 <= cap -> 0.35 <= x -> 0.35 <= Qmin cap x)
         by (intros; now apply Q.min_glb));
      (assert (Hup : forall cap x, cap <= 0.75 -> Qmin cap x <= 0.75)
         by (intros cap x Hcap; eapply Qle_trans; [apply Q.le_min_l|exact Hcap]));
      (split; [split; [eapply Qle_trans; [|apply Hlow]|apply Hup]|intros _; apply Hlow]);
      lra.
Qed.

End EvidenceProofs.

(** ** More on claim extraction *)

Module FusionProofs.

Import PyStr PyDict LLM Extractor PyFacts ExtractorSpec VerifySpec.
Local Open Scope Q_scope.

(** *** What each strategy returns *)

Lemma spacy_step_raw (claims : list raw_claim) (sent : sentence) :
  Forall spacy_raw claims -> Forall spacy_raw (spacy_step claims sent).
Proof.
  intros H. unfold spacy_step. cbv zeta.
  repeat match goal with
         | |- context [if ?b then _ else _] => destruct b
         end; auto; apply Forall_app; split; auto;
    constructor; auto; unfold spacy_raw; simpl; auto.
Qed.

Lemma extract_with_spacy_raw (self : extractor) (text : string)
      (claims : list raw_claim) :
  extract_with_spacy self text = Ok claims -> Forall spacy_raw claims.
Proof.
  unfold extract_with_spacy. destruct (nlp self) as [parse|].
  - destruct (parse text) as [sents|e]; simpl; [|discriminate].
    intros H. injection H as <-.
    apply (ExtractorProofs.fold_left_invariant (Forall spacy_raw) (fun _ => True)); auto.
    + intros a b Ha _. now apply spacy_step_raw.
    + apply Forall_forall. auto.
  - intros H. injection H as <-. constructor.
Qed.

Lemma llm_claims_raw (items : list json) (idx : nat) (with_rag : bool)
      (claims : list raw_claim) :
  llm_claims idx items (if with_rag then 0.85 else 0.8)
             (if with_rag then "llm_rag" else "llm") = Ok claims ->
  Forall llm_raw claims.
Proof.
  revert idx claims.
  induction items as [|item items IH]; intros idx claims H; simpl in H.
  - injection H as <-. constructor.
  - destruct (PyVal.dict_get item "claim" (JStr "")) as [value|]; simpl in H;
      [|discriminate].
    destruct (PyVal.str_strip value) as [stripped|]; simpl in H; [|discriminate].
    destruct (llm_claims (S idx) items _ _) as [tail|] eqn:Htail;
      simpl in H; [|discriminate].
    specialize (IH (S idx) tail Htail).
    destruct stripped, value; injection H as <-; auto.
    constructor; auto. unfold llm_raw. simpl. destruct with_rag; auto.
Qed.

Lemma simple_claims_raw (sentences : list string) (idx : nat) :
  Forall simple_raw (simple_claims idx sentences).
Proof.
  revert idx. induction sentences as [|s rest IH]; intros idx; simpl.
  - constructor.
  - destruct (_ && _); [constructor|]; auto. reflexivity.
Qed.

Lemma extract_with_llm_raw (E : env) (self : extractor) (text : string)
      (rag : option (string -> nat -> result (list rag_hit))) :
  exists log claims,
    extract_with_llm E self text rag = (log, Ok claims) /\ Forall llm_raw claims.
Proof.
  unfold extract_with_llm. destruct (llm_service self) as [llm|].
  2:{ exists [], []. split; [reflexivity|constructor]. }
  cbv zeta.
  match goal with
  | |- context [generate E llm ?p ?a ?b ?c] =>
      destruct (VerifyProofs.generate_total E llm p a b c)
        as (log & response & Hg & _ & _); rewrite Hg
  end.
  unfold bind at 1.
  rewrite VerifyProofs.bind_lift.
  destruct (PyVal.str_strip response) as [rc|e].
  2:{ eexists; eexists. split; [reflexivity|constructor]. }
  rewrite VerifyProofs.bind_lift.
  destruct (json_loads E (bracket_span rc)) as [data|].
  2:{ eexists; eexists. split; [reflexivity|constructor]. }
  match goal with
  | |- context [lift (llm_claims ?i ?items (if ?w then _ else _) _)] =>
      destruct (llm_claims i items (if w then 0.85 else 0.8)
                           (if w then "llm_rag" else "llm")) as [claims|e] eqn:Hclaims;
      [ pose proof (llm_claims_raw items i w claims Hclaims) as Hraw | ]
  end.
  - eexists; eexists. split; [reflexivity|exact Hraw].
  - eexists; eexists. split; [reflexivity|constructor].
Qed.

(** *** The fusion loops *)

Lemma seen_In (x : string) (texts : list string) :
  seen x texts = true <-> In x texts.
Proof.
  unfold seen. rewrite existsb_exists. split.
  - intros (y & Hy & Heq). apply String.eqb_eq in Heq. now subst.
  - intros H. exists x. split; [exact H|apply String.eqb_refl].
Qed.

Lemma fuse_spacy_only (st : fusion) (c : raw_claim) :
  spacy_only st -> spacy_raw c -> spacy_only (fuse_spacy st c).
Proof.
  intros [Hkeys Hall] Hc. unfold fuse_spacy. cbv zeta.
  destruct (seen _ _); [now split|].
  unfold spacy_only, add_claim. cbn [all_claims claim_texts]. split.
  - intros c' Hin. apply in_app_or in Hin. destruct Hin as [Hin|[<-|[]]].
    + right. now apply Hkeys.
    + now left.
  - apply Forall_app. split; [exact Hall|]. constructor; [|constructor].
    cbn [method confidence]. split; [reflexivity|].
    destruct Hc as [-> | ->]; simpl; auto.
Qed.

Lemma spacy_only_separated (st : fusion) : spacy_only st -> separated st.
Proof.
  intros [Hkeys Hall]. rewrite Forall_forall in Hall. split; [exact Hkeys|]. split.
  - intros a b Ha Hb _ _. split; [apply (Hall a Ha)|apply (Hall b Hb)].
  - apply Forall_forall. intros c Hc. left. now apply Hall.
Qed.

Lemma not_duplicate_not_near (key : string) (texts : list string) (k : string) :
  is_duplicate key texts = false -> In k texts ->
  near_duplicate k key = false /\ near_duplicate key k = false.
Proof.
  intros Hd Hk. unfold is_duplicate in Hd.
  assert (H : (isin key k || isin k key)
              && ((20 <? String.length key)%nat && (20 <? String.length k)%nat) = false).
  { destruct ((isin key k || isin k key)
              && ((20 <? String.length key)%nat && (20 <? String.length k)%nat)) eqn:E;
      [|reflexivity].
    assert (Ht : existsb (fun existing_text =>
                            (isin key existing_text || isin existing_text key)
                            && ((20 <? String.length key)%nat
                                && (20 <? String.length existing_text)%nat)) texts
                 = true) by (apply existsb_exists; now exists k).
    congruence. }
  unfold near_duplicate. split; [|exact H].
  rewrite (Bool.orb_comm (isin k key)), (Bool.andb_comm (20 <? String.length k)%nat).
  exact H.
Qed.

(** A claim that passed the similarity scan joins the others. *)
Lemma add_claim_separated (st : fusion) (c : raw_claim) (dflt : Q) (tag : string) :
  separated st ->
  is_duplicate (dedup_key (rc_claim c)) (claim_texts st) = false ->
  labelled (mk_claim (List.length (all_claims st) + 1) (rc_claim c)
                     (get_or (rc_confidence c) dflt) tag) ->
  separated (add_claim st (dedup_key (rc_claim c)) c dflt tag).
Proof.
  intros (Hkeys & Hpairs & Hall) Hdup Hlab. unfold separated, add_claim.
  cbn [all_claims claim_texts]. split; [|split].
  - intros c' Hin. apply in_app_or in Hin. destruct Hin as [Hin|[<-|[]]].
    + right. now apply Hkeys.
    + now left.
  - intros a b Ha Hb Hne Hnear.
    apply in_app_or in Ha. apply in_app_or in Hb.
    destruct Ha as [Ha|[<-|[]]], Hb as [Hb|[<-|[]]].
    + now apply Hpairs.
    + cbn [claim_text] in Hnear.
      destruct (not_duplicate_not_near _ _ _ Hdup (Hkeys a Ha)) as [H _]. congruence.
    + cbn [claim_text] in Hnear.
      destruct (not_duplicate_not_near _ _ _ Hdup (Hkeys b Hb)) as [_ H]. congruence.
    + congruence.
  - apply Forall_app. split; [exact Hall|]. constructor; [exact Hlab|constructor].
Qed.

Lemma fuse_llm_separated (st : fusion) (c : raw_claim) :
  separated st -> llm_raw c -> separated (fuse_llm st c).
Proof.
  intros Hst Hc. unfold fuse_llm. cbv zeta.
  destruct (is_duplicate _ _) eqn:Hdup; [exact Hst|].
  destruct (seen _ _); [exact Hst|]. cbn [negb andb].
  apply add_claim_separated; [exact Hst|exact Hdup|].
  unfold labelled. cbn [method confidence].
  destruct Hc as [[-> ->]|[-> ->]]; simpl; auto.
Qed.

Lemma fuse_simple_separated (st : fusion) (c : raw_claim) :
  separated st -> simple_raw c -> separated (fuse_simple st c).
Proof.
  intros Hst Hc. unfold fuse_simple. cbv zeta.
  destruct (is_duplicate _ _) eqn:Hdup; [exact Hst|].
  destruct (seen _ _); [exact Hst|]. cbn [negb andb].
  apply add_claim_separated; [exact Hst|exact Hdup|].
  unfold labelled. cbn [method confidence]. rewrite Hc. simpl. auto.
Qed.

(** [extract] returns the fused claims, ranked and renumbered. *)
Lemma extract_separated (E : env) (self : extractor) (text : string) :
  exists log st,
    extract E self text = (log, Ok (renumber 1 (sort_desc (all_claims st))))
    /\ separated st.
Proof.
  set (st0 := mk_fusion [] []).
  assert (S0 : spacy_only st0) by (split; [intros c []|constructor]).
  unfold extract.
  destruct (_ || _).
  { exists [], st0. split; [reflexivity|now apply spacy_only_separated]. }
  cbv zeta. fold st0.
  set (st1 := match extract_with_spacy self text with
              | Ok spacy_claims => fold_left fuse_spacy spacy_claims st0
              | Raise _ => st0
              end).
  assert (H1 : separated st1).
  { apply spacy_only_separated. subst st1.
    destruct (extract_with_spacy self text) as [cs|e] eqn:Hsp; [|exact S0].
    apply (ExtractorProofs.fold_left_invariant spacy_only spacy_raw);
      auto using fuse_spacy_only.
    now apply (extract_with_spacy_raw self text). }
  assert (Hllm : exists log st2,
             (if use_llm self
                 && match llm_service self with Some _ => true | None => false end
              then bind (extract_with_llm E self text (rag_retriever self))
                        (fun llm_found => ret (fold_left fuse_llm llm_found st1))
              else ret st1) = (log, Ok st2) /\ separated st2).
  { destruct (use_llm self && _).
    - destruct (extract_with_llm_raw E self text (rag_retriever self))
        as (log & cs & Hx & Hcs).
      rewrite Hx. exists (log ++ []), (fold_left fuse_llm cs st1).
      split; [reflexivity|].
      apply (ExtractorProofs.fold_left_invariant separated llm_raw);
        auto using fuse_llm_separated.
    - exists [], st1. split; [reflexivity|exact H1]. }
  destruct Hllm as (log & st2 & -> & H2).
  exists (log ++ []), (fold_left fuse_simple (_extract_simple text) st2).
  split; [reflexivity|].
  apply (ExtractorProofs.fold_left_invariant separated simple_raw);
    auto using fuse_simple_separated.
  apply simple_claims_raw.
Qed.

Lemma renumber_In (l : list claim) (idx : nat) (c : claim) :
  In c (renumber idx l) ->
  exists c0, In c0 l /\ claim_text c = claim_text c0
             /\ confidence c = confidence c0 /\ method c = method c0.
Proof.
  revert idx. induction l as [|d l IH]; intros idx H; simpl in H; [contradiction|].
  destruct H as [<-|H].
  - exists d. simpl. auto.
  - destruct (IH _ H) as (c0 & Hin & Heq). exists c0. split; [now right|exact Heq].
Qed.

Lemma ranked_In (l : list claim) (c : claim) :
  In c (renumber 1 (sort_desc l)) ->
  exists c0, In c0 l /\ claim_text c = claim_text c0
             /\ confidence c = confidence c0 /\ method c = method c0.
Proof.
  intros H. destruct (renumber_In _ _ _ H) as (c0 & Hin & Heq).
  exists c0. split; [|exact Heq].
  now apply (Permutation_in _ (ExtractorProofs.sort_desc_perm l)).
Qed.

(** X16. In the list [extract] returns, two claims whose texts (trimmed
    and lower-cased) differ but contain one another, both being longer
    than twenty characters, are both spaCy claims: a claim of the LLM or
    of the fallback strategy is never kept beside a similar one. *)
Theorem extract_near_duplicates (E : env) (self : extractor) (text : string) :
  exists log claims,
    extract E self text = (log, Ok claims)
    /\ forall a b,
        In a claims -> In b claims ->
        dedup_key (claim_text a) <> dedup_key (claim_text b) ->
        near_duplicate (dedup_key (claim_text a)) (dedup_key (claim_text b)) = true ->
        method a = "spacy" /\ method b = "spacy".
Proof.
  destruct (extract_separated E self text) as (log & st & Hx & _ & Hpairs & _).
  exists log, (renumber 1 (sort_desc (all_claims st))). split; [exact Hx|].
  intros a b Ha Hb Hne Hnear.
  destruct (ranked_In _ _ Ha) as (a0 & Ha0 & Hta & _ & Hma).
  destruct (ranked_In _ _ Hb) as (b0 & Hb0 & Htb & _ & Hmb).
  rewrite Hta, Htb in Hne, Hnear. rewrite Hma, Hmb. now apply Hpairs.
Qed.

(** X17. Every claim [extract] returns carries one of the method tags
    with its confidence: ["spacy"] with 0.7 or 0.8, ["llm"] with 0.8,
    ["llm_rag"] with 0.85, ["fallback"] with 0.6. *)
Theorem extract_labels (E : env) (self : extractor) (text : string) :
  exists log claims,
    extract E self text = (log, Ok claims) /\ Forall labelled claims.
Proof.
  destruct (extract_separated E self text) as (log & st & Hx & _ & _ & Hall).
  exists log, (renumber 1 (sort_desc (all_claims st))). split; [exact Hx|].
  apply Forall_forall. intros c Hc.
  destruct (ranked_In _ _ Hc) as (c0 & Hc0 & _ & Hconf & Hm).
  rewrite Forall_forall in Hall. specialize (Hall c0 Hc0).
  unfold labelled in *. now rewrite Hconf, Hm.
Qed.

End FusionProofs.

(** ** The strategies one by one *)

Module StrategyProofs.

Import PyStr PyDict LLM Extractor PyFacts ExtractorSpec VerifySpec.
Local Open Scope Q_scope.

Lemma chars_of_list (l : list ascii) : chars (string_of_list_ascii l) = l.
Proof. apply list_ascii_of_string_of_list_ascii. Qed.

Lemma lstrip_chars (s : string) (ch : ascii) :
  In ch (chars (lstrip s)) -> In ch (chars s).
Proof.
  induction s as [|c s IH]; simpl; [auto|].
  destruct (isspace c); simpl; auto.
Qed.

Lemma rstrip_chars (s : string) (ch : ascii) :
  In ch (chars (rstrip s)) -> In ch (chars s).
Proof.
  induction s as [|c s IH]; simpl; [auto|].
  destruct (rstrip s) as [|d r] eqn:Hr.
  - destruct (isspace c); simpl; [contradiction|]. intros [H|[]]. now left.
  - simpl. intros [H|H]; [now left|right]. apply IH. exact H.
Qed.

Lemma strip_chars (s : string) (ch : ascii) :
  In ch (chars (strip s)) -> In ch (chars s).
Proof. intros H. now apply lstrip_chars, rstrip_chars. Qed.

(** No piece of [re.split(r'[.!?]+', text)] holds a terminator. *)
Lemma split_sentences_aux_clean (s : string) (in_run : bool) (cur : list ascii) :
  (forall ch, In ch cur -> terminator ch = false) ->
  forall piece, In piece (split_sentences_aux in_run cur s) ->
                forall ch, In ch (chars piece) -> terminator ch = false.
Proof.
  revert in_run cur. induction s as [|c s IH]; intros in_run cur Hcur piece Hin ch Hch.
  - simpl in Hin. destruct Hin as [<-|[]]. rewrite chars_of_list in Hch.
    apply Hcur. now apply in_rev.
  - cbn [split_sentences_aux] in Hin.
    change (existsb (Ascii.eqb c) ["."; "!"; "?"]%char) with (terminator c) in Hin.
    destruct (terminator c) eqn:Hc.
    + destruct in_run.
      * apply (IH true [] ltac:(intros ? []) piece Hin ch Hch).
      * destruct Hin as [<-|Hin].
        -- rewrite chars_of_list in Hch. apply Hcur. now apply in_rev.
        -- apply (IH true [] ltac:(intros ? []) piece Hin ch Hch).
    + refine (IH false (c :: cur) _ piece Hin ch Hch).
      intros x [<-|Hx]; auto.
Qed.

Lemma simple_claims_each (sentences : list string) (idx : nat) :
  Forall (fun c =>
            rc_confidence c = Some 0.6
            /\ (20 < String.length (rc_claim c))%nat
            /\ (exists k, In k simple_keywords /\ isin k (lower (rc_claim c)) = true)
            /\ (exists sentence, In sentence sentences /\ rc_claim c = strip sentence)
            /\ (idx < rc_id c <= idx + List.length sentences)%nat)
         (simple_claims idx sentences)
  /\ StronglySorted lt (map rc_id (simple_claims idx sentences)).
Proof.
  revert idx. induction sentences as [|s rest IH]; intros idx;
    cbn [simple_claims List.length].
  - split; constructor.
  - destruct (IH (S idx)) as [Hall Hsorted].
    assert (Hall' : Forall (fun c =>
              rc_confidence c = Some 0.6
              /\ (20 < String.length (rc_claim c))%nat
              /\ (exists k, In k simple_keywords /\ isin k (lower (rc_claim c)) = true)
              /\ (exists sentence, In sentence (s :: rest)
                                   /\ rc_claim c = strip sentence)
              /\ (idx < rc_id c <= idx + S (List.length rest))%nat)
            (simple_claims (S idx) rest)).
    { eapply Forall_impl; [|exact Hall]. intros c (H1 & H2 & H3 & (x & Hx & Hx') & H5).
      repeat split; auto; try lia. exists x. split; [now right|exact Hx']. }
    destruct ((20 <? String.length (strip s))%nat) eqn:Hlen; cbn [andb]; [|now split].
    destruct (existsb _ simple_keywords) eqn:Hkw; [|now split].
    split.
    + constructor; [|exact Hall']. cbn [rc_confidence rc_claim rc_id].
      repeat split; try lia.
      * now apply Nat.ltb_lt.
      * apply existsb_exists in Hkw. destruct Hkw as (k & Hk & Hk'). now exists k.
      * exists s. split; [now left|reflexivity].
    + cbn [map rc_id]. constructor; [exact Hsorted|].
      apply Forall_forall. intros i Hi. apply in_map_iff in Hi.
      destruct Hi as (c & <- & Hc). rewrite Forall_forall in Hall.
      destruct (Hall c Hc) as (_ & _ & _ & _ & Hid). lia.
Qed.

Lemma simple_claims_position (sentences : list string) :
  forall idx c,
    In c (simple_claims idx sentences)
    <-> exists i piece,
        nth_error sentences i = Some piece
        /\ c = mk_raw_claim (idx + i + 1) (strip piece) (Some 0.6) None
        /\ (20 <? String.length (strip piece))%nat
           && existsb (fun keyword => isin keyword (lower (strip piece)))
                      simple_keywords = true.
Proof.
  induction sentences as [|s rest IH]; intros idx c; cbn [simple_claims].
  - split; [intros []|]. intros (i & piece & Hnth & _). now destruct i.
  - split.
    + intros Hin.
      destruct ((20 <? String.length (strip s))%nat
                && existsb (fun keyword => isin keyword (lower (strip s)))
                           simple_keywords) eqn:Hb.
      * destruct Hin as [<-|Hin].
        { exists 0%nat, s. split; [reflexivity|]. split; [|exact Hb].
          now rewrite Nat.add_0_r. }
        apply IH in Hin. destruct Hin as (i & piece & Hnth & -> & Hc).
        exists (S i), piece. split; [exact Hnth|]. split; [|exact Hc].
        f_equal. lia.
      * apply IH in Hin. destruct Hin as (i & piece & Hnth & -> & Hc).
        exists (S i), piece. split; [exact Hnth|]. split; [|exact Hc].
        f_equal. lia.
    + intros (i & piece & Hnth & -> & Hc). destruct i as [|i].
      * cbn [nth_error] in Hnth. injection Hnth as ->. rewrite Hc.
        left. now rewrite Nat.add_0_r.
      * cbn [nth_error] in Hnth.
        assert (Hin : In (mk_raw_claim (idx + S i + 1) (strip piece) (Some 0.6) None)
                         (simple_claims (S idx) rest)).
        { apply IH. exists i, piece. split; [exact Hnth|]. split; [|exact Hc].
          f_equal. lia. }
        match goal with
        | |- In _ (if ?b then _ else _) => destruct b; [now right|exact Hin]
        end.
Qed.

(** X18. The claims of [_extract_simple] are exactly the pieces of the
    split that, once trimmed, have more than twenty characters and,
    lower-cased, hold one of the eight verb tokens: each such piece
    gives one claim, whose text is the trimmed piece, whose confidence
    is 0.6 and whose id is the 1-based position of the piece among all
    the pieces of the split.  So the text of a claim holds none of
    [. ! ?], and the ids increase along the list and may skip values. *)
Theorem _extract_simple_claims (text : string) :
  Forall (fun c =>
            rc_confidence c = Some 0.6
            /\ (20 < String.length (rc_claim c))%nat
            /\ (forall ch, In ch (chars (rc_claim c)) -> terminator ch = false)
            /\ (exists k, In k simple_keywords /\ isin k (lower (rc_claim c)) = true)
            /\ (1 <= rc_id c <= List.length (split_sentences text))%nat)
         (_extract_simple text)
  /\ StronglySorted lt (map rc_id (_extract_simple text))
  /\ (forall c,
         In c (_extract_simple text)
         <-> exists i piece,
             nth_error (split_sentences text) i = Some piece
             /\ rc_id c = (i + 1)%nat
             /\ rc_claim c = strip piece
             /\ rc_confidence c = Some 0.6
             /\ rc_method c = None
             /\ (20 < String.length (strip piece))%nat
             /\ exists k, In k simple_keywords
                          /\ isin k (lower (strip piece)) = true).
Proof.
  unfold _extract_simple.
  destruct (simple_claims_each (split_sentences text) 0) as [Hall Hsorted].
  split; [|split; [exact Hsorted|]].
  - eapply Forall_impl; [|exact Hall].
    intros c (H1 & H2 & H3 & (sentence & Hs & Hc) & H5).
    repeat split; auto; try lia.
    intros ch Hch. rewrite Hc in Hch. apply strip_chars in Hch.
    apply (split_sentences_aux_clean text false [] ltac:(intros ? []) sentence Hs ch Hch).
  - intros c. rewrite simple_claims_position. split.
    + intros (i & piece & Hnth & -> & Hc). exists i, piece.
      apply Bool.andb_true_iff in Hc. destruct Hc as [Hlen Hkw].
      apply Nat.ltb_lt in Hlen. apply existsb_exists in Hkw.
      destruct Hkw as (k & Hk & Hk').
      cbn [rc_id rc_claim rc_confidence rc_method Nat.add].
      repeat split; try assumption. now exists k.
    + intros (i & piece & Hnth & Hid & Hcl & Hconf & Hm & Hlen & k & Hk & Hk').
      exists i, piece. split; [exact Hnth|]. split.
      * destruct c as [cid ctext cconf cm]. cbn [rc_id rc_claim rc_confidence rc_method] in *.
        subst. reflexivity.
      * apply Bool.andb_true_iff. split; [now apply Nat.ltb_lt|].
        apply existsb_exists. now exists k.
Qed.

Lemma seq_snoc (start len : nat) : seq start (S len) = seq start len ++ [start + len]%nat.
Proof.
  revert start. induction len as [|len IH]; intros start.
  - simpl. now rewrite Nat.add_0_r.
  - change (seq start (S (S len))) with (start :: seq (S start) (S len)).
    rewrite IH. simpl. now rewrite Nat.add_succ_r.
Qed.

Lemma existsb_false {A : Type} (f : A -> bool) (l : list A) :
  existsb f l = false -> forall x, In x l -> f x = false.
Proof.
  intros H x Hx. destruct (f x) eqn:E; [|reflexivity].
  assert (existsb f l = true) by (apply existsb_exists; now exists x). congruence.
Qed.

Lemma spacy_step_ok (claims : list raw_claim) (sent : sentence) :
  Forall spacy_claim_ok claims /\ map rc_id claims = seq 1 (List.length claims) ->
  Forall spacy_claim_ok (spacy_step claims sent)
  /\ map rc_id (spacy_step claims sent) = seq 1 (List.length (spacy_step claims sent)).
Proof.
  intros [Hall Hids]. unfold spacy_step. cbv zeta.
  destruct (Nat.ltb_spec (String.length (strip (sent_text sent))) 15); [now split|].
  destruct (endswith _ "?") eqn:Hq; [now split|].
  destruct (has_root_verb sent); cbn [negb]; [|now split].
  destruct (existsb _ skip_patterns) eqn:Hskip; [now split|].
  destruct (has_subject sent); [|now split].
  split.
  - apply Forall_app. split; [exact Hall|]. constructor; [|constructor].
    unfold spacy_claim_ok. cbn [rc_claim rc_confidence].
    split; [exact H|]. split; [exact Hq|]. split.
    + intros pattern Hp. exact (existsb_false _ _ Hskip pattern Hp).
    + destruct (existsb _ claim_indicators) eqn:Hind.
      * left. split; [reflexivity|]. apply existsb_exists in Hind.
        destruct Hind as (i & Hi & Hi'). now exists i.
      * right. split; [reflexivity|]. intros i Hi. exact (existsb_false _ _ Hind i Hi).
  - rewrite map_app, length_app, Hids. simpl.
    rewrite Nat.add_1_r, seq_snoc. reflexivity.
Qed.

(** X19. [extract_with_spacy] returns no claim without a loaded
    pipeline and raises when the pipeline does.  Otherwise its claims
    are numbered 1, 2, ..., and each text has at least fifteen
    characters, does not end with a question mark and holds no hedging
    pattern; the confidence is 0.8 when the lower-cased text holds a
    claim indicator and 0.7 when it holds none. *)
Theorem extract_with_spacy_claims (self : extractor) (text : string) :
  (nlp self = None -> extract_with_spacy self text = Ok [])
  /\ (forall parse e,
         nlp self = Some parse -> parse text = Raise e ->
         extract_with_spacy self text = Raise e)
  /\ (forall claims,
         extract_with_spacy self text = Ok claims ->
         map rc_id claims = seq 1 (List.length claims)
         /\ Forall spacy_claim_ok claims).
Proof.
  unfold extract_with_spacy. split; [|split].
  - intros ->. reflexivity.
  - intros parse e -> ->. reflexivity.
  - intros claims H. destruct (nlp self) as [parse|].
    + destruct (parse text) as [sents|e]; simpl in H; [|discriminate].
      injection H as <-.
      assert (Hinv : Forall spacy_claim_ok (fold_left spacy_step sents [])
                     /\ map rc_id (fold_left spacy_step sents [])
                        = seq 1 (List.length (fold_left spacy_step sents []))).
      { apply (ExtractorProofs.fold_left_invariant
                 (fun cs => Forall spacy_claim_ok cs
                            /\ map rc_id cs = seq 1 (List.length cs))
                 (fun _ => True)).
        - intros a b Ha _. now apply spacy_step_ok.
        - split; [constructor|reflexivity].
        - apply Forall_forall. auto. }
      destruct Hinv. now split.
    + injection H as <-. split; [reflexivity|constructor].
Qed.

(** X19 on a parse of two sentences, one of them a question. *)
Lemma extract_with_spacy_claims_witness :
  exists claims,
    extract_with_spacy
      (mk_extractor false None None
         (Some (fun _ => Ok [mk_sentence "Is the Earth really round?"
                               [mk_token "ROOT" "AUX"; mk_token "nsubj" "NOUN"];
                             mk_sentence "Water boils at 100 degrees."
                               [mk_token "ROOT" "VERB"; mk_token "nsubj" "NOUN"]])))
      "Is the Earth really round? Water boils at 100 degrees."
    = Ok claims
    /\ map rc_id claims = seq 1 (List.length claims).
Proof.
  eexists. split; [reflexivity|].
  apply (proj2 (proj2 (extract_with_spacy_claims
                         (mk_extractor false None None
                            (Some (fun _ => Ok [mk_sentence "Is the Earth really round?"
                                                  [mk_token "ROOT" "AUX";
                                                   mk_token "nsubj" "NOUN"];
                                                mk_sentence "Water boils at 100 degrees."
                                                  [mk_token "ROOT" "VERB";
                                                   mk_token "nsubj" "NOUN"]])))
                         "Is the Earth really round? Water boils at 100 degrees."))).
  reflexivity.
Defined.

Lemma sort_desc_constant (q : Q) (l : list claim) :
  Forall (fun c => confidence c = q) l -> sort_desc l = l.
Proof.
  induction l as [|c l IH]; intros H; [reflexivity|].
  inversion H as [|x xs Hc Hl]; subst.
  unfold sort_desc in *. simpl. rewrite (IH Hl).
  destruct l as [|d l]; [reflexivity|]. simpl.
  inversion Hl as [|y ys Hd _]; subst. rewrite Hd.
  assert (Hle : Qle_bool (confidence c) (confidence c) = true)
    by (apply Qle_bool_iff, Qle_refl).
  now rewrite Hle.
Qed.

Lemma fuse_simple_order (l : list raw_claim) (st : fusion) :
  Forall simple_raw l ->
  Forall (fun c => method c = "fallback" /\ confidence c = 0.6) (all_claims st) ->
  exists added,
    map claim_text (all_claims (fold_left fuse_simple l st))
    = map claim_text (all_claims st) ++ added
    /\ subseq added (map rc_claim l)
    /\ Forall (fun c => method c = "fallback" /\ confidence c = 0.6)
              (all_claims (fold_left fuse_simple l st)).
Proof.
  revert st. induction l as [|c l IH]; intros st Hraw Hst.
  - exists []. simpl. rewrite app_nil_r. repeat split; [constructor|exact Hst].
  - inversion Hraw as [|x xs Hc Hl]; subst. cbn [fold_left].
    unfold fuse_simple at 2 4. cbv zeta.
    destruct (negb _ && negb _).
    + destruct (IH (add_claim st (dedup_key (rc_claim c)) c 0.6 "fallback") Hl)
        as (added & Htexts & Hsub & Hall).
      { unfold add_claim. cbn [all_claims]. apply Forall_app. split; [exact Hst|].
        constructor; [|constructor]. cbn [method confidence].
        unfold simple_raw in Hc. now rewrite Hc. }
      exists (rc_claim c :: added). split; [|split; [|exact Hall]].
      * rewrite Htexts. unfold add_claim. cbn [all_claims].
        rewrite map_app, <- app_assoc. reflexivity.
      * cbn [map]. now constructor.
    + destruct (IH st Hl Hst) as (added & Htexts & Hsub & Hall).
      exists added. split; [exact Htexts|]. split; [|exact Hall].
      cbn [map]. now constructor.
Qed.

Lemma repeats_keys (kept : list string) (t : string) :
  repeats kept t
  = is_duplicate (dedup_key t) (rev (map dedup_key kept))
    || seen (dedup_key t) (rev (map dedup_key kept)).
Proof.
  apply Bool.eq_true_iff_eq. unfold repeats, is_duplicate, seen.
  rewrite Bool.orb_true_iff, !existsb_exists. split.
  - intros (e & He & H). apply Bool.orb_true_iff in H. destruct H as [H|H].
    + right. exists (dedup_key e). split; [|exact H].
      apply -> in_rev. now apply in_map.
    + left. exists (dedup_key e). split; [|exact H].
      apply -> in_rev. now apply in_map.
  - intros [(k & Hk & H)|(k & Hk & H)];
      apply in_rev in Hk; apply in_map_iff in Hk; destruct Hk as (e & <- & He);
      exists e; (split; [exact He|]); apply Bool.orb_true_iff;
      [right|left]; exact H.
Qed.

Lemma fuse_simple_fresh (l : list raw_claim) :
  forall st,
    claim_texts st = rev (map dedup_key (map claim_text (all_claims st))) ->
    map claim_text (all_claims (fold_left fuse_simple l st))
    = (map claim_text (all_claims st)
       ++ fresh (map claim_text (all_claims st)) (map rc_claim l))%list.
Proof.
  induction l as [|c l IH]; intros st Hkeys.
  - cbn [fold_left map fresh]. now rewrite app_nil_r.
  - cbn [fold_left map fresh]. rewrite repeats_keys, <- Hkeys.
    unfold fuse_simple at 2. cbv zeta.
    destruct (is_duplicate (dedup_key (rc_claim c)) (claim_texts st));
      [cbn [negb andb orb]; now apply IH|].
    destruct (seen (dedup_key (rc_claim c)) (claim_texts st));
      [cbn [negb andb orb]; now apply IH|].
    cbn [negb andb orb]. rewrite IH.
    + unfold add_claim. cbn [all_claims]. rewrite map_app. cbn [map claim_text].
      now rewrite <- app_assoc.
    + unfold add_claim. cbn [all_claims claim_texts].
      rewrite !map_app, rev_app_distr. cbn [map claim_text rev app].
      now rewrite Hkeys.
Qed.

Lemma repeats_more (kept more : list string) (t : string) :
  repeats kept t = true -> repeats (kept ++ more) t = true.
Proof.
  unfold repeats. rewrite existsb_app. intros ->. reflexivity.
Qed.

(** No text that is kept repeats one kept before it. *)
Lemma fresh_distinct (texts : list string) :
  forall kept a t b,
    fresh kept texts = (a ++ t :: b)%list -> repeats (kept ++ a) t = false.
Proof.
  induction texts as [|x rest IH]; intros kept a t b; cbn [fresh].
  - now destruct a.
  - destruct (repeats kept x) eqn:Hx; [apply IH|].
    destruct a as [|y a]; cbn [app]; intros [= <- H].
    + now rewrite app_nil_r.
    + apply IH in H. now rewrite <- app_assoc in H.
Qed.

(** A text that is left out repeats one that is kept. *)
Lemma fresh_complete (texts : list string) :
  forall kept t,
    In t texts ->
    In t (fresh kept texts) \/ repeats (kept ++ fresh kept texts) t = true.
Proof.
  induction texts as [|x rest IH]; intros kept t; cbn [fresh]; [intros []|].
  intros [->|Hin].
  - destruct (repeats kept t) eqn:Ht; [right; now apply repeats_more|left; now left].
  - destruct (repeats kept x) eqn:Hx; [now apply IH|].
    destruct (IH (kept ++ [x])%list t Hin) as [H|H]; [left; now right|right].
    now rewrite <- app_assoc in H.
Qed.

(** X20. Without a spaCy pipeline and without the LLM strategy,
    [extract] makes no outbound call and returns fallback claims only,
    all of confidence 0.6, numbered 1, 2, ..., in the order of their
    sentences in the text.  For a text of at least ten characters once
    trimmed, the texts returned are exactly those of [_extract_simple]
    that repeat no text kept before them: a text is left out if and
    only if, trimmed and lower-cased, it is equal or similar to a text
    already kept.  So no text returned repeats an earlier one, and every
    text of [_extract_simple] that is not returned repeats a returned
    one.  A shorter text gives no claim. *)
Theorem extract_fallback_only (E : env) (self : extractor) (text : string) :
  nlp self = None ->
  use_llm self = false \/ llm_service self = None ->
  exists claims,
    extract E self text = ([], Ok claims)
    /\ Forall (fun c => method c = "fallback" /\ confidence c = 0.6) claims
    /\ subseq (map claim_text claims) (map rc_claim (_extract_simple text))
    /\ map id claims = seq 1 (List.length claims)
    /\ ((String.length (strip text) < 10)%nat -> claims = [])
    /\ ((10 <= String.length (strip text))%nat ->
        map claim_text claims = fresh [] (map rc_claim (_extract_simple text))
        /\ (forall a t b,
               map claim_text claims = (a ++ t :: b)%list -> repeats a t = false)
        /\ (forall t,
               In t (map rc_claim (_extract_simple text)) ->
               In t (map claim_text claims)
               \/ repeats (map claim_text claims) t = true)).
Proof.
  intros Hnlp Hllm. unfold extract.
  destruct (String.length (strip text) <? 10)%nat eqn:Hshort.
  { rewrite Bool.orb_true_r. exists []. apply Nat.ltb_lt in Hshort.
    repeat split; try constructor; try lia.
    induction (_extract_simple text); simpl; now constructor. }
  assert (Hne : match text with EmptyString => true | _ => false end = false).
  { destruct text; [discriminate|reflexivity]. }
  rewrite Hne. cbn [orb]. apply Nat.ltb_ge in Hshort.
  cbv zeta. unfold extract_with_spacy. rewrite Hnlp. cbn [fold_left].
  assert (Hno : use_llm self
                && match llm_service self with Some _ => true | None => false end
                = false).
  { destruct Hllm as [-> | ->]; [reflexivity|apply Bool.andb_false_r]. }
  rewrite Hno.
  destruct (fuse_simple_order (_extract_simple text) (mk_fusion [] []))
    as (added & Htexts & Hsub & Hall).
  { apply FusionProofs.simple_claims_raw. }
  { constructor. }
  pose proof (fuse_simple_fresh (_extract_simple text) (mk_fusion [] []) eq_refl)
    as Hfresh.
  cbn [all_claims map app] in Hfresh.
  set (st := fold_left fuse_simple (_extract_simple text) (mk_fusion [] [])) in *.
  exists (renumber 1 (sort_desc (all_claims st))).
  split; [reflexivity|].
  assert (Hsort : sort_desc (all_claims st) = all_claims st).
  { apply (sort_desc_constant 0.6). eapply Forall_impl; [|exact Hall].
    now intros c [_ Hc]. }
  rewrite Hsort.
  destruct (ExtractorProofs.renumber_fields (all_claims st) 1) as (Ht & Hc & Hid).
  split; [|split; [|split; [|split]]].
  - apply Forall_forall. intros c Hin.
    destruct (FusionProofs.renumber_In _ _ _ Hin) as (c0 & Hc0 & _ & Hconf & Hm).
    rewrite Forall_forall in Hall. rewrite Hconf, Hm. now apply Hall.
  - rewrite Ht, Htexts. exact Hsub.
  - rewrite Hid. f_equal.
    rewrite <- (length_map claim_text (renumber _ _)), Ht. now rewrite length_map.
  - lia.
  - intros _. rewrite Ht, Hfresh. split; [reflexivity|]. split.
    + intros a t b Heq. now apply (fresh_distinct _ [] a t b Heq).
    + intros t Hin. now apply (fresh_complete _ [] t Hin).
Qed.

(** X20 on a text whose second sentence repeats the first in another
    letter case. *)
Lemma extract_fallback_only_witness :
  exists claims,
    extract (canned_env "") (mk_extractor false None None None)
            "The Moon is a natural satellite. THE MOON IS A NATURAL SATELLITE! It was formed long ago indeed."
    = ([], Ok claims)
    /\ map claim_text claims
       = ["The Moon is a natural satellite"; "It was formed long ago indeed"].
Proof.
  destruct (extract_fallback_only (canned_env "") (mk_extractor false None None None)
              "The Moon is a natural satellite. THE MOON IS A NATURAL SATELLITE! It was formed long ago indeed."
              eq_refl (or_introl eq_refl))
    as (claims & Hx & _ & _ & _ & _ & Hlong).
  exists claims. split; [exact Hx|].
  destruct Hlong as (Heq & _); [apply Nat.leb_le; reflexivity|].
  rewrite Heq. vm_compute. reflexivity.
Defined.

End StrategyProofs.

(** ** [SearchEngine.search] *)

Module SearchProofs.

Import PyStr PyDict Credibility Search SearchSpec.

(** X21. [search] never raises and sends at most one query.  A query of
    fewer than three characters after trimming is not sent and gives no
    result; a failing search gives no result.  Otherwise there is one
    result per hit, in the order of the hits, and the source of each is
    the domain of its URL, which lower-cased is the domain that
    [analyze_source] rates for that URL. *)
Theorem search_results
        (urlparse_netloc : string -> result string)
        (ddgs_text : ddg_query -> result (list ddg_hit))
        (self : engine) (query : string) (max_results : option Z) :
  let q := mk_ddg_query query (effective_max self max_results) (region self) in
  let found := search urlparse_netloc ddgs_text self query max_results in
  ((String.length (strip query) < 3)%nat -> found = ([], []))
  /\ ((3 <= String.length (strip query))%nat ->
      fst found = [q]
      /\ (forall e, ddgs_text q = Raise e -> snd found = [])
      /\ (forall hits,
             ddgs_text q = Ok hits ->
             map sr_url (snd found) = map (fun h => get_or (dh_href h) "") hits
             /\ map sr_title (snd found) = map (fun h => get_or (dh_title h) "") hits
             /\ map sr_snippet (snd found) = map (fun h => get_or (dh_body h) "") hits))
  /\ (forall r, In r (snd found) ->
                sr_source r = _extract_domain urlparse_netloc (sr_url r)
                /\ forall m, analyze_source urlparse_netloc (sr_url r) = Analysed m ->
                             domain m = lower (sr_source r)).
Proof.
  cbv zeta. unfold search.
  assert (Hmax : match max_results with
                 | Some 0%Z | None => top_k self
                 | Some n => n
                 end = effective_max self max_results).
  { unfold effective_max. destruct max_results as [[|p|p]|]; reflexivity. }
  rewrite Hmax. clear Hmax.
  set (q := mk_ddg_query query (effective_max self max_results) (region self)).
  split; [|split].
  - intros Hshort. apply Nat.ltb_lt in Hshort. rewrite Hshort.
    now rewrite Bool.orb_true_r.
  - intros Hlong.
    assert (Hq : match query with EmptyString => true | _ => false end = false).
    { destruct query; [simpl in Hlong; lia|reflexivity]. }
    apply Nat.ltb_ge in Hlong. rewrite Hq, Hlong. cbn [orb].
    destruct (ddgs_text q) as [hits|e]; cbn [fst snd]; split; try reflexivity; split.
    + discriminate.
    + intros hits' [= <-]. rewrite !map_map. repeat split.
    + reflexivity.
    + discriminate.
  - intros r Hin.
    assert (Hsrc : sr_source r = _extract_domain urlparse_netloc (sr_url r)).
    { destruct (_ || _); [destruct Hin|].
      destruct (ddgs_text q) as [hits|e]; [|destruct Hin].
      cbn [snd] in Hin. apply in_map_iff in Hin. destruct Hin as (h & <- & _).
      reflexivity. }
    split; [exact Hsrc|]. intros m Hm. rewrite Hsrc.
    unfold analyze_source, _extract_domain in *.
    destruct (urlparse_netloc (sr_url r)) as [netloc|e]; [|discriminate].
    injection Hm as <-. reflexivity.
Qed.

End SearchProofs.

(** ** [AutoGenService] *)

Module AutoGenProofs.

Import PyStr PyDict Scoring ScoringSpec LLM AutoGen AutoGenSpec.
Local Open Scope Q_scope.

Lemma debate_fold (responses : list agent_response) (c : list (string * nat)) (t : Q) :
  fold_left debate_step responses (mk_debate_tally c t)
  = mk_debate_tally (fold_left count_incr (raw_verdicts responses) c)
                    (fold_left Qplus (confidences responses) t).
Proof.
  revert c t. induction responses as [|r rs IH]; intros c t; [reflexivity|].
  cbn [fold_left raw_verdicts confidences map]. unfold debate_step at 2.
  cbn [verdict_counts total_confidence]. apply IH.
Qed.

Lemma max_scan_greatest (best : string * nat) (rest : list (string * nat)) :
  In (max_scan best rest) (best :: rest)
  /\ forall x, In x (best :: rest) -> (snd x <= snd (max_scan best rest))%nat.
Proof.
  destruct (ScoringProofs.max_scan_first_max rest [] [] best)
    as (A' & B' & Heq & HA & HB); try (intros x []).
  cbn [app] in Heq. split.
  - rewrite Heq. apply in_or_app. right. now left.
  - intros x Hx. rewrite Heq in Hx. apply in_app_or in Hx.
    destruct Hx as [Hx|[<-|Hx]]; [apply HA in Hx; lia|lia|now apply HB].
Qed.

(** The winner of the vote over a non-empty list. *)
Lemma max_by_count_winner (l : list string) :
  l <> [] ->
  exists best,
    max_by_count (count_verdicts l) = Some best
    /\ In (fst best) l
    /\ forall v, (votes l v <= votes l (fst best))%nat.
Proof.
  intros Hne. destruct (ScoringProofs.count_verdicts_table l) as [Hkeys Hcount].
  destruct (count_verdicts l) as [|best0 rest] eqn:Hc.
  { destruct l; [congruence|discriminate]. }
  cbn [max_by_count]. destruct (max_scan_greatest best0 rest) as [Hin Hmax].
  set (best := max_scan best0 rest) in *. exists best.
  split; [reflexivity|]. split.
  - rewrite <- ScoringProofs.firsts_In, <- Hkeys. now apply in_map.
  - intros v. destruct best as [w m]. cbn [fst snd] in *.
    rewrite <- (Hcount w m Hin).
    destruct (in_dec string_dec v l) as [Hv|Hv].
    + rewrite <- ScoringProofs.firsts_In, <- Hkeys in Hv.
      apply in_map_iff in Hv. destruct Hv as ([v' nv] & Hv' & Hv). simpl in Hv'. subst v'.
      rewrite <- (Hcount v nv Hv). apply (Hmax (v, nv) Hv).
    + unfold votes. rewrite (proj1 (count_occ_not_In string_dec l v) Hv). lia.
Qed.

(** X22. [AutoGenService.aggregate_verdicts] on a non-empty list does
    not raise.  Its verdict is a verdict of an agent, as the agent wrote
    it, with the most votes; its confidence is the mean confidence of
    all the agents, in [[0,1]] when theirs are.  When every agent gives
    a verdict that [normalize_verdict] leaves as it is, the verdict and
    the distribution are those of [scoring.aggregate_verdicts]. *)
Theorem debate_aggregate_majority (responses : list agent_response) :
  responses <> [] ->
  exists r,
    AutoGen.aggregate_verdicts responses = Some r
    /\ In (da_verdict r) (raw_verdicts responses)
    /\ (forall v, (votes (raw_verdicts responses) v
                   <= votes (raw_verdicts responses) (da_verdict r))%nat)
    /\ da_confidence r
       == PyNum.sum (confidences responses)
          / PyNum.of_nat (List.length responses)
    /\ (Forall PyNum.in_unit (confidences responses) ->
        PyNum.in_unit (da_confidence r))
    /\ ((forall x, In x responses ->
                   exists v, ar_verdict x = Some v /\ normalize_verdict v = v) ->
        exists a,
          Scoring.aggregate_verdicts (map as_verdict_dict responses) = Some a
          /\ agg_verdict a = da_verdict r
          /\ agg_distribution a = da_verdict_distribution r).
Proof.
  intros Hne.
  assert (Hraw : raw_verdicts responses <> []).
  { destruct responses; [congruence|discriminate]. }
  destruct (max_by_count_winner (raw_verdicts responses) Hraw)
    as (best & Hbest & Hin & Hmax).
  unfold AutoGen.aggregate_verdicts.
  destruct responses as [|r0 rs]; [congruence|].
  rewrite debate_fold. cbn [verdict_counts total_confidence].
  fold (count_verdicts (raw_verdicts (r0 :: rs))). rewrite Hbest.
  eexists. split; [reflexivity|]. cbn [da_verdict da_confidence da_verdict_distribution].
  split; [exact Hin|]. split; [exact Hmax|].
  assert (Hmean : fold_left Qplus (confidences (r0 :: rs)) 0.0
                  / PyNum.of_nat (List.length (r0 :: rs))
                  == PyNum.sum (confidences (r0 :: rs))
                     / PyNum.of_nat (List.length (r0 :: rs))).
  { unfold PyNum.sum. cbn [confidences map fold_left].
    assert (H0 : 0.0 + get_or (ar_confidence r0) 0.0
                 == 0 + get_or (ar_confidence r0) 0.0) by (now rewrite (Qplus_comm 0.0), (Qplus_comm 0); apply Qplus_comp; [reflexivity|vm_compute]).
    generalize dependent (0.0 + get_or (ar_confidence r0) 0.0).
    generalize (0 + get_or (ar_confidence r0) 0.0).
    intros a b Hab. apply Qdiv_comp; [|reflexivity].
    revert a b Hab. induction (map (fun r => get_or (ar_confidence r) 0.0) rs) as [|x xs IH];
      intros a b Hab; simpl; [exact Hab|].
    apply IH. now rewrite Hab. }
  split; [exact Hmean|]. split.
  - intros Hall. unfold PyNum.in_unit. rewrite Hmean.
    assert (Hlen : List.length (r0 :: rs) = List.length (confidences (r0 :: rs)))
      by (unfold confidences; now rewrite length_map).
    rewrite Hlen. apply RangeProofs.mean_in_unit; [discriminate|exact Hall].
  - intros Hfix.
    assert (Hnorm : map (fun v => normalize_verdict (get_or (vd_verdict v) "unverified"))
                        (map as_verdict_dict (r0 :: rs))
                    = raw_verdicts (r0 :: rs)).
    { unfold raw_verdicts. rewrite map_map. apply map_ext_in. intros x Hx.
      destruct (Hfix x Hx) as (v & Hv & Hn). cbn [as_verdict_dict vd_verdict].
      rewrite Hv. exact Hn. }
    unfold Scoring.aggregate_verdicts.
    change (map as_verdict_dict (r0 :: rs))
      with (as_verdict_dict r0 :: map as_verdict_dict rs) at 1.
    cbv zeta.
    change (as_verdict_dict r0 :: map as_verdict_dict rs)
      with (map as_verdict_dict (r0 :: rs)).
    rewrite Hnorm, Hbest. eexists. split; [reflexivity|]. split; reflexivity.
Qed.

(** X22 on three agents, two of which say "false". *)
Lemma debate_aggregate_majority_witness :
  exists r,
    AutoGen.aggregate_verdicts
      [mk_agent_response (Some "true") (Some 0.9) None;
       mk_agent_response (Some "false") (Some 0.6) None;
       mk_agent_response (Some "false") None (Some "no source")] = Some r
    /\ da_verdict r = "false"
    /\ da_confidence r == 0.5.
Proof.
  destruct (debate_aggregate_majority
              [mk_agent_response (Some "true") (Some 0.9) None;
               mk_agent_response (Some "false") (Some 0.6) None;
               mk_agent_response (Some "false") None (Some "no source")])
    as (r & Hr & _ & _ & Hmean & _); [discriminate|].
  exists r. split; [exact Hr|].
  vm_compute in Hr. injection Hr as <-. split; [reflexivity|].
  vm_compute. reflexivity.
Defined.

End AutoGenProofs.

(** ** The verification route *)

Module PipelineProofs.

Import PyStr PyDict LLM Extractor Credibility Search AutoGen Pipeline.
Import VerifySpec PipelineSpec.
Local Open Scope Q_scope.

Lemma bind_inv {A B : Type} (m : M A) (f : A -> M B) (log : list event) (b : B) :
  bind m f = (log, Ok b) ->
  exists l1 a l2, m = (l1, Ok a) /\ f a = (l2, Ok b) /\ log = (l1 ++ l2)%list.
Proof.
  destruct m as [l1 [a|e]]; simpl; [|discriminate].
  destruct (f a) as [l2 r] eqn:Hf. intros [= <- ->].
  now exists l1, a, l2.
Qed.


Lemma bind_raise {A B : Type} (l : list event) (e : exn) (m : M A) (f : A -> M B) :
  m = (l, Raise e) -> bind m f = (l, Raise e).
Proof. now intros ->. Qed.

Lemma kb_evidences_inv (hits : list kb_result) (part : list evidence) :
  kb_evidences hits = Ok part ->
  List.length part = List.length hits
  /\ Forall (fun e => ev_url e = None) part.
Proof.
  revert part. induction hits as [|hit rest IH]; intros part; cbn [kb_evidences].
  - intros [= <-]. split; [reflexivity|constructor].
  - unfold kb_evidence. destruct (kr_metadata hit) as [md|]; [|discriminate].
    cbn [rbind]. destruct (kb_evidences rest) as [tail|e]; [|discriminate].
    cbn [rbind]. intros [= <-]. destruct (IH tail eq_refl) as [Hlen Hall].
    split; [cbn [List.length]; now rewrite Hlen|].
    constructor; [reflexivity|exact Hall].
Qed.

Lemma kb_evidences_ok (hits : list kb_result) :
  Forall (fun hit => kr_metadata hit <> None) hits ->
  exists part, kb_evidences hits = Ok part.
Proof.
  induction 1 as [|hit rest Hmd _ IH]; [now exists []|].
  destruct IH as (tail & Htail). cbn [kb_evidences]. unfold kb_evidence.
  destruct (kr_metadata hit) as [md|]; [|congruence].
  cbn [rbind]. rewrite Htail. cbn [rbind]. now eexists.
Qed.

Lemma evidence_urls_app (a b : list evidence) :
  evidence_urls (a ++ b) = (evidence_urls a ++ evidence_urls b)%list.
Proof. unfold evidence_urls. apply flat_map_app. Qed.

Lemma evidence_urls_none (part : list evidence) :
  Forall (fun e => ev_url e = None) part -> evidence_urls part = [].
Proof.
  induction 1 as [|e rest He _ IH]; [reflexivity|].
  unfold evidence_urls in *. cbn [flat_map]. rewrite He, IH. reflexivity.
Qed.

Lemma source_credibility_web
      (urlparse_netloc : string -> result string) (web part : list evidence) :
  Forall (fun e => ev_url e = None) part ->
  source_credibility urlparse_netloc (web ++ part)
  = source_credibility urlparse_netloc web.
Proof.
  intros Hpart. unfold source_credibility.
  now rewrite evidence_urls_app, (evidence_urls_none part Hpart), app_nil_r.
Qed.

Lemma average_trust_in_unit
      (urlparse_netloc : string -> result string) (urls : list string) :
  PyNum.in_unit (average_trust_score (analyze_multiple_sources urlparse_netloc urls)).
Proof.
  unfold analyze_multiple_sources. cbv zeta.
  destruct (map (analyze_source urlparse_netloc) urls) as [|a0 rest] eqn:Hmap.
  { cbn [average_trust_score]. split; vm_compute; discriminate. }
  rewrite <- Hmap. cbn [average_trust_score].
  rewrite <- (length_map analysis_trust_score).
  apply RangeProofs.mean_in_unit.
  - rewrite Hmap. discriminate.
  - apply Forall_forall. intros q Hq. apply in_map_iff in Hq.
    destruct Hq as (a & <- & Ha). apply in_map_iff in Ha.
    destruct Ha as (u & <- & _). apply CredibilityProofs.analyze_source_in_unit.
Qed.

Lemma source_credibility_in_unit
      (urlparse_netloc : string -> result string) (evs : list evidence) :
  PyNum.in_unit (source_credibility urlparse_netloc evs).
Proof.
  unfold source_credibility. destruct (evidence_urls evs) as [|u us].
  - split; vm_compute; discriminate.
  - apply average_trust_in_unit.
Qed.

(** What a completed iteration has appended. *)
Lemma verify_one_inv (W : world) (req : request) (c : claim)
      (log : list event) (e : entry) :
  verify_one W req c = (log, Ok e) ->
  exists hits part rd,
    w_rag_search W (claim_text c) = Ok hits
    /\ kb_evidences hits = Ok part
    /\ e_ddg e = ddg_result_of c (map web_evidence (web_of W req c))
    /\ e_llm e = mk_llm_result (e_verified e) "llm_verification"
    /\ e_verified e
       = mk_verified_claim
           (id c) (claim_text c) (rd_verdict rd) (rd_confidence rd)
           (rd_explanation rd) (rd_citations rd)
           (List.length (map web_evidence (web_of W req c) ++ part))
           (source_credibility (w_urlparse_netloc W)
                               (map web_evidence (web_of W req c) ++ part))
           (firstn 3 (map web_evidence (web_of W req c) ++ part)).
Proof.
  unfold verify_one. cbv zeta. fold (web_of W req c).
  rewrite VerifyProofs.bind_lift.
  destruct (w_rag_search W (claim_text c)) as [hits|e0] eqn:Hhits; [|discriminate].
  rewrite VerifyProofs.bind_lift.
  destruct (kb_evidences hits) as [part|e1] eqn:Hpart; [|discriminate].
  intros H. apply bind_inv in H. destruct H as (l1 & rd & l2 & _ & Hret & _).
  injection Hret as _ <-. exists hits, part, rd. repeat split. exact Hpart.
Qed.

(** An iteration completes when the knowledge base answers and the LLM
    service does the verification. *)
Lemma verify_one_total (W : world) (req : request) (c : claim) :
  kb_available W -> single_mode W req ->
  exists log e, verify_one W req c = (log, Ok e).
Proof.
  intros Hkb Hmode. destruct (Hkb (claim_text c)) as (hits & Hhits & Hmd).
  destruct (kb_evidences_ok hits Hmd) as (part & Hpart).
  unfold verify_one. cbv zeta. fold (web_of W req c).
  rewrite VerifyProofs.bind_lift, Hhits, VerifyProofs.bind_lift, Hpart.
  assert (Hsel : (if String.eqb (req_mode req) "debate"
                  then w_autogen_service W else None) = None).
  { destruct Hmode as [Hm|Hm].
    - apply String.eqb_neq in Hm. now rewrite Hm.
    - rewrite Hm. now destruct (String.eqb _ _). }
  rewrite Hsel.
  destruct (VerifyProofs.verify_claim_shape (w_env W) (w_llm_service W) (claim_text c)
              (map web_evidence (web_of W req c) ++ part))
    as (log & response & _ & _ & _ & Hv).
  rewrite Hv. simpl. eexists. eexists. reflexivity.
Qed.




Lemma Forall2_map_eq {A B C : Type} (f : A -> C) (g : B -> C)
      (R : A -> B -> Prop) (l : list A) (l' : list B) :
  (forall a b, R a b -> f a = g b) -> Forall2 R l l' -> map f l = map g l'.
Proof.
  intros Hfg. induction 1 as [|a b l l' Hab _ IH]; [reflexivity|].
  cbn [map]. now rewrite (Hfg a b Hab), IH.
Qed.

(** X24. What a completed iteration of the verification loop records
    for a claim.  The evidence count is the number of web results plus
    the number of knowledge-base results, and the evidence shown is the
    first three items, web results first.  The source credibility is in
    [[0,1]] and is that of the web results alone: knowledge-base
    passages have no URL, and without a URL it is 0.5.  The search-only
    entry is always "unverified" with confidence 0.5, and cites the
    non-empty URLs of the web results. *)
Theorem verify_one_evidence (W : world) (req : request) (c : claim)
        (log : list event) (e : entry) :
  verify_one W req c = (log, Ok e) ->
  let web := map web_evidence (web_of W req c) in
  exists hits part,
    w_rag_search W (claim_text c) = Ok hits
    /\ kb_evidences hits = Ok part
    /\ vc_id (e_verified e) = id c
    /\ vc_text (e_verified e) = claim_text c
    /\ vc_evidence_count (e_verified e)
       = (List.length (web_of W req c) + List.length hits)%nat
    /\ vc_evidence (e_verified e) = firstn 3 (web ++ part)
    /\ vc_source_credibility (e_verified e)
       = source_credibility (w_urlparse_netloc W) web
    /\ PyNum.in_unit (vc_source_credibility (e_verified e))
    /\ (Forall (fun r => sr_url r = "") (web_of W req c) ->
        vc_source_credibility (e_verified e) = 0.5)
    /\ lr_claim (e_llm e) = e_verified e
    /\ ddg_id (e_ddg e) = id c
    /\ ddg_verdict (e_ddg e) = "unverified"
    /\ ddg_confidence (e_ddg e) = 0.5
    /\ ddg_evidence_count (e_ddg e) = List.length (web_of W req c)
    /\ ddg_citations (e_ddg e)
       = filter (fun u => negb (String.eqb u "")) (map sr_url (web_of W req c)).
Proof.
  intros H. cbv zeta.
  destruct (verify_one_inv W req c log e H)
    as (hits & part & rd & Hhits & Hpart & Hddg & Hllm & Hv).
  destruct (kb_evidences_inv hits part Hpart) as [Hlen Hnone].
  assert (Hcred : source_credibility (w_urlparse_netloc W)
                    (map web_evidence (web_of W req c) ++ part)
                  = source_credibility (w_urlparse_netloc W)
                      (map web_evidence (web_of W req c)))
    by now apply source_credibility_web.
  assert (Hurls : forall l, evidence_urls (map web_evidence l)
                            = filter (fun u => negb (String.eqb u "")) (map sr_url l)).
  { induction l as [|r l IH]; [reflexivity|].
    unfold evidence_urls in *. cbn [map flat_map filter].
    rewrite IH. cbn [web_evidence ev_url truthy get_or].
    destruct (sr_url r); reflexivity. }
  exists hits, part. rewrite Hv, Hllm, Hddg, Hv.
  cbn [vc_id vc_text vc_evidence_count vc_evidence vc_source_credibility lr_claim
       ddg_result_of ddg_id ddg_verdict ddg_confidence ddg_evidence_count
       ddg_citations].
  rewrite Hcred.
  repeat split; try assumption; try reflexivity.
  - now rewrite length_app, length_map, Hlen.
  - apply source_credibility_in_unit.
  - apply source_credibility_in_unit.
  - intros Hempty. unfold source_credibility. rewrite Hurls.
    assert (Hnil : forall l, Forall (fun r => sr_url r = "") l ->
                             filter (fun u => negb (String.eqb u ""))
                                    (map sr_url l) = []).
    { induction 1 as [|r l Hr _ IH]; [reflexivity|].
      cbn [map filter]. rewrite Hr. exact IH. }
    now rewrite (Hnil _ Hempty).
  - now rewrite length_map.
  - apply Hurls.
Qed.

(** X24 on a claim with no web result and one knowledge-base chunk. *)
Lemma verify_one_evidence_witness :
  exists log e,
    verify_one (offline_world one_chunk None)
               (mk_request moon_text "single" 5 false)
               (mk_claim 1 "The Moon is a natural satellite" 0.6 "fallback")
    = (log, Ok e)
    /\ vc_evidence_count (e_verified e) = 1%nat
    /\ vc_source_credibility (e_verified e) = 0.5.
Proof.
  destruct (verify_one_total (offline_world one_chunk None)
              (mk_request moon_text "single" 5 false)
              (mk_claim 1 "The Moon is a natural satellite" 0.6 "fallback"))
    as (log & e & H).
  { intros query. eexists. split; [reflexivity|].
    constructor; [discriminate|constructor]. }
  { now right. }
  exists log, e. split; [exact H|].
  destruct (verify_one_evidence _ _ _ log e H)
    as (hits & part & Hhits & _ & _ & _ & Hcount & _ & _ & _ & Hhalf & _).
  split.
  - rewrite Hcount. injection Hhits as <-. reflexivity.
  - apply Hhalf. constructor.
Defined.












(** X23. A debate service that gives no answer.  [debate_claim] never
    raises: a service that is not enabled sends no request, and a
    request that fails is answered in the same way, with the verdict
    "unverified", the confidence 0.0 and no agent response.  In debate
    mode every claim then comes back "unverified" with confidence 0.0
    and no citation, and the LLM service is not asked to verify it. *)
Theorem debate_without_answer (W : world) (req : request) (a : autogen) :
  req_mode req = "debate" ->
  w_autogen_service W = Some a ->
  ag_enabled a = false \/ (forall p, exists e, w_debate_post W p = Raise e) ->
  (forall claim evs,
      exists sent why,
        debate_claim (w_debate_post W) (w_str_exn W) a claim evs
        = (sent, no_debate why)
        /\ (ag_enabled a = false -> sent = [])
        /\ (List.length sent <= 1)%nat)
  /\ (forall c hits part,
         w_rag_search W (claim_text c) = Ok hits ->
         kb_evidences hits = Ok part ->
         exists e,
           verify_one W req c = ([], Ok e)
           /\ vc_verdict (e_verified e) = JStr "unverified"
           /\ vc_confidence (e_verified e) = JNum 0.0
           /\ vc_citations (e_verified e) = JArr []).
Proof.
  intros Hmode Hsvc Hdown.
  assert (Hdeb : forall claim evs,
             exists sent why,
               debate_claim (w_debate_post W) (w_str_exn W) a claim evs
               = (sent, no_debate why)
               /\ (ag_enabled a = false -> sent = [])
               /\ (List.length sent <= 1)%nat).
  { intros claim evs. unfold debate_claim.
    destruct (ag_enabled a) eqn:Hen; cbn [negb].
    - destruct Hdown as [Hd|Hd]; [discriminate|]. cbv zeta.
      match goal with |- context [w_debate_post W ?p] => destruct (Hd p) as (e & ->) end.
      eexists. eexists. split; [reflexivity|]. split; [discriminate|]. simpl. lia.
    - eexists. eexists. split; [reflexivity|]. split; [reflexivity|]. simpl. lia. }
  split; [exact Hdeb|].
  intros c hits part Hhits Hpart.
  unfold verify_one. cbv zeta.
  rewrite VerifyProofs.bind_lift, Hhits, VerifyProofs.bind_lift, Hpart, Hmode, Hsvc.
  cbn [String.eqb Ascii.eqb Bool.eqb].
  match goal with
  | |- context [debate_claim ?p ?s a ?cl ?ev] =>
      destruct (Hdeb cl ev) as (sent & why & -> & _)
  end.
  cbn [snd]. eexists. split; [reflexivity|]. repeat split.
Qed.

(** X23 on a service without an endpoint. *)
Lemma debate_without_answer_witness :
  exists e,
    verify_one (offline_world one_chunk (Some (new None 3 None true)))
               (mk_request moon_text "debate" 5 false)
               (mk_claim 1 "The Moon is a natural satellite" 0.6 "fallback")
    = ([], Ok e)
    /\ vc_verdict (e_verified e) = JStr "unverified".
Proof.
  destruct (debate_without_answer
              (offline_world one_chunk (Some (new None 3 None true)))
              (mk_request moon_text "debate" 5 false) (new None 3 None true)
              eq_refl eq_refl (or_introl eq_refl))
    as (_ & Hone).
  destruct (Hone (mk_claim 1 "The Moon is a natural satellite" 0.6 "fallback")
                 _ _ eq_refl eq_refl) as (e & He & Hv & _).
  now exists e.
Defined.

End PipelineProofs.

(** ** The statistics of a document analysis *)

Module KbProofs.

Import PyStr PyDict LLM Credibility Search Pipeline KbAnalysis KbSpec.
Local Open Scope Q_scope.

Lemma source_scores_urls (urlparse_netloc : string -> result string)
      (evs : list evidence) :
  source_scores urlparse_netloc evs
  = map (fun u => analysis_trust_score (analyze_source urlparse_netloc u))
        (evidence_urls evs).
Proof.
  unfold source_scores, evidence_urls.
  induction evs as [|e evs IH]; [reflexivity|].
  cbn [flat_map]. rewrite IH, map_app. now destruct (truthy (ev_url e)).
Qed.

Lemma avg_is_source_credibility (urlparse_netloc : string -> result string)
      (evs : list evidence) :
  avg_credibility urlparse_netloc evs = source_credibility urlparse_netloc evs.
Proof.
  unfold avg_credibility, source_credibility.
  rewrite source_scores_urls.
  destruct (evidence_urls evs) as [|u us]; [reflexivity|].
  unfold analyze_multiple_sources. cbv zeta.
  cbn [map average_trust_score List.length].
  now rewrite !length_map, map_map.
Qed.

Lemma kb_part_inv (hits : list kb_result) (part : list evidence) :
  kb_part hits = Ok part ->
  List.length part = List.length hits
  /\ Forall (fun e => ev_url e = None) part.
Proof.
  revert part. induction hits as [|hit rest IH]; intros part; cbn [kb_part].
  - intros [= <-]. split; [reflexivity|constructor].
  - unfold kb_evidence. destruct (kr_metadata hit) as [md|]; [|discriminate].
    cbn [rbind]. destruct (kb_part rest) as [tail|e]; [|discriminate].
    cbn [rbind]. intros [= <-]. destruct (IH tail eq_refl) as [Hlen Hall].
    split; [cbn [List.length]; now rewrite Hlen|].
    constructor; [reflexivity|exact Hall].
Qed.

(** X27. The two routes rate the sources of a claim alike.  The
    average that [analyze_document] computes by hand is the source
    credibility that [verify_claims] gets from
    [analyze_multiple_sources], on any evidence list; for the same web
    results and knowledge-base results both are the credibility of the
    web results, a value of [[0,1]]. *)
Theorem avg_credibility_routes (urlparse_netloc : string -> result string) :
  (forall evs,
      avg_credibility urlparse_netloc evs = source_credibility urlparse_netloc evs
      /\ PyNum.in_unit (avg_credibility urlparse_netloc evs))
  /\ (forall web hits evs part,
         all_evidence web hits = Ok evs ->
         Pipeline.kb_evidences hits = Ok part ->
         List.length evs = (List.length web + List.length hits)%nat
         /\ avg_credibility urlparse_netloc evs
            = source_credibility urlparse_netloc
                (map Pipeline.web_evidence web ++ part)
         /\ avg_credibility urlparse_netloc evs
            = source_credibility urlparse_netloc (map Pipeline.web_evidence web)).
Proof.
  split.
  - intros evs. split; [apply avg_is_source_credibility|].
    rewrite avg_is_source_credibility.
    apply PipelineProofs.source_credibility_in_unit.
  - intros web hits evs part Hall Hpart. unfold all_evidence in Hall.
    destruct (kb_part hits) as [part'|e] eqn:Hkb; [|discriminate].
    cbn [rbind] in Hall. injection Hall as <-.
    destruct (kb_part_inv hits part' Hkb) as [Hlen' Hnone'].
    destruct (PipelineProofs.kb_evidences_inv hits part Hpart) as [Hlen Hnone].
    rewrite avg_is_source_credibility.
    change (map web_evidence web) with (map Pipeline.web_evidence web).
    rewrite !PipelineProofs.source_credibility_web by assumption.
    repeat split. now rewrite length_app, length_map, Hlen'.
Qed.

(** X27 on one web result and one knowledge-base chunk. *)
Lemma avg_credibility_routes_witness :
  exists evs,
    all_evidence [mk_search_result "Fact check" "https://www.snopes.com/moon"
                                   "The Moon is not made of cheese." "snopes.com"]
                 [mk_kb_result "The Moon orbits the Earth."
                               (Some (mk_kb_metadata None None))]
    = Ok evs
    /\ avg_credibility (fun _ => Ok "www.snopes.com") evs == 0.8.
Proof.
  eexists. split; [reflexivity|].
  destruct (avg_credibility_routes (fun _ => Ok "www.snopes.com")) as [_ H].
  destruct (H [mk_search_result "Fact check" "https://www.snopes.com/moon"
                                "The Moon is not made of cheese." "snopes.com"]
              [mk_kb_result "The Moon orbits the Earth."
                            (Some (mk_kb_metadata None None))]
              _ _ eq_refl eq_refl) as (_ & _ & ->).
  vm_compute. reflexivity.
Defined.

Lemma count_verdict_adds (counts counts' : statistics) (v : json) :
  count_verdict counts v = Ok counts' ->
  hashable v = true
  /\ st_true counts' = (st_true counts + if is_label "true" v then 1 else 0)%nat
  /\ st_false counts' = (st_false counts + if is_label "false" v then 1 else 0)%nat
  /\ st_misleading counts'
     = (st_misleading counts + if is_label "misleading" v then 1 else 0)%nat
  /\ st_unverified counts'
     = (st_unverified counts + if is_label "unverified" v then 1 else 0)%nat.
Proof.
  destruct v as [|b|q|s|items|fields]; cbn [count_verdict hashable is_label];
    try discriminate; try (intros [= <-]; repeat split; lia).
  destruct (String.eqb_spec s "true") as [->|_].
  { intros [= <-]. cbn. repeat split; lia. }
  destruct (String.eqb_spec s "false") as [->|_].
  { intros [= <-]. cbn. repeat split; lia. }
  destruct (String.eqb_spec s "misleading") as [->|_].
  { intros [= <-]. cbn. repeat split; lia. }
  destruct (String.eqb_spec s "unverified") as [->|_].
  { intros [= <-]. cbn. repeat split; lia. }
  intros [= <-]. repeat split; lia.
Qed.

Lemma count_verdicts_adds (verdicts : list json) :
  forall counts counts',
    count_verdicts verdicts counts = Ok counts' ->
    forallb hashable verdicts = true
    /\ st_true counts' = (st_true counts + occurrences "true" verdicts)%nat
    /\ st_false counts' = (st_false counts + occurrences "false" verdicts)%nat
    /\ st_misleading counts'
       = (st_misleading counts + occurrences "misleading" verdicts)%nat
    /\ st_unverified counts'
       = (st_unverified counts + occurrences "unverified" verdicts)%nat.
Proof.
  unfold occurrences.
  induction verdicts as [|v rest IH]; intros counts counts'; cbn [count_verdicts].
  - intros [= <-]. cbn. repeat split; lia.
  - destruct (count_verdict counts v) as [c1|e] eqn:Hv; [|discriminate].
    cbn [rbind]. intros Hrest.
    destruct (count_verdict_adds _ _ _ Hv) as (Hh & H1 & H2 & H3 & H4).
    destruct (IH _ _ Hrest) as (Hh' & H1' & H2' & H3' & H4').
    cbn [forallb filter]. rewrite Hh, Hh'.
    split; [reflexivity|].
    rewrite H1', H2', H3', H4', H1, H2, H3, H4.
    destruct (is_label "true" v), (is_label "false" v),
      (is_label "misleading" v), (is_label "unverified" v);
      cbn [List.length]; repeat split; lia.
Qed.

Lemma count_verdicts_total (verdicts : list json) :
  forall counts,
    forallb hashable verdicts = true ->
    exists counts', count_verdicts verdicts counts = Ok counts'.
Proof.
  induction verdicts as [|v rest IH]; intros counts; cbn [count_verdicts forallb].
  - now eexists.
  - intros H. apply Bool.andb_true_iff in H. destruct H as [Hv Hrest].
    destruct v; try discriminate; cbn [count_verdict rbind]; now apply IH.
Qed.

Lemma count_verdicts_raise (verdicts : list json) :
  forall counts,
    forallb hashable verdicts = false ->
    exists e, count_verdicts verdicts counts = Raise e.
Proof.
  induction verdicts as [|v rest IH]; intros counts; cbn [count_verdicts forallb].
  - discriminate.
  - intros H. destruct (count_verdict counts v) as [c1|e] eqn:Hv; [|now exists e].
    cbn [rbind]. apply IH.
    destruct (count_verdict_adds _ _ _ Hv) as (Hh & _). now rewrite Hh in H.
Qed.

(** Each verdict is counted under one key at most. *)
Lemma occurrences_known (verdicts : list json) :
  (occurrences "true" verdicts + occurrences "false" verdicts
   + occurrences "misleading" verdicts + occurrences "unverified" verdicts)%nat
  = List.length (filter known verdicts).
Proof.
  unfold occurrences, known.
  induction verdicts as [|v rest IH]; [reflexivity|].
  cbn [filter].
  destruct v as [|b|q|s|items|fields]; cbn [is_label orb]; try exact IH.
  destruct (String.eqb_spec s "true") as [->|_]; [cbn; lia|].
  destruct (String.eqb_spec s "false") as [->|_]; [cbn; lia|].
  destruct (String.eqb_spec s "misleading") as [->|_]; [cbn; lia|].
  destruct (String.eqb_spec s "unverified") as [->|_]; [cbn; lia|].
  cbn. exact IH.
Qed.

Lemma filter_all {A : Type} (f : A -> bool) (l : list A) :
  List.length (filter f l) = List.length l <-> forallb f l = true.
Proof.
  induction l as [|x l IH]; [now split|].
  cbn [filter forallb]. pose proof (filter_length_le f l) as Hle.
  destruct (f x); cbn [List.length andb].
  - rewrite <- IH. split; lia.
  - split; [lia|discriminate].
Qed.

(** The comparison of a percentage with a threshold, in integers. *)
Lemma percentage_ge (k : Z) (c n : nat) :
  (0 < n)%nat ->
  Qle_bool (inject_Z k) (percentage c n) = true
  <-> (k * Z.of_nat n <= 100 * Z.of_nat c)%Z.
Proof.
  intros Hn. unfold percentage. apply Nat.ltb_lt in Hn as Hb. rewrite Hb.
  rewrite Qle_bool_iff.
  pose proof (SignalProofs.of_nat_pos n Hn) as Hpos.
  assert (Hnz : ~ PyNum.of_nat n == 0) by lra.
  assert (Heq : PyNum.of_nat c / PyNum.of_nat n * 100
                == inject_Z (100 * Z.of_nat c) / PyNum.of_nat n).
  { rewrite inject_Z_mult. unfold PyNum.of_nat. field. exact Hnz. }
  rewrite Heq. split.
  - intros H. apply (Qmult_le_r _ _ (PyNum.of_nat n) Hpos) in H.
    assert (Hc : inject_Z (100 * Z.of_nat c) / PyNum.of_nat n * PyNum.of_nat n
                 == inject_Z (100 * Z.of_nat c)) by (field; exact Hnz).
    rewrite Hc in H. unfold PyNum.of_nat in H.
    rewrite <- inject_Z_mult in H. now rewrite Zle_Qle.
  - intros H. apply Qle_shift_div_l; [exact Hpos|].
    unfold PyNum.of_nat. rewrite <- inject_Z_mult. now rewrite <- Zle_Qle.
Qed.

Lemma percentage_range (count n : nat) :
  (count <= n)%nat -> 0 <= percentage count n /\ percentage count n <= 100.
Proof.
  intros Hle. unfold percentage.
  destruct (0 <? n)%nat eqn:Hb; [|split; vm_compute; discriminate].
  apply Nat.ltb_lt in Hb.
  pose proof (SignalProofs.of_nat_pos n Hb) as Hpos.
  pose proof (PyFacts.of_nat_nonneg count) as Hc.
  pose proof (SignalProofs.of_nat_le count n Hle) as Hcn.
  assert (H0 : 0 <= PyNum.of_nat count / PyNum.of_nat n).
  { apply Qle_shift_div_l; [exact Hpos|]. lra. }
  assert (H1 : PyNum.of_nat count / PyNum.of_nat n <= 1).
  { apply Qle_shift_div_r; [exact Hpos|]. lra. }
  split; lra.
Qed.

(** X28. The statistics of a document analysis.  When every verdict
    can be looked up, the figures are returned: each of the four counts
    is the number of verdicts that are exactly that string, so a verdict
    written in any other way is counted nowhere; the counts add up to
    at most the number of claims, and to that number exactly when every
    verdict is one of the four strings; each percentage lies between 0
    and 100.  Without any claim the report says 100 percent unverified.
    A verdict that is a list or a dict makes the analysis raise. *)
Theorem figures_statistics (verdicts : list json) :
  (forallb hashable verdicts = true ->
   exists f,
     figures_of verdicts = Ok f
     /\ total_claims f = List.length verdicts
     /\ st_true (fig_statistics f) = occurrences "true" verdicts
     /\ st_false (fig_statistics f) = occurrences "false" verdicts
     /\ st_misleading (fig_statistics f) = occurrences "misleading" verdicts
     /\ st_unverified (fig_statistics f) = occurrences "unverified" verdicts
     /\ (counted (fig_statistics f) <= List.length verdicts)%nat
     /\ (counted (fig_statistics f) = List.length verdicts
         <-> forallb known verdicts = true)
     /\ (0 <= pc_true (fig_percentages f) <= 100
         /\ 0 <= pc_false (fig_percentages f) <= 100
         /\ 0 <= pc_misleading (fig_percentages f) <= 100
         /\ 0 <= pc_unverified (fig_percentages f) <= 100)
     /\ (verdicts = [] -> pc_unverified (fig_percentages f) == 100))
  /\ (forallb hashable verdicts = false ->
      exists e, figures_of verdicts = Raise e).
Proof.
  split.
  - intros Hh. unfold figures_of.
    destruct verdicts as [|v0 rest].
    { eexists. split; [reflexivity|]. cbn. repeat split; try lia;
        vm_compute; discriminate. }
    remember (v0 :: rest) as verdicts eqn:Hvs.
    destruct (count_verdicts_total verdicts (mk_statistics 0 0 0 0) Hh)
      as (counts & Hc).
    rewrite Hc. cbn [rbind]. eexists. split; [reflexivity|].
    destruct (count_verdicts_adds _ _ _ Hc) as (_ & H1 & H2 & H3 & H4).
    cbn [st_true st_false st_misleading st_unverified Nat.add] in H1, H2, H3, H4.
    cbn [total_claims fig_statistics fig_percentages].
    assert (Hsum : counted counts = List.length (filter known verdicts)).
    { unfold counted. rewrite H1, H2, H3, H4. apply occurrences_known. }
    pose proof (filter_length_le known verdicts) as Hle.
    split; [reflexivity|]. repeat (split; [assumption|]).
    split; [lia|]. split; [rewrite Hsum; apply filter_all|]. split.
    + unfold percentages_of, counted in *.
      cbn [pc_true pc_false pc_misleading pc_unverified].
      repeat split; apply percentage_range; lia.
    + subst verdicts. discriminate.
  - intros Hh. unfold figures_of. destruct verdicts as [|v0 rest]; [discriminate|].
    destruct (count_verdicts_raise (v0 :: rest) (mk_statistics 0 0 0 0) Hh)
      as (e & ->).
    now exists e.
Qed.

(** X28 on three verdicts, one of them capitalised. *)
Lemma figures_statistics_witness :
  exists f,
    figures_of [JStr "true"; JStr "True"; JStr "false"] = Ok f
    /\ counted (fig_statistics f) = 2%nat.
Proof.
  destruct (figures_statistics [JStr "true"; JStr "True"; JStr "false"])
    as [H _].
  destruct (H eq_refl) as (f & Hf & _ & H1 & H2 & H3 & H4 & _).
  exists f. split; [exact Hf|].
  unfold counted. rewrite H1, H2, H3, H4. reflexivity.
Defined.

(** X29. The overall accuracy of a document with at least one claim is
    never "unknown".  With [n] claims of which [t] are true, [f] false
    and [m] misleading: "mostly_accurate" means at least 70 percent
    true; "mostly_false" means at least half false, which cannot hold
    together with 70 percent true, so an even split between true and
    false is "mostly_false"; "misleading" means at least 40 percent
    misleading and neither of the former; "mixed" means at least half
    true and none of the former; "unverified" is the rest. *)
Theorem overall_accuracy_cases (verdicts : list json) (f : figures) :
  verdicts <> [] ->
  figures_of verdicts = Ok f ->
  let n := List.length verdicts in
  let t := st_true (fig_statistics f) in
  let fl := st_false (fig_statistics f) in
  let m := st_misleading (fig_statistics f) in
  exists label,
    fig_overall_accuracy f = Some label
    /\ label <> "unknown"
    /\ (label = "mostly_accurate" <-> (7 * n <= 10 * t)%nat)
    /\ (label = "mostly_false" <-> (n <= 2 * fl)%nat)
    /\ (label = "misleading"
        <-> (10 * t < 7 * n /\ 2 * fl < n /\ 2 * n <= 5 * m)%nat)
    /\ (label = "mixed"
        <-> (n <= 2 * t /\ 10 * t < 7 * n /\ 2 * fl < n /\ 5 * m < 2 * n)%nat)
    /\ (label = "unverified"
        <-> (2 * t < n /\ 2 * fl < n /\ 5 * m < 2 * n)%nat).
Proof.
  intros Hne Hf. cbv zeta.
  assert (Hh : forallb hashable verdicts = true).
  { destruct (forallb hashable verdicts) eqn:Hh; [reflexivity|].
    unfold figures_of in Hf. destruct verdicts as [|v0 rest]; [congruence|].
    destruct (count_verdicts_raise (v0 :: rest) (mk_statistics 0 0 0 0) Hh)
      as (e & He).
    rewrite He in Hf. discriminate. }
  unfold figures_of in Hf. destruct verdicts as [|v0 rest]; [congruence|].
  remember (v0 :: rest) as verdicts eqn:Hvs.
  destruct (count_verdicts verdicts (mk_statistics 0 0 0 0)) as [counts|e] eqn:Hc;
    [|discriminate].
  cbn [rbind] in Hf. injection Hf as <-.
  cbn [fig_statistics fig_overall_accuracy].
  destruct (count_verdicts_adds _ _ _ Hc) as (_ & H1 & H2 & H3 & H4).
  cbn [st_true st_false st_misleading st_unverified Nat.add] in H1, H2, H3, H4.
  assert (Hsum : (counted counts <= List.length verdicts)%nat).
  { unfold counted. rewrite H1, H2, H3, H4, occurrences_known.
    apply filter_length_le. }
  unfold counted in Hsum.
  assert (Hn : (0 < List.length verdicts)%nat) by (subst verdicts; simpl; lia).
  clear H1 H2 H3 H4 Hc Hh Hne Hvs.
  generalize dependent (List.length verdicts). intros n Hsum Hn.
  unfold overall_accuracy, percentages_of.
  cbn [pc_true pc_false pc_misleading].
  assert (Hz : (n =? 0)%nat = false) by (apply Nat.eqb_neq; lia).
  rewrite Hz.
  pose proof (percentage_ge 70 (st_true counts) n Hn) as P70.
  pose proof (percentage_ge 50 (st_false counts) n Hn) as P50f.
  pose proof (percentage_ge 40 (st_misleading counts) n Hn) as P40.
  pose proof (percentage_ge 50 (st_true counts) n Hn) as P50t.
  change (inject_Z 70) with 70 in P70.
  change (inject_Z 50) with 50 in P50f, P50t.
  change (inject_Z 40) with 40 in P40.
  destruct (Qle_bool 70 (percentage (st_true counts) n)) eqn:B70.
  { eexists. split; [reflexivity|].
    assert (H : (70 * Z.of_nat n <= 100 * Z.of_nat (st_true counts))%Z)
      by now apply P70.
    split; [discriminate|].
    repeat split; try discriminate; try lia; intros; try lia. }
  assert (N70 : ~ (70 * Z.of_nat n <= 100 * Z.of_nat (st_true counts))%Z).
  { intros H. apply P70 in H. discriminate. }
  destruct (Qle_bool 50 (percentage (st_false counts) n)) eqn:B50f.
  { eexists. split; [reflexivity|].
    assert (H : (50 * Z.of_nat n <= 100 * Z.of_nat (st_false counts))%Z)
      by now apply P50f.
    split; [discriminate|].
    repeat split; try discriminate; try lia; intros; try lia. }
  assert (N50f : ~ (50 * Z.of_nat n <= 100 * Z.of_nat (st_false counts))%Z).
  { intros H. apply P50f in H. discriminate. }
  destruct (Qle_bool 40 (percentage (st_misleading counts) n)) eqn:B40.
  { eexists. split; [reflexivity|].
    assert (H : (40 * Z.of_nat n <= 100 * Z.of_nat (st_misleading counts))%Z)
      by now apply P40.
    split; [discriminate|].
    repeat split; try discriminate; try lia; intros; try lia. }
  assert (N40 : ~ (40 * Z.of_nat n <= 100 * Z.of_nat (st_misleading counts))%Z).
  { intros H. apply P40 in H. discriminate. }
  destruct (Qle_bool 50 (percentage (st_true counts) n)) eqn:B50t.
  { eexists. split; [reflexivity|].
    assert (H : (50 * Z.of_nat n <= 100 * Z.of_nat (st_true counts))%Z)
      by now apply P50t.
    split; [discriminate|].
    repeat split; try discriminate; try lia; intros; try lia. }
  assert (N50t : ~ (50 * Z.of_nat n <= 100 * Z.of_nat (st_true counts))%Z).
  { intros H. apply P50t in H. discriminate. }
  eexists. split; [reflexivity|]. split; [discriminate|].
  repeat split; try discriminate; try lia; intros; try lia.
Qed.

(** X29 on an even split between true and false. *)
Lemma overall_accuracy_cases_witness :
  exists f,
    figures_of [JStr "true"; JStr "false"] = Ok f
    /\ fig_overall_accuracy f = Some "mostly_false".
Proof.
  eexists. split; [reflexivity|].
  destruct (overall_accuracy_cases [JStr "true"; JStr "false"] _
              ltac:(discriminate) eq_refl)
    as (label & Hl & _).
  reflexivity.
Defined.

End KbProofs.

(** ** [detect_category] *)

Module CategoryProofs.

Import PyStr Category.

(** Keywords match whole words only, in any letter case, and the first
    of two categories with equal scores wins. *)
Example detect_category_whole_words :
  detect_category "He said hello" = "general"
  /\ detect_category "AI is everywhere" = "technology"
  /\ detect_category "Cricket" = "games"
  /\ count_matches "ai" "ai ai-ai said ai_ ai" = 4.
Proof. vm_compute. repeat split. Qed.

Lemma count_from_isin (keyword : string) (fuel : nat) :
  forall before s,
    (0 < count_from keyword before s fuel)%nat -> isin keyword s = true.
Proof.
  induction fuel as [|fuel IH]; intros before s; cbn [count_from]; [lia|].
  destruct (matches_here keyword before s) eqn:Hm.
  - intros _. unfold matches_here in Hm.
    apply Bool.andb_true_iff in Hm. destruct Hm as [Hm _].
    apply Bool.andb_true_iff in Hm. destruct Hm as [_ Hp].
    destruct s; cbn [isin]; now rewrite Hp.
  - destruct s as [|c t]; [lia|]. intros H.
    rewrite PyFacts.isin_cons. rewrite (IH _ _ H). apply Bool.orb_true_r.
Qed.

Lemma score_of_pos (keywords : list string) (s : string) :
  (0 < score_of keywords s)%nat ->
  exists keyword, In keyword keywords /\ (0 < count_matches keyword s)%nat.
Proof.
  unfold score_of.
  assert (H : forall acc,
             (acc < fold_left (fun score keyword => score + count_matches keyword s)
                              keywords acc)%nat ->
             exists keyword, In keyword keywords /\ (0 < count_matches keyword s)%nat).
  { induction keywords as [|k ks IH]; intros acc; cbn [fold_left]; [lia|].
    intros Hlt. destruct (Nat.eq_dec (count_matches k s) 0) as [Hz|Hnz].
    - rewrite Hz, Nat.add_0_r in Hlt. destruct (IH acc Hlt) as (k' & Hin & Hpos).
      exists k'. split; [now right|exact Hpos].
    - exists k. split; [now left|lia]. }
  apply H.
Qed.

Lemma category_scores_In (s : string) (c : string) (n : nat) :
  In (c, n) (category_scores s) ->
  exists keywords,
    In (c, keywords) CATEGORY_KEYWORDS
    /\ n = score_of keywords s /\ (0 < n)%nat.
Proof.
  unfold category_scores. intros H. apply in_flat_map in H.
  destruct H as ([c' kws] & Hin & H). cbn [fst snd] in H.
  destruct (0 <? score_of kws s)%nat eqn:Hpos; [|destruct H].
  destruct H as [[= <- <-]|[]]. exists kws. apply Nat.ltb_lt in Hpos. now repeat split.
Qed.

Lemma category_scores_complete (s : string) (c : string) (keywords : list string) :
  In (c, keywords) CATEGORY_KEYWORDS ->
  (0 < score_of keywords s)%nat ->
  In (c, score_of keywords s) (category_scores s).
Proof.
  intros Hin Hpos. unfold category_scores. apply in_flat_map.
  exists (c, keywords). split; [exact Hin|]. cbn [fst snd].
  apply Nat.ltb_lt in Hpos. rewrite Hpos. now left.
Qed.

Lemma keyword_categories (c : string) (keywords : list string) :
  In (c, keywords) CATEGORY_KEYWORDS -> In c CATEGORIES.
Proof.
  intros H. apply (in_map fst) in H. cbn [fst] in H.
  change CATEGORIES with (map fst CATEGORY_KEYWORDS ++ ["general"])%list.
  apply in_or_app. now left.
Qed.

(** X30. [detect_category] returns one of the listed categories.  A
    category other than "general" is returned only when one of its
    keywords occurs in the lower-cased text, and no category has a
    higher score; a text in which no keyword occurs, the empty text
    among them, is "general". *)
Theorem detect_category_keywords (claim_text : string) :
  In (detect_category claim_text) CATEGORIES
  /\ (detect_category claim_text <> "general" ->
      exists keywords keyword,
        In (detect_category claim_text, keywords) CATEGORY_KEYWORDS
        /\ In keyword keywords
        /\ isin keyword (lower claim_text) = true
        /\ forall c kws,
            In (c, kws) CATEGORY_KEYWORDS ->
            (score_of kws (lower claim_text)
             <= score_of keywords (lower claim_text))%nat)
  /\ ((forall c kws keyword,
          In (c, kws) CATEGORY_KEYWORDS -> In keyword kws ->
          isin keyword (lower claim_text) = false) ->
      detect_category claim_text = "general").
Proof.
  assert (Hgen : In "general" CATEGORIES).
  { change CATEGORIES with (map fst CATEGORY_KEYWORDS ++ ["general"])%list.
    apply in_or_app. right. now left. }
  unfold detect_category.
  destruct claim_text as [|ch rest].
  { split; [exact Hgen|]. split; [congruence|reflexivity]. }
  cbv zeta. set (claim_lower := lower (String ch rest)).
  destruct (category_scores claim_lower) as [|best0 others] eqn:Hscores.
  { cbn [Scoring.max_by_count]. split; [exact Hgen|]. split; [congruence|reflexivity]. }
  cbn [Scoring.max_by_count].
  destruct (AutoGenProofs.max_scan_greatest best0 others) as [Hin Hmax].
  rewrite <- Hscores in Hin, Hmax.
  destruct (Scoring.max_scan best0 others) as [c n]. cbn [fst snd] in *.
  destruct (category_scores_In _ _ _ Hin) as (keywords & Hk & Hn & Hpos).
  destruct (score_of_pos keywords claim_lower ltac:(lia)) as (keyword & Hkw & Hcount).
  apply count_from_isin in Hcount.
  split; [exact (keyword_categories c keywords Hk)|]. split.
  - intros _. exists keywords, keyword.
    split; [exact Hk|]. split; [exact Hkw|]. split; [exact Hcount|].
    intros c' kws Hin'.
    destruct (Nat.eq_dec (score_of kws claim_lower) 0) as [Hz|Hnz]; [lia|].
    rewrite <- Hn.
    apply (Hmax (c', score_of kws claim_lower)).
    apply category_scores_complete; [exact Hin'|lia].
  - intros Hnone. rewrite (Hnone c keywords keyword Hk Hkw) in Hcount. discriminate.
Qed.

End CategoryProofs.
